(** * Chat relay, error envelope and request schemas of the FastAPI backend

    A shallow embedding of
    - [app/schemas/chat.py]    (the pydantic request models),
    - [app/core/exceptions.py] (exception classes and the three handlers),
    - [app/api/chat.py]        (the two chat endpoints and their SSE bridge),
    - [app/main.py]            (registration of the exception handlers),
    followed by the properties the specification states about them. *)

From Stdlib Require Import List String Ascii ZArith Bool Lia.
From Stdlib Require Import Floats.PrimFloat.
From Stdlib Require Import DecimalString.
Import ListNotations.
Set Warnings "-register-all,-inexact-float".
Local Open Scope string_scope.
Local Open Scope list_scope.

(** ** Python values

    JSON-shaped Python values: what a request body parses to, what a stream
    event carries and what a [Dict[str, Any]] field holds.  A dict is kept as
    an association list in insertion order. *)

Inductive pyval : Type :=
| PNone
| PBool (b : bool)
| PInt (z : Z)
| PFloat (f : float)
| PStr (s : string)
| PList (l : list pyval)
| PDict (d : list (string * pyval)).

Definition pydict : Type := list (string * pyval).

(** Python truthiness, as used by [if event.data] and [x or y]. *)
Definition truthy (v : pyval) : bool :=
  match v with
  | PNone => false
  | PBool b => b
  | PInt z => negb (Z.eqb z 0)
  | PFloat f => negb (PrimFloat.eqb f 0%float)
  | PStr s => negb (String.eqb s "")
  | PList l => match l with [] => false | _ :: _ => true end
  | PDict d => match d with [] => false | _ :: _ => true end
  end.

(** Truthiness of the [Optional[...]] attributes the handlers test. *)
Definition truthy_str (o : option string) : bool :=
  match o with Some s => negb (String.eqb s "") | None => false end.

Definition truthy_int (o : option Z) : bool :=
  match o with Some z => negb (Z.eqb z 0) | None => false end.

Definition truthy_bool (o : option bool) : bool :=
  match o with Some b => b | None => false end.

(** [d.get(k)] *)
Fixpoint dict_get (k : string) (d : pydict) : option pyval :=
  match d with
  | [] => None
  | (k', v) :: d' => if String.eqb k k' then Some v else dict_get k d'
  end.

(** [str(i)] for an integer. *)
Definition str_int (z : Z) : string := NilZero.string_of_int (Z.to_int z).

(** [sep.join(parts)] *)
Fixpoint join (sep : string) (parts : list string) : string :=
  match parts with
  | [] => ""
  | [p] => p
  | p :: rest => p ++ sep ++ join sep rest
  end.

(** ** app/schemas/chat.py *)

Module ChatMessage.
Record t := Build {
  role : string;
  content : option string;
  name : option string;
  function_call : option pydict;
  tool_calls : option (list pydict);
  tool_call_id : option string
}.
End ChatMessage.

Module Tool.
Record t := Build {
  type : string;
  function : pydict
}.
End Tool.

Module AgentConfig.
Record t := Build {
  agent_type : string;
  specialization : option string;
  personality : option string;
  guidelines : option (list string);
  tools_enabled : option (list string);
  max_iterations : option Z;
  reasoning_mode : option string
}.
End AgentConfig.

Module MemoryConfig.
Record t := Build {
  memory_type : string;
  retention_policy : option string;
  max_memory_size : option Z;
  compression_enabled : option bool;
  retrieval_strategy : option string
}.
End MemoryConfig.

Module MCPConfig.
Record t := Build {
  context_window_size : Z;
  context_compression : bool;
  relevance_threshold : float;
  context_sources : list string;
  dynamic_context : bool
}.
End MCPConfig.

Module ChatCompletionRequest.
Record t := Build {
  model : string;
  messages : list ChatMessage.t;
  max_tokens : option Z;
  temperature : option float;
  top_p : option float;
  n : option Z;
  stream : option bool;
  stop : option (string + list string);
  presence_penalty : option float;
  frequency_penalty : option float;
  logit_bias : option (list (string * float));
  user : option string;
  tools : option (list Tool.t);
  tool_choice : option (string + pydict);
  agent_config : option AgentConfig.t;
  memory_config : option MemoryConfig.t;
  mcp_config : option MCPConfig.t;
  context_id : option string;
  session_id : option string;
  patient_id : option Z;
  include_patient_context : option bool;
  metadata : option pydict
}.
End ChatCompletionRequest.

Module Schemas.

(** One segment of a validation error's [loc] tuple: a key or an index. *)
Inductive loc_seg : Type :=
| LKey (s : string)
| LIdx (i : Z).

Definition loc_t : Type := list loc_seg.

(** One entry of [exc.errors()]: [error["loc"]], [error["msg"]],
    [error["type"]]. *)
Record ErrorEntry := {
  loc : loc_t;
  msg : string;
  type : string
}.

(** The kinds of failure the validation library reports for these models;
    the offending input is kept where the library's text depends on it. *)
Inductive err_kind : Type :=
| Missing
| StringType
| IntError (v : pyval)
| FloatError (v : pyval)
| BoolError (v : pyval)
| LiteralError (allowed : list string)
| ListType
| DictType
| ModelType.

(** What the models take from the validation library (pydantic): how a JSON
    value is read at a scalar type, and the text of its error entries.  The
    models of [schemas/chat.py] fix everything else. *)
Class Pydantic := {
  coerce_int : pyval -> option Z;
  coerce_float : pyval -> option float;
  coerce_bool : pyval -> option bool;
  err_msg : err_kind -> string;
  err_type : err_kind -> string
}.

(** The outcome of validating one value: every error found, or the value. *)
Definition V (A : Type) : Type := (list ErrorEntry + A)%type.

Definition validator (A : Type) : Type := loc_t -> pyval -> V A.

Definition ok {A} (a : A) : V A := inr a.

(** Errors of both sides are reported together. *)
Definition ap {A B} (f : V (A -> B)) (a : V A) : V B :=
  match f, a with
  | inr g, inr x => inr (g x)
  | inl e1, inl e2 => inl (e1 ++ e2)
  | inl e1, inr _ => inl e1
  | inr _, inl e2 => inl e2
  end.

Notation "f <*> a" := (ap f a) (at level 50, left associativity).

Definition errors_of {A} (r : V A) : list ErrorEntry :=
  match r with inl e => e | inr _ => [] end.

Section Validators.
Context `{Pydantic}.

Definition fail {A} (l : loc_t) (k : err_kind) : V A :=
  inl [ {| loc := l; msg := err_msg k; type := err_type k |} ].

Definition v_str : validator string := fun l v =>
  match v with PStr s => ok s | _ => fail l StringType end.

Definition v_int : validator Z := fun l v =>
  match coerce_int v with Some z => ok z | None => fail l (IntError v) end.

Definition v_float : validator float := fun l v =>
  match coerce_float v with Some f => ok f | None => fail l (FloatError v) end.

Definition v_bool : validator bool := fun l v =>
  match coerce_bool v with Some b => ok b | None => fail l (BoolError v) end.

(** [Literal[...]] of strings *)
Definition v_literal (allowed : list string) : validator string := fun l v =>
  match v with
  | PStr s => if existsb (String.eqb s) allowed then ok s
              else fail l (LiteralError allowed)
  | _ => fail l (LiteralError allowed)
  end.

(** [Optional[T]] *)
Definition v_optional {A} (vt : validator A) : validator (option A) := fun l v =>
  match v with
  | PNone => ok None
  | _ => ok Some <*> vt l v
  end.

Fixpoint v_items {A} (vt : validator A) (l : loc_t) (i : Z) (xs : list pyval)
  : V (list A) :=
  match xs with
  | [] => ok []
  | x :: xs' => ok cons <*> vt (l ++ [LIdx i]) x <*> v_items vt l (i + 1) xs'
  end.

(** [List[T]] *)
Definition v_list {A} (vt : validator A) : validator (list A) := fun l v =>
  match v with PList xs => v_items vt l 0 xs | _ => fail l ListType end.

Fixpoint v_entries {A} (vt : validator A) (l : loc_t) (d : pydict)
  : V (list (string * A)) :=
  match d with
  | [] => ok []
  | (k, x) :: d' =>
      ok (fun a r => (k, a) :: r) <*> vt (l ++ [LKey k]) x <*> v_entries vt l d'
  end.

(** [Dict[str, T]] *)
Definition v_dict {A} (vt : validator A) : validator (list (string * A)) :=
  fun l v => match v with PDict d => v_entries vt l d | _ => fail l DictType end.

(** [Dict[str, Any]] *)
Definition v_dict_any : validator pydict := fun l v =>
  match v with PDict d => ok d | _ => fail l DictType end.

(** [Union[A, B]]: the first member that accepts; when none does, the
    errors of each, under the member's tag. *)
Definition v_union {A B} (ta : string) (va : validator A)
                   (tb : string) (vb : validator B) : validator (A + B) :=
  fun l v =>
    match va (l ++ [LKey ta]) v with
    | inr a => ok (inl a)
    | inl ea =>
        match vb (l ++ [LKey tb]) v with
        | inr b => ok (inr b)
        | inl eb => inl (ea ++ eb)
        end
    end.

(** A field declared [Field(...)]: required. *)
Definition required {A} (d : pydict) (k : string) (vt : validator A)
                    (l : loc_t) : V A :=
  match dict_get k d with
  | Some x => vt (l ++ [LKey k]) x
  | None => fail (l ++ [LKey k]) Missing
  end.

(** A field declared [Field(default, ...)]: the default when the key is
    not supplied. *)
Definition with_default {A} (d : pydict) (k : string) (vt : validator A)
                        (default : A) (l : loc_t) : V A :=
  match dict_get k d with
  | Some x => vt (l ++ [LKey k]) x
  | None => ok default
  end.

Definition ROLES : list string :=
  ["system"; "user"; "assistant"; "function"; "tool"].

Definition validate_ChatMessage : validator ChatMessage.t := fun l v =>
  match v with
  | PDict d =>
      ok ChatMessage.Build
        <*> required d "role" (v_literal ROLES) l
        <*> with_default d "content" (v_optional v_str) None l
        <*> with_default d "name" (v_optional v_str) None l
        <*> with_default d "function_call" (v_optional v_dict_any) None l
        <*> with_default d "tool_calls" (v_optional (v_list v_dict_any)) None l
        <*> with_default d "tool_call_id" (v_optional v_str) None l
  | _ => fail l ModelType
  end.

Definition validate_Tool : validator Tool.t := fun l v =>
  match v with
  | PDict d =>
      ok Tool.Build
        <*> with_default d "type" (v_literal ["function"]) "function" l
        <*> required d "function" v_dict_any l
  | _ => fail l ModelType
  end.

Definition validate_AgentConfig : validator AgentConfig.t := fun l v =>
  match v with
  | PDict d =>
      ok AgentConfig.Build
        <*> required d "agent_type"
              (v_literal ["medical"; "general"; "specialist"]) l
        <*> with_default d "specialization" (v_optional v_str) None l
        <*> with_default d "personality" (v_optional v_str) None l
        <*> with_default d "guidelines" (v_optional (v_list v_str)) None l
        <*> with_default d "tools_enabled" (v_optional (v_list v_str)) None l
        <*> with_default d "max_iterations" (v_optional v_int) (Some 3%Z) l
        <*> with_default d "reasoning_mode"
              (v_optional (v_literal
                 ["chain_of_thought"; "tree_of_thought"; "reflection"]))
              (Some "chain_of_thought") l
  | _ => fail l ModelType
  end.

Definition validate_MemoryConfig : validator MemoryConfig.t := fun l v =>
  match v with
  | PDict d =>
      ok MemoryConfig.Build
        <*> required d "memory_type"
              (v_literal ["conversation"; "episodic"; "semantic"; "working"]) l
        <*> with_default d "retention_policy"
              (v_optional (v_literal ["session"; "persistent"; "temporary"]))
              (Some "session") l
        <*> with_default d "max_memory_size" (v_optional v_int) (Some 100%Z) l
        <*> with_default d "compression_enabled" (v_optional v_bool)
              (Some true) l
        <*> with_default d "retrieval_strategy"
              (v_optional (v_literal ["recent"; "relevant"; "hybrid"]))
              (Some "hybrid") l
  | _ => fail l ModelType
  end.

Definition validate_MCPConfig : validator MCPConfig.t := fun l v =>
  match v with
  | PDict d =>
      ok MCPConfig.Build
        <*> with_default d "context_window_size" v_int 4096%Z l
        <*> with_default d "context_compression" v_bool true l
        <*> with_default d "relevance_threshold" v_float 0.7%float l
        <*> with_default d "context_sources" (v_list v_str) [] l
        <*> with_default d "dynamic_context" v_bool true l
  | _ => fail l ModelType
  end.

Definition validate_ChatCompletionRequest
  : validator ChatCompletionRequest.t := fun l v =>
  match v with
  | PDict d =>
      ok ChatCompletionRequest.Build
        <*> required d "model" v_str l
        <*> required d "messages" (v_list validate_ChatMessage) l
        <*> with_default d "max_tokens" (v_optional v_int) (Some 1000%Z) l
        <*> with_default d "temperature" (v_optional v_float)
              (Some 0.7%float) l
        <*> with_default d "top_p" (v_optional v_float) (Some 1.0%float) l
        <*> with_default d "n" (v_optional v_int) (Some 1%Z) l
        <*> with_default d "stream" (v_optional v_bool) (Some false) l
        <*> with_default d "stop"
              (v_optional (v_union "str" v_str "list[str]" (v_list v_str)))
              None l
        <*> with_default d "presence_penalty" (v_optional v_float)
              (Some 0.0%float) l
        <*> with_default d "frequency_penalty" (v_optional v_float)
              (Some 0.0%float) l
        <*> with_default d "logit_bias" (v_optional (v_dict v_float)) None l
        <*> with_default d "user" (v_optional v_str) None l
        <*> with_default d "tools" (v_optional (v_list validate_Tool)) None l
        <*> with_default d "tool_choice"
              (v_optional (v_union "str" v_str "dict[str,any]" v_dict_any))
              None l
        <*> with_default d "agent_config" (v_optional validate_AgentConfig)
              None l
        <*> with_default d "memory_config" (v_optional validate_MemoryConfig)
              None l
        <*> with_default d "mcp_config" (v_optional validate_MCPConfig) None l
        <*> with_default d "context_id" (v_optional v_str) None l
        <*> with_default d "session_id" (v_optional v_str) None l
        <*> with_default d "patient_id" (v_optional v_int) None l
        <*> with_default d "include_patient_context" (v_optional v_bool)
              (Some false) l
        <*> with_default d "metadata" (v_optional v_dict_any) None l
  | _ => fail l ModelType
  end.
End Validators.

(** [model_dump()]: every declared field, nested models as dicts. *)
Definition dump_opt {A} (f : A -> pyval) (o : option A) : pyval :=
  match o with Some a => f a | None => PNone end.

Definition dump_list {A} (f : A -> pyval) (xs : list A) : pyval :=
  PList (map f xs).

Definition dump_dict {A} (f : A -> pyval) (d : list (string * A)) : pyval :=
  PDict (map (fun kv => (fst kv, f (snd kv))) d).

Definition dump_union {A B} (f : A -> pyval) (g : B -> pyval) (u : A + B)
  : pyval :=
  match u with inl a => f a | inr b => g b end.

Definition dump_ChatMessage (m : ChatMessage.t) : pyval :=
  PDict [
    ("role", PStr (ChatMessage.role m));
    ("content", dump_opt PStr (ChatMessage.content m));
    ("name", dump_opt PStr (ChatMessage.name m));
    ("function_call", dump_opt PDict (ChatMessage.function_call m));
    ("tool_calls", dump_opt (dump_list PDict) (ChatMessage.tool_calls m));
    ("tool_call_id", dump_opt PStr (ChatMessage.tool_call_id m)) ].

Definition dump_Tool (m : Tool.t) : pyval :=
  PDict [
    ("type", PStr (Tool.type m));
    ("function", PDict (Tool.function m)) ].

Definition dump_AgentConfig (m : AgentConfig.t) : pyval :=
  PDict [
    ("agent_type", PStr (AgentConfig.agent_type m));
    ("specialization", dump_opt PStr (AgentConfig.specialization m));
    ("personality", dump_opt PStr (AgentConfig.personality m));
    ("guidelines", dump_opt (dump_list PStr) (AgentConfig.guidelines m));
    ("tools_enabled", dump_opt (dump_list PStr) (AgentConfig.tools_enabled m));
    ("max_iterations", dump_opt PInt (AgentConfig.max_iterations m));
    ("reasoning_mode", dump_opt PStr (AgentConfig.reasoning_mode m)) ].

Definition dump_MemoryConfig (m : MemoryConfig.t) : pyval :=
  PDict [
    ("memory_type", PStr (MemoryConfig.memory_type m));
    ("retention_policy", dump_opt PStr (MemoryConfig.retention_policy m));
    ("max_memory_size", dump_opt PInt (MemoryConfig.max_memory_size m));
    ("compression_enabled",
       dump_opt PBool (MemoryConfig.compression_enabled m));
    ("retrieval_strategy", dump_opt PStr (MemoryConfig.retrieval_strategy m)) ].

Definition dump_MCPConfig (m : MCPConfig.t) : pyval :=
  PDict [
    ("context_window_size", PInt (MCPConfig.context_window_size m));
    ("context_compression", PBool (MCPConfig.context_compression m));
    ("relevance_threshold", PFloat (MCPConfig.relevance_threshold m));
    ("context_sources", dump_list PStr (MCPConfig.context_sources m));
    ("dynamic_context", PBool (MCPConfig.dynamic_context m)) ].

Definition dump_ChatCompletionRequest (r : ChatCompletionRequest.t) : pyval :=
  PDict [
    ("model", PStr (ChatCompletionRequest.model r));
    ("messages", dump_list dump_ChatMessage (ChatCompletionRequest.messages r));
    ("max_tokens", dump_opt PInt (ChatCompletionRequest.max_tokens r));
    ("temperature", dump_opt PFloat (ChatCompletionRequest.temperature r));
    ("top_p", dump_opt PFloat (ChatCompletionRequest.top_p r));
    ("n", dump_opt PInt (ChatCompletionRequest.n r));
    ("stream", dump_opt PBool (ChatCompletionRequest.stream r));
    ("stop", dump_opt (dump_union PStr (dump_list PStr))
               (ChatCompletionRequest.stop r));
    ("presence_penalty",
       dump_opt PFloat (ChatCompletionRequest.presence_penalty r));
    ("frequency_penalty",
       dump_opt PFloat (ChatCompletionRequest.frequency_penalty r));
    ("logit_bias",
       dump_opt (dump_dict PFloat) (ChatCompletionRequest.logit_bias r));
    ("user", dump_opt PStr (ChatCompletionRequest.user r));
    ("tools", dump_opt (dump_list dump_Tool) (ChatCompletionRequest.tools r));
    ("tool_choice", dump_opt (dump_union PStr PDict)
                      (ChatCompletionRequest.tool_choice r));
    ("agent_config",
       dump_opt dump_AgentConfig (ChatCompletionRequest.agent_config r));
    ("memory_config",
       dump_opt dump_MemoryConfig (ChatCompletionRequest.memory_config r));
    ("mcp_config",
       dump_opt dump_MCPConfig (ChatCompletionRequest.mcp_config r));
    ("context_id", dump_opt PStr (ChatCompletionRequest.context_id r));
    ("session_id", dump_opt PStr (ChatCompletionRequest.session_id r));
    ("patient_id", dump_opt PInt (ChatCompletionRequest.patient_id r));
    ("include_patient_context",
       dump_opt PBool (ChatCompletionRequest.include_patient_context r));
    ("metadata", dump_opt PDict (ChatCompletionRequest.metadata r)) ].

End Schemas.

(** The response model both chat routes declare
    ([response_model=ChatCompletionResponse], api/chat.py 28 and 74;
    schemas/chat.py 180-190). *)

Module ChatCompletionResponse.
Record t := Build {
  id : string;
  object : string;
  created : Z;
  model : string;
  choices : list pydict;
  usage : option (list (string * Z));
  agent_info : option pydict;
  memory_info : option pydict;
  tool_execution_info : option pydict
}.
End ChatCompletionResponse.

Module ResponseModel.
Import Schemas.

Section Validators.
Context `{Pydantic}.

Definition validate_ChatCompletionResponse
  : validator ChatCompletionResponse.t := fun l v =>
  match v with
  | PDict d =>
      ok ChatCompletionResponse.Build
        <*> required d "id" v_str l
        <*> required d "object"
              (v_literal ["chat.completion"; "chat.completion.chunk"]) l
        <*> required d "created" v_int l
        <*> required d "model" v_str l
        <*> required d "choices" (v_list v_dict_any) l
        <*> with_default d "usage" (v_optional (v_dict v_int)) None l
        <*> with_default d "agent_info" (v_optional v_dict_any) None l
        <*> with_default d "memory_info" (v_optional v_dict_any) None l
        <*> with_default d "tool_execution_info" (v_optional v_dict_any)
              None l
  | _ => fail l ModelType
  end.
End Validators.

Definition dump_ChatCompletionResponse (m : ChatCompletionResponse.t) : pyval :=
  PDict [
    ("id", PStr (ChatCompletionResponse.id m));
    ("object", PStr (ChatCompletionResponse.object m));
    ("created", PInt (ChatCompletionResponse.created m));
    ("model", PStr (ChatCompletionResponse.model m));
    ("choices", dump_list PDict (ChatCompletionResponse.choices m));
    ("usage", dump_opt (dump_dict PInt) (ChatCompletionResponse.usage m));
    ("agent_info", dump_opt PDict (ChatCompletionResponse.agent_info m));
    ("memory_info", dump_opt PDict (ChatCompletionResponse.memory_info m));
    ("tool_execution_info",
       dump_opt PDict (ChatCompletionResponse.tool_execution_info m)) ].

(** What the framework does with the object a chat endpoint returns: it
    validates it against the response model and sends the validated model
    serialised, every declared field included; an object that does not
    validate is not sent. *)
Definition serialize_response `{Pydantic} (response : pyval)
  : list ErrorEntry + pyval :=
  match validate_ChatCompletionResponse [LKey "response"] response with
  | inl errors => inl errors
  | inr m => inr (dump_ChatCompletionResponse m)
  end.

End ResponseModel.

(** ** Logging

    What the handlers hand to [logger.info] / [logger.error], by call site;
    the formatted text is left to the logging library. *)

Inductive log_record : Type :=
| InfoPatientContext (patient_id : option Z) (include_patient_context : option bool)
| InfoNoPatientContext
| InfoStreamRequest (request : ChatCompletionRequest.t)
| ErrorHTTPException (status_code : Z) (detail : string)
| ErrorValidation (errors : list Schemas.ErrorEntry)
| ErrorUnhandled (type_name : string) (text : string)
| ErrorTraceback.

(** ** app/core/exceptions.py *)

Module ErrorDetail.
Record t := Build {
  type : string;
  message : string;
  field : option string;
  code : option string
}.
End ErrorDetail.

Module ErrorResponse.
Record t := Build {
  success : bool;
  error : string;
  message : string;
  details : option (list ErrorDetail.t);
  status_code : Z;
  timestamp : string;
  path : option string;
  request_id : option string
}.
End ErrorResponse.

Module Exceptions.
Import Schemas.

Definition header_map : Type := list (string * string).

(** The classes deriving from [BusinessException], itself included. *)
Inductive business_class : Type :=
| Business
| Validation
| Authentication
| Authorization
| NotFound
| Conflict.

(** Instances of [fastapi.HTTPException]: the class itself, or
    [BusinessException] and its subclasses with their two extra attributes. *)
Inductive http_exception : Type :=
| HTTPException (status_code : Z) (detail : string) (headers : option header_map)
| BusinessExc (cls : business_class) (status_code : Z) (detail : string)
              (headers : option header_map)
              (error_code : option string) (field : option string).

(** Instances of [Exception] that reach the handlers. *)
Inductive exn : Type :=
| HTTPExc (h : http_exception)
| RequestValidationError (errors : list ErrorEntry)
| PyException (type_name : string) (args : list pyval).

Definition exc_status_code (h : http_exception) : Z :=
  match h with
  | HTTPException s _ _ => s
  | BusinessExc _ s _ _ _ _ => s
  end.

Definition exc_detail (h : http_exception) : string :=
  match h with
  | HTTPException _ d _ => d
  | BusinessExc _ _ d _ _ _ => d
  end.

(** [type(exc).__name__] *)
Definition business_class_name (c : business_class) : string :=
  match c with
  | Business => "BusinessException"
  | Validation => "ValidationException"
  | Authentication => "AuthenticationException"
  | Authorization => "AuthorizationException"
  | NotFound => "NotFoundException"
  | Conflict => "ConflictException"
  end.

Definition type_name (e : exn) : string :=
  match e with
  | HTTPExc (HTTPException _ _ _) => "HTTPException"
  | HTTPExc (BusinessExc c _ _ _ _ _) => business_class_name c
  | RequestValidationError _ => "RequestValidationError"
  | PyException n _ => n
  end.

(** A keyword argument left out takes the declared default. *)
Definition kwarg {A} (given : option A) (default : A) : A :=
  match given with Some a => a | None => default end.

Definition HTTP_400_BAD_REQUEST : Z := 400.
Definition HTTP_401_UNAUTHORIZED : Z := 401.
Definition HTTP_403_FORBIDDEN : Z := 403.
Definition HTTP_404_NOT_FOUND : Z := 404.
Definition HTTP_409_CONFLICT : Z := 409.
Definition HTTP_422_UNPROCESSABLE_ENTITY : Z := 422.
Definition HTTP_500_INTERNAL_SERVER_ERROR : Z := 500.

(** [BusinessException.__init__] (35-47) *)
Definition BusinessException (status_code : option Z) (detail : option string)
    (error_code : option string) (field : option string)
    (headers : option header_map) : http_exception :=
  BusinessExc Business
    (kwarg status_code HTTP_400_BAD_REQUEST)
    (kwarg detail "业务处理异常")
    headers error_code field.

(** The subclasses (50-120): each fixes the status and passes the rest on. *)
Definition ValidationException (detail : option string) (field : option string)
    (error_code : option string) : http_exception :=
  BusinessExc Validation HTTP_422_UNPROCESSABLE_ENTITY
    (kwarg detail "数据验证失败") None
    (Some (kwarg error_code "VALIDATION_ERROR")) field.

Definition AuthenticationException (detail : option string)
    (error_code : option string) : http_exception :=
  BusinessExc Authentication HTTP_401_UNAUTHORIZED
    (kwarg detail "认证失败") (Some [("WWW-Authenticate", "Bearer")])
    (Some (kwarg error_code "AUTHENTICATION_ERROR")) None.

Definition AuthorizationException (detail : option string)
    (error_code : option string) : http_exception :=
  BusinessExc Authorization HTTP_403_FORBIDDEN
    (kwarg detail "权限不足") None
    (Some (kwarg error_code "AUTHORIZATION_ERROR")) None.

Definition NotFoundException (detail : option string)
    (error_code : option string) : http_exception :=
  BusinessExc NotFound HTTP_404_NOT_FOUND
    (kwarg detail "资源不存在") None
    (Some (kwarg error_code "NOT_FOUND")) None.

Definition ConflictException (detail : option string)
    (error_code : option string) : http_exception :=
  BusinessExc Conflict HTTP_409_CONFLICT
    (kwarg detail "资源冲突") None
    (Some (kwarg error_code "CONFLICT")) None.

(** The part of [fastapi.Request] the handlers read: [request.url.path]. *)
Record Request := { url_path : string }.

(** [JSONResponse(status_code=..., content=...)] *)
Record JSONResponse := {
  status_code : Z;
  content : pyval
}.

(** [ErrorDetail.model_dump()] and [ErrorResponse.model_dump()] *)
Definition dump_ErrorDetail (d : ErrorDetail.t) : pyval :=
  PDict [
    ("type", PStr (ErrorDetail.type d));
    ("message", PStr (ErrorDetail.message d));
    ("field", dump_opt PStr (ErrorDetail.field d));
    ("code", dump_opt PStr (ErrorDetail.code d)) ].

Definition dump_ErrorResponse (r : ErrorResponse.t) : pyval :=
  PDict [
    ("success", PBool (ErrorResponse.success r));
    ("error", PStr (ErrorResponse.error r));
    ("message", PStr (ErrorResponse.message r));
    ("details", dump_opt (dump_list dump_ErrorDetail) (ErrorResponse.details r));
    ("status_code", PInt (ErrorResponse.status_code r));
    ("timestamp", PStr (ErrorResponse.timestamp r));
    ("path", dump_opt PStr (ErrorResponse.path r));
    ("request_id", dump_opt PStr (ErrorResponse.request_id r)) ].

Section Handlers.
(** [datetime.utcnow().isoformat()] at the time of the call. *)
Variable utcnow_isoformat : string.
(** [str(exc)], which the exception's class defines. *)
Variable str_exc : exn -> string.

(** [create_error_response] (123-143) *)
Definition create_error_response (request : option Request) (status_code : Z)
    (error message : string) (details : option (list ErrorDetail.t))
    (request_id : option string) : ErrorResponse.t :=
  {| ErrorResponse.success := false;
     ErrorResponse.error := error;
     ErrorResponse.message := message;
     ErrorResponse.details :=
       Some (match details with
             | Some (d :: ds) => d :: ds
             | _ => []
             end);
     ErrorResponse.status_code := status_code;
     ErrorResponse.timestamp := (utcnow_isoformat ++ "Z")%string;
     ErrorResponse.path :=
       match request with Some r => Some (url_path r) | None => None end;
     ErrorResponse.request_id := request_id |}.

Definition error_type_map : list (Z * string) :=
  [ (400, "BAD_REQUEST"); (401, "UNAUTHORIZED"); (403, "FORBIDDEN");
    (404, "NOT_FOUND"); (405, "METHOD_NOT_ALLOWED"); (409, "CONFLICT");
    (422, "UNPROCESSABLE_ENTITY"); (500, "INTERNAL_SERVER_ERROR") ]%Z.

Fixpoint map_get (k : Z) (m : list (Z * string)) (default : string) : string :=
  match m with
  | [] => default
  | (k', v) :: m' => if Z.eqb k k' then v else map_get k m' default
  end.

(** [x or y] on an optional string *)
Definition str_or (x : option string) (y : string) : string :=
  match x with
  | Some s => if String.eqb s "" then y else s
  | None => y
  end.

(** [http_exception_handler] (146-191) *)
Definition http_exception_handler (request : option Request)
    (exc : http_exception) : list log_record * JSONResponse :=
  let error_response :=
    match exc with
    | BusinessExc _ status detail _ error_code field =>
        let details :=
          if truthy_str field || truthy_str error_code then
            [ {| ErrorDetail.type := "business_error";
                 ErrorDetail.message := detail;
                 ErrorDetail.field := field;
                 ErrorDetail.code := error_code |} ]
          else [] in
        create_error_response request status
          (str_or error_code "BUSINESS_ERROR") detail (Some details) None
    | HTTPException status detail _ =>
        create_error_response request status
          (map_get status error_type_map "HTTP_ERROR") detail None None
    end in
  ( [ ErrorHTTPException (exc_status_code exc) (exc_detail exc) ],
    {| status_code := exc_status_code exc;
       content := dump_ErrorResponse error_response |} ).

Definition str_loc (s : loc_seg) : string :=
  match s with LKey k => k | LIdx i => str_int i end.

(** [".".join(str(loc) for loc in error["loc"][1:]) if len(error["loc"]) > 1
    else None] *)
Definition field_name (l : loc_t) : option string :=
  if (1 <? List.length l)%nat then Some (join "." (map str_loc (tl l)))
  else None.

Definition validation_detail (error : ErrorEntry) : ErrorDetail.t :=
  {| ErrorDetail.type := "validation_error";
     ErrorDetail.message := msg error;
     ErrorDetail.field := field_name (loc error);
     ErrorDetail.code := Some (type error) |}.

(** [validation_exception_handler] (194-223) *)
Definition validation_exception_handler (request : option Request)
    (errors : list ErrorEntry) : list log_record * JSONResponse :=
  let details := map validation_detail errors in
  let error_response :=
    create_error_response request HTTP_422_UNPROCESSABLE_ENTITY
      "VALIDATION_ERROR" "请求数据验证失败" (Some details) None in
  ( [ ErrorValidation errors ],
    {| status_code := HTTP_422_UNPROCESSABLE_ENTITY;
       content := dump_ErrorResponse error_response |} ).

Definition GENERIC_MESSAGE : string := "服务器内部错误，请稍后重试".

(** [general_exception_handler] (226-257); [environment] is the value of
    the variable ENVIRONMENT, [None] when it is not set. *)
Definition general_exception_handler (environment : option string)
    (request : option Request) (exc : exn) : list log_record * JSONResponse :=
  let is_development :=
    String.eqb (kwarg environment "development") "development" in
  let '(message, details) :=
    if is_development then
      ( (type_name exc ++ ": " ++ str_exc exc)%string,
        [ {| ErrorDetail.type := "system_error";
             ErrorDetail.message := str_exc exc;
             ErrorDetail.field := None;
             ErrorDetail.code := Some (type_name exc) |} ] )
    else (GENERIC_MESSAGE, []) in
  let error_response :=
    create_error_response request HTTP_500_INTERNAL_SERVER_ERROR
      "INTERNAL_SERVER_ERROR" message (Some details) None in
  ( [ ErrorUnhandled (type_name exc) (str_exc exc); ErrorTraceback ],
    {| status_code := HTTP_500_INTERNAL_SERVER_ERROR;
       content := dump_ErrorResponse error_response |} ).
End Handlers.

End Exceptions.

(** ** app/api/chat.py *)

Module Relay.
Import Exceptions.

(** A stream event as [generate] reads it: [event.type] and [event.data]
    ([PNone] when the event carries no payload). *)
Record ChatStreamEvent := {
  ev_type : string;
  ev_data : pyval
}.

(** An asynchronous generator, unfolded to what iterating it does: it
    yields an item and goes on, it stops, or it raises. *)
Inductive agen (A : Type) : Type :=
| AStop
| AYield (a : A) (rest : agen A)
| ARaise (e : exn).
Arguments AStop {A}.
Arguments AYield {A} a rest.
Arguments ARaise {A} e.

(** [items] first, then whatever [rest] does. *)
Fixpoint yield_all {A} (items : list A) (rest : agen A) : agen A :=
  match items with
  | [] => rest
  | a :: items' => AYield a (yield_all items' rest)
  end.

(** What the consumer of a generator receives, and how the iteration ends. *)
Fixpoint emitted {A} (g : agen A) : list A :=
  match g with
  | AStop => []
  | AYield a rest => a :: emitted rest
  | ARaise _ => []
  end.

Fixpoint raised {A} (g : agen A) : option exn :=
  match g with
  | AStop => None
  | AYield _ rest => raised rest
  | ARaise e => Some e
  end.

Definition LF : string := String (ascii_of_nat 10) EmptyString.

Definition DONE_FRAME : string := ("data: [DONE]" ++ LF ++ LF)%string.

(** [StreamingResponse(generate(), media_type=..., headers=...)] *)
Record StreamingResponse := {
  body_iterator : agen string;
  media_type : string;
  headers : list (string * string)
}.

Section Endpoints.
(** The database session and the object [chat_completion] returns. *)
Variables Session Response : Type.

(** [json.dumps], of the standard library. *)
Variable json_dumps : pyval -> string.
(** [str(e)], which the exception's class defines. *)
Variable str_exc : exn -> string.

(** [ai_chat_service]: the two operations the endpoints call.  The
    single-shot one returns or raises; the streaming one is an
    asynchronous generator. *)
Record AIChatService := {
  chat_completion :
    Session -> ChatCompletionRequest.t -> exn + Response;
  chat_completion_stream :
    Session -> ChatCompletionRequest.t -> agen ChatStreamEvent
}.
Variable ai_chat_service : AIChatService.

(** What running a handler body does besides returning. *)
Inductive effect : Type :=
| Log (r : log_record)
| AwaitChatCompletion (db : Session) (request : ChatCompletionRequest.t).

(** What a handler returns. *)
Inductive returned : Type :=
| ReturnResponse (response : Response)
| ReturnStreaming (sr : StreamingResponse).

Definition message_frame (data : pyval) : string :=
  ("data: " ++ json_dumps data ++ LF ++ LF)%string.

(** [generate()] (47-54 and 92-99), over the events of
    [chat_completion_stream(db, request)]. *)
Fixpoint generate (events : agen ChatStreamEvent) : agen string :=
  match events with
  | AStop => AStop
  | ARaise e => ARaise e
  | AYield event rest =>
      if String.eqb (ev_type event) "message" && truthy (ev_data event) then
        AYield (message_frame (ev_data event)) (generate rest)
      else if String.eqb (ev_type event) "done" then
        AYield DONE_FRAME AStop
      else generate rest
  end.

(** The number of upstream events [generate] pulls before it ends. *)
Fixpoint pulled (events : agen ChatStreamEvent) : nat :=
  match events with
  | AStop => 0
  | ARaise _ => 0
  | AYield event rest =>
      if String.eqb (ev_type event) "message" && truthy (ev_data event) then
        S (pulled rest)
      else if String.eqb (ev_type event) "done" then 1
      else S (pulled rest)
  end.

Definition STREAM_HEADERS : list (string * string) :=
  [ ("Cache-Control", "no-cache");
    ("Connection", "keep-alive");
    ("Content-Type", "text/plain; charset=utf-8") ].

(** The statements of a handler before the provider is reached: the two
    [logger.info] calls. *)
Definition log_request (request : ChatCompletionRequest.t) : list effect :=
  [ Log (if truthy_int (ChatCompletionRequest.patient_id request) then
           InfoPatientContext
             (ChatCompletionRequest.patient_id request)
             (ChatCompletionRequest.include_patient_context request)
         else InfoNoPatientContext);
    Log (InfoStreamRequest request) ].

(** [except Exception as e: raise HTTPException(status_code=500,
    detail=str(e))] *)
Definition reraise_500 (e : exn) : exn :=
  HTTPExc (HTTPException 500 (str_exc e) None).

(** POST /colposcopy (28-71) *)
Definition colposcopy_chat_completions {UploadFile : Type}
    (request : ChatCompletionRequest.t) (files : list UploadFile)
    (db : Session) : list effect * (exn + returned) :=
  if truthy_bool (ChatCompletionRequest.stream request) then
    ( log_request request,
      inr (ReturnStreaming
             {| body_iterator :=
                  generate (chat_completion_stream ai_chat_service db request);
                media_type := "text/plain";
                headers := STREAM_HEADERS |}) )
  else
    ( log_request request ++ [ AwaitChatCompletion db request ],
      match chat_completion ai_chat_service db request with
      | inr response => inr (ReturnResponse response)
      | inl e => inl (reraise_500 e)
      end ).

(** POST /completions (74-116) *)
Definition completions_chat_completions
    (request : ChatCompletionRequest.t)
    (db : Session) : list effect * (exn + returned) :=
  if truthy_bool (ChatCompletionRequest.stream request) then
    ( log_request request,
      inr (ReturnStreaming
             {| body_iterator :=
                  generate (chat_completion_stream ai_chat_service db request);
                media_type := "text/plain";
                headers := STREAM_HEADERS |}) )
  else
    ( log_request request ++ [ AwaitChatCompletion db request ],
      match chat_completion ai_chat_service db request with
      | inr response => inr (ReturnResponse response)
      | inl e => inl (reraise_500 e)
      end ).

(** How often a run awaited [chat_completion]. *)
Definition is_await (e : effect) : bool :=
  match e with AwaitChatCompletion _ _ => true | Log _ => false end.

Definition await_count (trace : list effect) : nat :=
  List.length (filter is_await trace).
End Endpoints.

Arguments Log {Session} r.
Arguments AwaitChatCompletion {Session} db request.
Arguments ReturnResponse {Response} response.
Arguments ReturnStreaming {Response} sr.
Arguments chat_completion {Session Response} _ db request.
Arguments chat_completion_stream {Session Response} _ db request.
Arguments log_request {Session} request.
Arguments await_count {Session} trace.
Arguments colposcopy_chat_completions {Session Response} json_dumps str_exc
  ai_chat_service {UploadFile} request files db.
Arguments completions_chat_completions {Session Response} json_dumps str_exc
  ai_chat_service request db.

End Relay.

(** ** app/main.py *)

Module App.
Import Schemas Exceptions Relay.

(** What the client receives. *)
Inductive HTTPResponse : Type :=
| JSONBody (status : Z) (content : pyval)
| StreamBody (status : Z) (media_type : string)
             (headers : list (string * string)) (frames : agen string).

Definition status (r : HTTPResponse) : Z :=
  match r with
  | JSONBody s _ => s
  | StreamBody s _ _ _ => s
  end.

(** [error["loc"]] and an entry of [exc.errors()], as Python values. *)
Definition dump_loc (l : loc_t) : pyval :=
  PList (map (fun s => match s with LKey k => PStr k | LIdx i => PInt i end) l).

Definition dump_ErrorEntry (e : ErrorEntry) : pyval :=
  PDict [ ("type", PStr (type e)); ("loc", dump_loc (loc e));
          ("msg", PStr (msg e)) ].

(** The exception the framework raises when a returned object does not
    validate against the route's response model. *)
Definition ResponseValidationError (errors : list ErrorEntry) : exn :=
  PyException "ResponseValidationError" [ PList (map dump_ErrorEntry errors) ].

Section Application.
Variables Session Response : Type.
Variable utcnow_isoformat : string.
Variable str_exc : exn -> string.
Variable environment : option string.
(** What the route's [response_model] makes of a returned object: the
    body to send, or the validation errors.  Both chat routes declare
    [ChatCompletionResponse], that is [ResponseModel.serialize_response]. *)
Variable response_model : Response -> list ErrorEntry + pyval.

(** The handlers registered at 59-61, looked up by the class of the
    exception: [HTTPException] (and so every [BusinessException]),
    [RequestValidationError], and [Exception] for the rest. *)
Definition handle_exception (request : option Request) (e : exn)
  : list log_record * JSONResponse :=
  match e with
  | HTTPExc h => http_exception_handler utcnow_isoformat request h
  | RequestValidationError errors =>
      validation_exception_handler utcnow_isoformat request errors
  | PyException _ _ =>
      general_exception_handler utcnow_isoformat str_exc environment request e
  end.

(** The response to a request on which one of the chat endpoints has run,
    from what the endpoint did.  A returned object goes through the
    route's response model: when it validates, the serialised model is
    sent with status 200; when it does not, the framework raises
    [ResponseValidationError], which only the catch-all handler covers.
    A [StreamingResponse] is sent as it stands (its status is 200), and an
    exception of the endpoint goes through the registered handlers.
    [request] is the request of the route that ran: its path is the one
    the envelope reports.  Whether a request reaches an endpoint at all is
    settled before, when the framework reads the endpoint's parameters
    from it ([/colposcopy] declares [File(...)] beside the model, so its
    body is read as a form); [respond] starts from an endpoint that has
    run. *)
Definition respond (request : option Request)
    (outcome : list (effect Session) * (exn + returned Response))
  : list log_record * HTTPResponse :=
  match snd outcome with
  | inr (ReturnResponse response) =>
      match response_model response with
      | inr body => ([], JSONBody 200 body)
      | inl errors =>
          let '(logs, r) :=
            handle_exception request (ResponseValidationError errors) in
          (logs, JSONBody (status_code r) (content r))
      end
  | inr (ReturnStreaming sr) =>
      ([], StreamBody 200 (media_type sr) (headers sr) (body_iterator sr))
  | inl e =>
      let '(logs, r) := handle_exception request e in
      (logs, JSONBody (status_code r) (content r))
  end.
End Application.

Arguments respond {Session Response} utcnow_isoformat str_exc environment
  response_model request outcome.




End App.

(** * Definitions used in the statements *)

Import Schemas ResponseModel Exceptions Relay App.

(** A ["message"] event with a payload that is not empty: the one kind of
    event that is framed. *)
Definition is_payload_message (event : ChatStreamEvent) : bool :=
  String.eqb (ev_type event) "message" && truthy (ev_data event).

(** ** Sample data *)

Definition demo_dumps (v : pyval) : string :=
  match v with PStr s => s | _ => "{}" end.

Definition demo_before : list ChatStreamEvent :=
  [ {| ev_type := "message"; ev_data := PStr "hello" |};
    {| ev_type := "message"; ev_data := PNone |};
    {| ev_type := "message"; ev_data := PDict [] |};
    {| ev_type := "error"; ev_data := PStr "ignored" |} ].



(** [v[k]] on a dict. *)
Definition item (v : pyval) (k : string) : option pyval :=
  match v with PDict d => dict_get k d | _ => None end.

(** The response the specification describes for the endpoints' local
    catch-all: status 500 and the bare body [{"detail": text}]. *)
Definition bare_detail_response (text : string) : HTTPResponse :=
  JSONBody 500 (PDict [("detail", PStr text)]).

(** The envelope that reaches the client when an endpoint re-raises:
    [http_exception_handler] on [HTTPException(500, text)]. *)
Definition reraised_envelope (utcnow_isoformat : string)
    (request : option Request) (text : string) : ErrorResponse.t :=
  {| ErrorResponse.success := false;
     ErrorResponse.error := "INTERNAL_SERVER_ERROR";
     ErrorResponse.message := text;
     ErrorResponse.details := Some [];
     ErrorResponse.status_code := 500;
     ErrorResponse.timestamp := (utcnow_isoformat ++ "Z")%string;
     ErrorResponse.path := option_map url_path request;
     ErrorResponse.request_id := None |}.

(** The development-mode test of [general_exception_handler]. *)
Definition development_mode (environment : option string) : bool :=
  String.eqb (kwarg environment "development") "development".

Definition demo_now : string := "2025-01-01T00:00:00".

Definition demo_http_request : option Request :=
  Some {| url_path := "/api/v1/chat/completions" |}.

Definition demo_message : ChatMessage.t :=
  ChatMessage.Build "user" (Some "hi") None None None None.

Definition demo_request (stream : option bool) : ChatCompletionRequest.t :=
  ChatCompletionRequest.Build "gpt-4" [demo_message]
    (Some 1000%Z) (Some 0.7%float) (Some 1.0%float) (Some 1%Z) stream None
    (Some 0.0%float) (Some 0.0%float) None None None None None None None
    None (Some "session_123") None (Some false) None.

Definition demo_str_exc (e : exn) : string :=
  match e with
  | HTTPExc h => (str_int (exc_status_code h) ++ ": " ++ exc_detail h)%string
  | RequestValidationError _ => "validation failed"
  | PyException _ (PStr s :: _) => s
  | PyException _ _ => ""
  end.



Definition failing_service : AIChatService unit pyval :=
  {| chat_completion := fun _ _ =>
       inl (PyException "RuntimeError" [PStr "boom"]);
     chat_completion_stream := fun _ _ => AStop |}.

Definition raising_service (h : http_exception) : AIChatService unit pyval :=
  {| chat_completion := fun _ _ => inl (HTTPExc h);
     chat_completion_stream := fun _ _ => AStop |}.

(** The one detail entry [http_exception_handler] builds for a
    [BusinessException]. *)
Definition business_detail (detail : string) (error_code field : option string)
  : ErrorDetail.t :=
  {| ErrorDetail.type := "business_error";
     ErrorDetail.message := detail;
     ErrorDetail.field := field;
     ErrorDetail.code := error_code |}.

(** The detail entry of [general_exception_handler] in development mode. *)
Definition system_detail (type_name text : string) : ErrorDetail.t :=
  {| ErrorDetail.type := "system_error";
     ErrorDetail.message := text;
     ErrorDetail.field := None;
     ErrorDetail.code := Some type_name |}.

(** The alternatives of a [Literal], as the library's message lists them:
    ['a', 'b' or 'c']. *)
Fixpoint quoted_alternatives (allowed : list string) : string :=
  match allowed with
  | [] => ""
  | [a] => "'" ++ a ++ "'"
  | [a; b] => "'" ++ a ++ "' or '" ++ b ++ "'"
  | a :: rest => "'" ++ a ++ "', " ++ quoted_alternatives rest
  end.

(** A reading of scalars that accepts a JSON value only at its own type:
    the least the library reads (its default mode also converts, see
    [digit_string_scalars] below), with the library's texts for the
    errors.  It serves to run the validators on sample bodies; the
    theorems below are stated for every instance. *)
#[local] Instance exact_scalars : Pydantic := {|
  coerce_int := fun v => match v with PInt z => Some z | _ => None end;
  coerce_float := fun v => match v with PFloat f => Some f | _ => None end;
  coerce_bool := fun v => match v with PBool b => Some b | _ => None end;
  err_msg := fun k =>
    match k with
    | Missing => "Field required"
    | StringType => "Input should be a valid string"
    | IntError (PStr _) =>
        "Input should be a valid integer, unable to parse string as an integer"
    | IntError (PFloat _) =>
        "Input should be a valid integer, got a number with a fractional part"
    | IntError _ => "Input should be a valid integer"
    | FloatError (PStr _) =>
        "Input should be a valid number, unable to parse string as a number"
    | FloatError _ => "Input should be a valid number"
    | BoolError (PStr _) =>
        "Input should be a valid boolean, unable to interpret input"
    | BoolError _ => "Input should be a valid boolean"
    | LiteralError allowed =>
        ("Input should be " ++ quoted_alternatives allowed)%string
    | ListType => "Input should be a valid list"
    | DictType => "Input should be a valid dictionary"
    | ModelType => "Input should be a valid dictionary or object to extract fields from"
    end;
  err_type := fun k =>
    match k with
    | Missing => "missing"
    | StringType => "string_type"
    | IntError (PStr _) => "int_parsing"
    | IntError (PFloat _) => "int_from_float"
    | IntError _ => "int_type"
    | FloatError (PStr _) => "float_parsing"
    | FloatError _ => "float_type"
    | BoolError (PStr _) => "bool_parsing"
    | BoolError _ => "bool_type"
    | LiteralError _ => "literal_error"
    | ListType => "list_type"
    | DictType => "dict_type"
    | ModelType => "model_attributes_type"
    end
|}.

(** What every instance of the library satisfies: a value of the scalar
    type itself is read as it stands. *)
Class PydanticLaws (P : Pydantic) : Prop := {
  coerce_int_int : forall z, coerce_int (PInt z) = Some z;
  coerce_float_float : forall f, coerce_float (PFloat f) = Some f;
  coerce_bool_bool : forall b, coerce_bool (PBool b) = Some b
}.

(** FastAPI validates the JSON body against the endpoint's [request]
    parameter before the endpoint runs; the error locations start at
    ["body"], and a failure is raised as [RequestValidationError]. *)
Definition validate_body `{Pydantic} (body : pyval)
  : exn + ChatCompletionRequest.t :=
  match validate_ChatCompletionRequest [LKey "body"] body with
  | inl errors => inl (RequestValidationError errors)
  | inr request => inr request
  end.

(** The field path as the specification words it: the location, its first
    segment dropped, joined with dots. *)
Definition dotted_tail (l : loc_t) : string :=
  join "." (map str_loc (tl l)).

(** Whether a detail entry names the given field. *)
Definition has_field (name : string) (d : ErrorDetail.t) : bool :=
  match ErrorDetail.field d with
  | Some f => String.eqb f name
  | None => false
  end.

(** The error entry for a required field that is not supplied. *)
Definition missing_entry `{Pydantic} (l : loc_t) : ErrorEntry :=
  {| loc := l; msg := err_msg Missing; type := err_type Missing |}.

(** Every error of [errs] lies at or below the location [p]. *)
Definition under (p : loc_t) (errs : list ErrorEntry) : Prop :=
  Forall (fun e => exists rest, loc e = p ++ rest) errs.

(** A validator reports its errors at or below the location it is given. *)
Definition localv `{Pydantic} {A} (v : validator A) : Prop :=
  forall l x, under l (errors_of (v l x)).

(** [f] writes a value the way [v] reads it back. *)
Definition retraction `{Pydantic} {A} (v : validator A) (f : A -> pyval)
  : Prop :=
  forall l a, v l (f a) = ok a.

(** [v] accepts nothing but what [f] writes: an accepted input is kept as
    it is by validating and dumping. *)
Definition exact `{Pydantic} {A} (v : validator A) (f : A -> pyval) : Prop :=
  forall l x a, v l x = inr a -> x = f a.

Definition never_none {A} (f : A -> pyval) : Prop :=
  forall a, f a <> PNone.

(** Whatever [v] accepts, it accepts again, with the same result, once it
    has been written out by [f]. *)
Definition codec `{Pydantic} {A} (v : validator A) (f : A -> pyval) : Prop :=
  forall l x a, v l x = inr a -> forall l', v l' (f a) = ok a.

(** [v] accepts nothing that [f] writes. *)
Definition rejects `{Pydantic} {A B} (v : validator A) (f : B -> pyval) : Prop :=
  forall l b, exists e, v l (f b) = inl e.

(** The value each optional field of [ChatCompletionRequest] is declared
    to take when it is not supplied, as it appears in the dump. *)
Definition documented_defaults : pydict :=
  [ ("max_tokens", PInt 1000);
    ("temperature", PFloat 0.7);
    ("top_p", PFloat 1.0);
    ("n", PInt 1);
    ("stream", PBool false);
    ("stop", PNone);
    ("presence_penalty", PFloat 0.0);
    ("frequency_penalty", PFloat 0.0);
    ("logit_bias", PNone);
    ("user", PNone);
    ("tools", PNone);
    ("tool_choice", PNone);
    ("agent_config", PNone);
    ("memory_config", PNone);
    ("mcp_config", PNone);
    ("context_id", PNone);
    ("session_id", PNone);
    ("patient_id", PNone);
    ("include_patient_context", PBool false);
    ("metadata", PNone) ].

(** The fields whose type is built from strings and free-form dicts only:
    the validator has nothing to convert or to fill in there. *)
Definition verbatim_fields : list string :=
  [ "model"; "stop"; "user"; "tool_choice"; "context_id"; "session_id";
    "metadata" ].

(** The fields declared [Optional[int]], [Optional[float]] and
    [Optional[bool]], and the JSON values of that very type. *)
Inductive scalar : Type := SInt | SFloat | SBool.

Definition scalar_fields : list (string * scalar) :=
  [ ("max_tokens", SInt); ("temperature", SFloat); ("top_p", SFloat);
    ("n", SInt); ("stream", SBool); ("presence_penalty", SFloat);
    ("frequency_penalty", SFloat); ("patient_id", SInt);
    ("include_patient_context", SBool) ].

Definition of_scalar (s : scalar) (x : pyval) : bool :=
  match s, x with
  | _, PNone => true
  | SInt, PInt _ => true
  | SFloat, PFloat _ => true
  | SBool, PBool _ => true
  | _, _ => false
  end.

(** ** app/core/exceptions.py: the quick constructors (260-283) *)

Definition not_found_error (resource : option string) : http_exception :=
  NotFoundException (Some (kwarg resource "资源" ++ "不存在")%string) None.

Definition validation_error (message : string) (field : option string)
  : http_exception :=
  ValidationException (Some message) field None.

Definition unauthorized_error (message : option string) : http_exception :=
  AuthenticationException (Some (kwarg message "请先登录")) None.

Definition forbidden_error (message : option string) : http_exception :=
  AuthorizationException (Some (kwarg message "权限不足")) None.

Definition conflict_error (message : string) : http_exception :=
  ConflictException (Some message) None.

(** The status with which the registered handlers answer an exception. *)
Definition answered_status (e : exn) : Z :=
  match e with
  | HTTPExc h => exc_status_code h
  | RequestValidationError _ => 422
  | PyException _ _ => 500
  end.

(** The statuses of [error_type_map]. *)
Definition MAPPED_STATUSES : list Z := [400; 401; 403; 404; 405; 409; 422; 500]%Z.

(** The envelope of a business exception with its one detail entry. *)
Definition business_envelope (utcnow_isoformat : string)
    (request : option Request) (status : Z) (code message : string)
    (field : option string) : pyval :=
  PDict [
    ("success", PBool false);
    ("error", PStr code);
    ("message", PStr message);
    ("details",
       PList [ dump_ErrorDetail (business_detail message (Some code) field) ]);
    ("status_code", PInt status);
    ("timestamp", PStr (utcnow_isoformat ++ "Z"));
    ("path", dump_opt PStr (option_map url_path request));
    ("request_id", PNone) ].

(** The declared fields of [ChatCompletionRequest], in order. *)
Definition REQUEST_FIELDS : list string :=
  [ "model"; "messages"; "max_tokens"; "temperature"; "top_p"; "n"; "stream";
    "stop"; "presence_penalty"; "frequency_penalty"; "logit_bias"; "user";
    "tools"; "tool_choice"; "agent_config"; "memory_config"; "mcp_config";
    "context_id"; "session_id"; "patient_id"; "include_patient_context";
    "metadata" ].

(** The request built from a model name and a message list alone. *)
Definition request_with_defaults (model : string)
    (messages : list ChatMessage.t) : ChatCompletionRequest.t :=
  ChatCompletionRequest.Build model messages
    (Some 1000%Z) (Some 0.7%float) (Some 1.0%float) (Some 1%Z) (Some false)
    None (Some 0.0%float) (Some 0.0%float) None None None None None None None
    None None None (Some false) None.

(** A rejection carries at least one error. *)
Definition some_error {A} (r : V A) : Prop :=
  match r with inl e => e <> [] | inr _ => True end.

Definition fails_loudly `{Pydantic} {A} (v : validator A) : Prop :=
  forall l x, some_error (v l x).

(** The error entry for a value outside a [Literal]. *)
Definition literal_entry `{Pydantic} (l : loc_t) (allowed : list string)
  : ErrorEntry :=
  {| loc := l; msg := err_msg (LiteralError allowed);
     type := err_type (LiteralError allowed) |}.

(** The error entry for anything but an object where a model is expected. *)
Definition model_entry `{Pydantic} (l : loc_t) : ErrorEntry :=
  {| loc := l; msg := err_msg ModelType; type := err_type ModelType |}.

(** The literal constraints of the nested models, as predicates on the
    validated values. *)
Definition tool_ok (t : Tool.t) : Prop := Tool.type t = "function".

Definition agent_config_ok (c : AgentConfig.t) : Prop :=
  In (AgentConfig.agent_type c) ["medical"; "general"; "specialist"] /\
  forall m, AgentConfig.reasoning_mode c = Some m ->
            In m ["chain_of_thought"; "tree_of_thought"; "reflection"].

Definition memory_config_ok (c : MemoryConfig.t) : Prop :=
  In (MemoryConfig.memory_type c)
     ["conversation"; "episodic"; "semantic"; "working"] /\
  (forall p, MemoryConfig.retention_policy c = Some p ->
             In p ["session"; "persistent"; "temporary"]) /\
  (forall s, MemoryConfig.retrieval_strategy c = Some s ->
             In s ["recent"; "relevant"; "hybrid"]).

(** Every value [v] accepts satisfies [Q]. *)
Definition ensures `{Pydantic} {A} (v : validator A) (Q : A -> Prop) : Prop :=
  forall l x a, v l x = inr a -> Q a.

(** ** app/core/config.py *)

Module Config.

(** A Python [str], as the sequence of its code points. *)
Definition ustr : Type := list N.

Definition COMMA : N := 44.
Definition LBRACKET : N := 91.

(** [c.isspace()]: the code points Python counts as whitespace, which are
    the ones [str.strip()] removes. *)
Definition isspace (c : N) : bool :=
  ((9 <=? c) && (c <=? 13) || (28 <=? c) && (c <=? 32) || (c =? 133)
   || (c =? 160) || (c =? 5760) || (8192 <=? c) && (c <=? 8202)
   || (c =? 8232) || (c =? 8233) || (c =? 8239) || (c =? 8287)
   || (c =? 12288))%N.

(** [s.lstrip()], [s.rstrip()], [s.strip()] *)
Fixpoint lstrip (s : ustr) : ustr :=
  match s with
  | [] => []
  | c :: s' => if isspace c then lstrip s' else s
  end.

Definition rstrip (s : ustr) : ustr := rev (lstrip (rev s)).

Definition strip (s : ustr) : ustr := rstrip (lstrip s).

(** [s.split(",")] *)
Fixpoint split_comma (s : ustr) : list ustr :=
  match s with
  | [] => [[]]
  | c :: s' =>
      if N.eqb c COMMA then [] :: split_comma s'
      else match split_comma s' with
           | part :: parts => (c :: part) :: parts
           | [] => [[c]]
           end
  end.

(** [",".join(parts)] *)
Fixpoint join_comma (parts : list ustr) : ustr :=
  match parts with
  | [] => []
  | [p] => p
  | p :: rest => p ++ COMMA :: join_comma rest
  end.

(** [s.startswith("[")] *)
Definition startswith_bracket (s : ustr) : bool :=
  match s with c :: _ => N.eqb c LBRACKET | [] => false end.

Section Settings.
(** A validated URL object, and any value that is neither a [str] nor a
    [list]. *)
Variables Url Other : Type.

(** An entry of [BACKEND_CORS_ORIGINS]: [Union[str, AnyHttpUrl]]. *)
Inductive origin : Type :=
| OStr (s : ustr)
| OUrl (u : Url).

(** What the validator may be handed. *)
Inductive setting : Type :=
| SStr (s : ustr)
| SList (items : list origin)
| SOther (o : Other).

(** [assemble_cors_origins] (46-52); [inl v] stands for
    [raise ValueError(v)]. *)
Definition assemble_cors_origins (v : setting) : setting + setting :=
  match v with
  | SStr s =>
      if negb (startswith_bracket s)
      then inr (SList (map (fun i => OStr (strip i)) (split_comma s)))
      else inr v
  | SList _ => inr v
  | SOther _ => inl v
  end.
End Settings.

Arguments OStr {Url} s.
Arguments OUrl {Url} u.
Arguments SStr {Url Other} s.
Arguments SList {Url Other} items.
Arguments SOther {Url Other} o.
Arguments assemble_cors_origins {Url Other} v.

(** Neither the first nor the last code point is whitespace. *)
Definition trimmed (s : ustr) : Prop :=
  match s with [] => True | c :: _ => isspace c = false end /\
  match rev s with [] => True | c :: _ => isspace c = false end.

End Config.

(** ** app/core/database.py *)

Module Database.

(** What is raised: an [Exception], or a [BaseException] that is not one
    ([KeyboardInterrupt], [GeneratorExit], a cancellation), which
    [except Exception] does not catch. *)
Inductive raised : Type :=
| Exc (e : exn)
| BaseExc (type_name : string).

(** How a block of code ends. *)
Definition ending (A : Type) : Type := (raised + A)%type.

(** The calls made on the session, in order. *)
Inductive session_call : Type :=
| Commit
| Rollback
| Close.

(** What the session does when called: each call returns, or raises the
    given exception. *)
Record Session := {
  commit_raises : option exn;
  rollback_raises : option exn;
  close_raises : option exn
}.

(** [finally: db.close()] around a block that ended with [r]: an
    exception of [close] replaces whatever was under way. *)
Definition finally_close {A} (db : Session) (r : ending A) : ending A :=
  match close_raises db with
  | Some e => inl (Exc e)
  | None => r
  end.

(** [except Exception: db.rollback(); raise] for the exception [e]. *)
Definition rollback_and_reraise {A} (db : Session) (e : exn) : ending A :=
  match rollback_raises db with
  | Some e' => inl (Exc e')
  | None => inl (Exc e)
  end.

(** [get_db_context] (56-67) around a [with] body that ended with
    [body]: the calls made on the session and how the [with] statement
    ends. *)
Definition get_db_context {A} (db : Session) (body : ending A)
  : list session_call * ending A :=
  match body with
  | inr a =>
      match commit_raises db with
      | None => ([Commit; Close], finally_close db (inr a))
      | Some e =>
          ([Commit; Rollback; Close],
           finally_close db (rollback_and_reraise db e))
      end
  | inl (Exc e) =>
      ([Rollback; Close], finally_close db (rollback_and_reraise db e))
  | inl (BaseExc b) => ([Close], finally_close db (inl (BaseExc b)))
  end.

End Database.

(** ** Definitions for the statements about responses and round trips *)

(** [str(e)] of an [HTTPException], as the framework's class defines it:
    the status code, a colon and the detail. *)
Definition http_exception_str (h : http_exception) : string :=
  (str_int (exc_status_code h) ++ ": " ++ exc_detail h)%string.


(** The body of a JSON response. *)
Definition json_content (r : HTTPResponse) : pyval :=
  match r with
  | JSONBody _ c => c
  | StreamBody _ _ _ _ => PNone
  end.


(** An instance that, like the library's default mode, also reads a
    string of decimal digits at [int]; everything else as
    [exact_scalars]. *)
Definition digit (c : ascii) : option Z :=
  let n := Z.of_nat (nat_of_ascii c) in
  if ((48 <=? n) && (n <=? 57))%Z then Some (n - 48)%Z else None.

Fixpoint parse_digits (acc : Z) (s : string) : option Z :=
  match s with
  | EmptyString => Some acc
  | String c s' =>
      match digit c with
      | Some d => parse_digits (10 * acc + d)%Z s'
      | None => None
      end
  end.

Definition int_of_digits (s : string) : option Z :=
  match s with
  | EmptyString => None
  | _ => parse_digits 0%Z s
  end.

Definition digit_string_scalars : Pydantic := {|
  coerce_int := fun v =>
    match v with
    | PInt z => Some z
    | PStr s => int_of_digits s
    | _ => None
    end;
  coerce_float := @coerce_float exact_scalars;
  coerce_bool := @coerce_bool exact_scalars;
  err_msg := @err_msg exact_scalars;
  err_type := @err_type exact_scalars
|}.

(** Every key of [keys] that [d] supplies appears in [dumped] with the
    value supplied. *)
Definition keys_kept (keys : list string) (d : pydict) (dumped : pyval)
  : Prop :=
  forall k x, In k keys -> dict_get k d = Some x -> item dumped k = Some x.

(** What the library reads from [x] at a scalar type, as a JSON value. *)
Definition read_scalar `{Pydantic} (s : scalar) (x : pyval) : option pyval :=
  match s with
  | SInt => option_map PInt (coerce_int x)
  | SFloat => option_map PFloat (coerce_float x)
  | SBool => option_map PBool (coerce_bool x)
  end.

(** The same at [Optional[...]]: null stays null. *)
Definition read_optional `{Pydantic} (s : scalar) (x : pyval)
  : option pyval :=
  match x with
  | PNone => Some PNone
  | _ => read_scalar s x
  end.

(** Every key of [keys] that [d] supplies appears in [dumped] with what
    the library reads from the value supplied. *)
Definition scalars_read (read : scalar -> pyval -> option pyval)
    (keys : list (string * scalar)) (d : pydict) (dumped : pyval) : Prop :=
  forall k s x, In (k, s) keys -> dict_get k d = Some x ->
    exists y, read s x = Some y /\ item dumped k = Some y.

(** Every key of [keys] that [d] supplies at the type of the field, or as
    null, appears in [dumped] with the value supplied. *)
Definition scalars_kept (keys : list (string * scalar)) (d : pydict)
    (dumped : pyval) : Prop :=
  forall k s x, In (k, s) keys -> dict_get k d = Some x ->
    of_scalar s x = true -> item dumped k = Some x.

(** The key [k], when [d] supplies it, appears in [dumped], and the value
    supplied and the value dumped are related by [R]. *)
Definition field_kept (R : pyval -> pyval -> Prop) (k : string) (d : pydict)
    (dumped : pyval) : Prop :=
  forall x, dict_get k d = Some x ->
    exists y, item dumped k = Some y /\ R x y.

(** [R] at [Optional[...]], [List[...]] and [Dict[str, ...]]. *)
Definition optional_kept (R : pyval -> pyval -> Prop) (x y : pyval) : Prop :=
  match x with
  | PNone => y = PNone
  | _ => R x y
  end.

Definition list_kept (R : pyval -> pyval -> Prop) (x y : pyval) : Prop :=
  exists xs ys, x = PList xs /\ y = PList ys /\ Forall2 R xs ys.

Definition dict_kept (R : pyval -> pyval -> Prop) (x y : pyval) : Prop :=
  exists dx dy, x = PDict dx /\ y = PDict dy /\
    Forall2 (fun kx ky => fst kx = fst ky /\ R (snd kx) (snd ky)) dx dy.

(** The value supplied for a float and the value dumped for it. *)
Definition float_read `{Pydantic} (x y : pyval) : Prop :=
  read_scalar SFloat x = Some y.



(** The keys of the nested models, by the kind of their type. *)
Definition MESSAGE_KEYS : list string :=
  [ "role"; "content"; "name"; "function_call"; "tool_calls"; "tool_call_id" ].

Definition TOOL_KEYS : list string := [ "type"; "function" ].

Definition AGENT_VERBATIM : list string :=
  [ "agent_type"; "specialization"; "personality"; "guidelines";
    "tools_enabled"; "reasoning_mode" ].

Definition AGENT_SCALARS : list (string * scalar) :=
  [ ("max_iterations", SInt) ].

Definition MEMORY_VERBATIM : list string :=
  [ "memory_type"; "retention_policy"; "retrieval_strategy" ].

Definition MEMORY_SCALARS : list (string * scalar) :=
  [ ("max_memory_size", SInt); ("compression_enabled", SBool) ].

Definition MCP_VERBATIM : list string := [ "context_sources" ].

Definition MCP_SCALARS : list (string * scalar) :=
  [ ("context_window_size", SInt); ("context_compression", SBool);
    ("relevance_threshold", SFloat); ("dynamic_context", SBool) ].

(** An object supplied for a nested model and the dump of the model
    validated from it. *)
Definition message_kept (x y : pyval) : Prop :=
  exists dx, x = PDict dx /\ keys_kept MESSAGE_KEYS dx y.

Definition tool_kept (x y : pyval) : Prop :=
  exists dx, x = PDict dx /\ keys_kept TOOL_KEYS dx y.

Definition agent_kept `{Pydantic} (x y : pyval) : Prop :=
  exists dx, x = PDict dx /\ keys_kept AGENT_VERBATIM dx y /\
    scalars_read read_optional AGENT_SCALARS dx y.

Definition memory_kept `{Pydantic} (x y : pyval) : Prop :=
  exists dx, x = PDict dx /\ keys_kept MEMORY_VERBATIM dx y /\
    scalars_read read_optional MEMORY_SCALARS dx y.

Definition mcp_kept `{Pydantic} (x y : pyval) : Prop :=
  exists dx, x = PDict dx /\ keys_kept MCP_VERBATIM dx y /\
    scalars_read read_scalar MCP_SCALARS dx y.

(** A body whose [max_tokens] is a string of digits, and one with every
    nested field supplied. *)
Definition digit_string_body : pydict :=
  [ ("model", PStr "gpt-4");
    ("messages", PList [PDict [("role", PStr "user"); ("content", PStr "hi")]]);
    ("max_tokens", PStr "5") ].

Definition nested_body : pydict :=
  [ ("model", PStr "gpt-4");
    ("messages", PList [PDict [("role", PStr "user"); ("content", PStr "hi")]]);
    ("max_tokens", PInt 5);
    ("logit_bias", PDict [("50256", PFloat 1.5)]);
    ("tools", PList [PDict [("function", PDict [("name", PStr "lookup")])]]);
    ("agent_config", PDict [("agent_type", PStr "medical");
                            ("max_iterations", PInt 2)]);
    ("memory_config", PNone);
    ("mcp_config", PDict [("context_window_size", PInt 2048);
                          ("context_sources", PList [PStr "ehr"])]) ].

(** * Properties *)

(** ** The SSE bridge *)

Lemma done_is_not_payload_message (event : ChatStreamEvent) :
  ev_type event = "done" -> is_payload_message event = false.
Proof.
  intros Hd. unfold is_payload_message. rewrite Hd. reflexivity.
Qed.

Lemma generate_step_message json_dumps event rest :
  is_payload_message event = true ->
  generate json_dumps (AYield event rest)
  = AYield (message_frame json_dumps (ev_data event)) (generate json_dumps rest).
Proof.
  unfold is_payload_message. intros Hm. simpl. rewrite Hm. reflexivity.
Qed.

Lemma generate_step_skip json_dumps event rest :
  is_payload_message event = false ->
  ev_type event <> "done" ->
  generate json_dumps (AYield event rest) = generate json_dumps rest.
Proof.
  unfold is_payload_message. intros Hm Hd. simpl. rewrite Hm.
  destruct (String.eqb_spec (ev_type event) "done") as [Heq | _].
  - contradiction.
  - reflexivity.
Qed.


Lemma pulled_step_other event rest :
  ev_type event <> "done" -> pulled (AYield event rest) = S (pulled rest).
Proof.
  intros Hd. simpl.
  destruct (String.eqb (ev_type event) "message" && truthy (ev_data event));
    [reflexivity |].
  destruct (String.eqb_spec (ev_type event) "done"); [contradiction | reflexivity].
Qed.





(** ** Failures inside the endpoints *)

(** What either endpoint does when [chat_completion] raises [e]: it raises
    [HTTPException(500, str(e))] in its place, and the handler registered
    for [HTTPException] answers with the envelope built from that text. *)
Lemma reraised_response
    {Session Response UploadFile : Type}
    (json_dumps : pyval -> string) (str_exc : exn -> string)
    (ai_chat_service : AIChatService Session Response)
    (utcnow_isoformat : string) (environment : option string)
    (response_model : Response -> list ErrorEntry + pyval)
    (http_request : option Request)
    (request : ChatCompletionRequest.t) (files : list UploadFile)
    (db : Session) (e : exn) :
  truthy_bool (ChatCompletionRequest.stream request) = false ->
  chat_completion ai_chat_service db request = inl e ->
  let a := completions_chat_completions json_dumps str_exc ai_chat_service
             request db in
  let b := colposcopy_chat_completions json_dumps str_exc ai_chat_service
             request files db in
  snd a = inl (HTTPExc (HTTPException 500 (str_exc e) None)) /\
  snd b = inl (HTTPExc (HTTPException 500 (str_exc e) None)) /\
  respond utcnow_isoformat str_exc environment response_model http_request a
  = ( [ ErrorHTTPException 500 (str_exc e) ],
      JSONBody 500
        (dump_ErrorResponse
           (reraised_envelope utcnow_isoformat http_request (str_exc e))) ) /\
  respond utcnow_isoformat str_exc environment response_model http_request b
  = respond utcnow_isoformat str_exc environment response_model http_request a.
Proof.
  intros Hstream Hraise a b. subst a b.
  unfold completions_chat_completions, colposcopy_chat_completions, respond.
  rewrite Hstream. cbn [snd]. rewrite Hraise.
  split; [reflexivity |]. split; [reflexivity |].
  split; [| reflexivity].
  destruct http_request; reflexivity.
Qed.

(** C3, as the specification states it, fails: a provider failure in
    non-streaming mode does not reach the client as the bare
    [{"detail": ...}] body. *)
Lemma local_catch_all_is_not_bare_detail :
  snd (respond demo_now demo_str_exc None serialize_response demo_http_request
         (completions_chat_completions demo_dumps demo_str_exc failing_service
            (demo_request (Some false)) tt))
  <> bare_detail_response "boom".
Proof.
  vm_compute. discriminate.
Qed.

(** C3, amended. An exception raised inside either endpoint before a
    streaming response begins reaches the client with status 500 and the
    standard envelope: error [INTERNAL_SERVER_ERROR], the exception's string
    form as message, no details. *)
Theorem handler_failure_is_enveloped
    {Session Response UploadFile : Type}
    (json_dumps : pyval -> string) (str_exc : exn -> string)
    (ai_chat_service : AIChatService Session Response)
    (utcnow_isoformat : string) (environment : option string)
    (response_model : Response -> list ErrorEntry + pyval)
    (http_request : option Request)
    (request : ChatCompletionRequest.t) (files : list UploadFile)
    (db : Session) (e : exn) :
  truthy_bool (ChatCompletionRequest.stream request) = false ->
  chat_completion ai_chat_service db request = inl e ->
  let envelope :=
    dump_ErrorResponse
      (reraised_envelope utcnow_isoformat http_request (str_exc e)) in
  snd (respond utcnow_isoformat str_exc environment response_model http_request
         (completions_chat_completions json_dumps str_exc ai_chat_service
            request db))
  = JSONBody 500 envelope /\
  snd (respond utcnow_isoformat str_exc environment response_model http_request
         (colposcopy_chat_completions json_dumps str_exc ai_chat_service
            request files db))
  = JSONBody 500 envelope /\
  item envelope "error" = Some (PStr "INTERNAL_SERVER_ERROR") /\
  item envelope "message" = Some (PStr (str_exc e)) /\
  item envelope "details" = Some (PList []) /\
  item envelope "status_code" = Some (PInt 500) /\
  item envelope "detail" = None.
Proof.
  intros Hstream Hraise envelope.
  destruct (reraised_response json_dumps str_exc ai_chat_service
              utcnow_isoformat environment response_model http_request request files db e
              Hstream Hraise) as (_ & _ & Ha & Hb).
  rewrite Hb, Ha. cbn [snd]. repeat split.
Qed.

Lemma handler_failure_is_enveloped_witness :
  snd (respond demo_now demo_str_exc None serialize_response demo_http_request
         (completions_chat_completions demo_dumps demo_str_exc failing_service
            (demo_request (Some false)) tt))
  = JSONBody 500
      (dump_ErrorResponse
         (reraised_envelope demo_now demo_http_request "boom")).
Proof.
  exact (proj1 (@handler_failure_is_enveloped unit pyval unit
                  demo_dumps demo_str_exc failing_service demo_now None
                  serialize_response demo_http_request (demo_request (Some false)) [] tt
                  (PyException "RuntimeError" [PStr "boom"])
                  eq_refl eq_refl)).
Defined.

(** ** The error envelope *)

(** C5, as the specification states it, fails: a [BusinessException] built
    with the error code and the field alone carries the default status 400,
    and so does its envelope. *)
Lemma business_exception_default_status_is_400 :
  let r := snd (http_exception_handler demo_now demo_http_request
                  (BusinessException None None (Some "NOT_FOUND")
                     (Some "patient_id") None)) in
  status_code r <> 404%Z /\
  item (content r) "status_code" <> Some (PInt 404).
Proof.
  vm_compute. split; discriminate.
Qed.

(** C5, amended. For a [BusinessException] with [error_code="NOT_FOUND"]
    and [field="patient_id"] the envelope carries the status the exception
    was built with (400 when none is given, 404 when 404 is given), error
    [NOT_FOUND], and exactly one detail entry, whose field is
    [patient_id]. *)
Theorem business_not_found_envelope
    (utcnow_isoformat : string) (http_request : option Request)
    (status_code : option Z) (detail : option string)
    (headers : option header_map) :
  let exc := BusinessException status_code detail (Some "NOT_FOUND")
               (Some "patient_id") headers in
  let r := snd (http_exception_handler utcnow_isoformat http_request exc) in
  Exceptions.status_code r = kwarg status_code 400%Z /\
  item (content r) "status_code" = Some (PInt (kwarg status_code 400%Z)) /\
  item (content r) "error" = Some (PStr "NOT_FOUND") /\
  item (content r) "details"
  = Some (PList [ dump_ErrorDetail
                    (business_detail (kwarg detail "业务处理异常")
                       (Some "NOT_FOUND") (Some "patient_id")) ]) /\
  item (dump_ErrorDetail
          (business_detail (kwarg detail "业务处理异常")
             (Some "NOT_FOUND") (Some "patient_id"))) "field"
  = Some (PStr "patient_id") /\
  (status_code = Some 404%Z -> Exceptions.status_code r = 404%Z).
Proof.
  cbv zeta. repeat split.
  intros ->. reflexivity.
Qed.

Lemma business_not_found_envelope_witness :
  Exceptions.status_code
    (snd (http_exception_handler demo_now demo_http_request
            (BusinessException (Some 404%Z) None (Some "NOT_FOUND")
               (Some "patient_id") None)))
  = 404%Z.
Proof.
  exact (proj2 (proj2 (proj2 (proj2 (proj2
           (business_not_found_envelope demo_now demo_http_request
              (Some 404%Z) None None))))) eq_refl).
Defined.

Lemma item_outside_message_details (r1 r2 : ErrorResponse.t) (k : string) :
  ErrorResponse.success r1 = ErrorResponse.success r2 ->
  ErrorResponse.error r1 = ErrorResponse.error r2 ->
  ErrorResponse.status_code r1 = ErrorResponse.status_code r2 ->
  ErrorResponse.timestamp r1 = ErrorResponse.timestamp r2 ->
  ErrorResponse.path r1 = ErrorResponse.path r2 ->
  ErrorResponse.request_id r1 = ErrorResponse.request_id r2 ->
  k <> "message" -> k <> "details" ->
  item (dump_ErrorResponse r1) k = item (dump_ErrorResponse r2) k.
Proof.
  intros Hs He Hc Ht Hp Hr Hm Hd.
  unfold dump_ErrorResponse, item. cbn [dict_get].
  rewrite Hs, He, Hc, Ht, Hp, Hr.
  destruct (String.eqb_spec k "message"); [contradiction |].
  destruct (String.eqb_spec k "details"); [contradiction |].
  reflexivity.
Qed.

(** C6. The catch-all handler always answers with status 500 and error
    [INTERNAL_SERVER_ERROR].  In development mode (ENVIRONMENT unset or equal
    to [development]) the message is the exception's type name, a colon and
    its string form, and there is one [system_error] detail; otherwise the
    message is the fixed generic text and there is no detail.  Nothing else
    depends on the mode: the log records, the status and every other key of
    the envelope are the same under any two settings. *)
Theorem general_handler_modes
    (utcnow_isoformat : string) (str_exc : exn -> string)
    (environment environment' : option string)
    (http_request : option Request) (exc : exn) :
  let r := general_exception_handler utcnow_isoformat str_exc environment
             http_request exc in
  let r' := general_exception_handler utcnow_isoformat str_exc environment'
              http_request exc in
  status_code (snd r) = 500%Z /\
  item (content (snd r)) "status_code" = Some (PInt 500) /\
  item (content (snd r)) "error" = Some (PStr "INTERNAL_SERVER_ERROR") /\
  item (content (snd r)) "message"
  = Some (PStr (if development_mode environment
                then (type_name exc ++ ": " ++ str_exc exc)%string
                else GENERIC_MESSAGE)) /\
  item (content (snd r)) "details"
  = Some (PList (if development_mode environment
                 then [ dump_ErrorDetail
                          (system_detail (type_name exc) (str_exc exc)) ]
                 else [])) /\
  fst r = [ ErrorUnhandled (type_name exc) (str_exc exc); ErrorTraceback ] /\
  fst r' = fst r /\
  status_code (snd r') = status_code (snd r) /\
  forall k : string, k <> "message" -> k <> "details" ->
    item (content (snd r')) k = item (content (snd r)) k.
Proof.
  cbv zeta. unfold general_exception_handler.
  fold (development_mode environment). fold (development_mode environment').
  destruct (development_mode environment), (development_mode environment');
    cbn [fst snd status_code content];
    (repeat (split; [reflexivity |]));
    intros k Hm Hd; apply item_outside_message_details; auto.
Qed.

(** ** Validation: general facts *)

Lemma ap_inr {A B} (f : V (A -> B)) (a : V A) (y : B) :
  f <*> a = inr y -> exists g x, f = inr g /\ a = inr x /\ y = g x.
Proof.
  destruct f as [e1 | g], a as [e2 | x]; simpl; intros Heq;
    try discriminate.
  injection Heq as <-. eauto.
Qed.

Lemma errors_of_ap {A B} (f : V (A -> B)) (a : V A) :
  errors_of (f <*> a) = errors_of f ++ errors_of a.
Proof.
  destruct f, a; simpl; auto using app_nil_r.
Qed.

(** Splits [H : f1 <*> ... <*> fn = inr y] into one equation per field. *)
Ltac ap_inv H :=
  let g := fresh "g" in
  let x := fresh "x" in
  let Hf := fresh "Hf" in
  let Ha := fresh "Hfield" in
  let Hy := fresh "Hy" in
  apply ap_inr in H; destruct H as (g & x & Hf & Ha & Hy);
  first [ injection Hf as <- | ap_inv Hf ]; subst.

Section ValidationFacts.
Context {P : Pydantic}.

Lemma required_hit {A} d k (v : validator A) l x :
  dict_get k d = Some x -> required d k v l = v (l ++ [LKey k]) x.
Proof. unfold required. intros ->. reflexivity. Qed.

Lemma required_miss {A} d k (v : validator A) l :
  dict_get k d = None -> required d k v l = fail (l ++ [LKey k]) Missing.
Proof. unfold required. intros ->. reflexivity. Qed.

Lemma with_default_hit {A} d k (v : validator A) dflt l x :
  dict_get k d = Some x -> with_default d k v dflt l = v (l ++ [LKey k]) x.
Proof. unfold with_default. intros ->. reflexivity. Qed.

Lemma with_default_miss {A} d k (v : validator A) dflt l :
  dict_get k d = None -> with_default d k v dflt l = ok dflt.
Proof. unfold with_default. intros ->. reflexivity. Qed.

Lemma with_default_miss_inr {A} d k (v : validator A) dflt l a :
  dict_get k d = None -> with_default d k v dflt l = inr a -> a = dflt.
Proof.
  intros Hk. rewrite (with_default_miss _ _ _ _ _ Hk). unfold ok.
  intros Heq. injection Heq as <-. reflexivity.
Qed.

Lemma v_literal_inr allowed l x s :
  v_literal allowed l x = inr s -> x = PStr s /\ In s allowed.
Proof.
  unfold v_literal. destruct x; try discriminate.
  destruct (existsb (String.eqb s0) allowed) eqn:Hex; try discriminate.
  intros Heq. injection Heq as <-. split; [reflexivity |].
  apply existsb_exists in Hex. destruct Hex as (y & Hin & Hy).
  apply String.eqb_eq in Hy. subst. assumption.
Qed.

End ValidationFacts.

(** ** ChatMessage *)

(** C7, as the specification states it, fails: a message with a role and
    nothing else is accepted, its content absent and no function or tool
    call present. *)
Lemma message_without_content_is_accepted :
  validate_ChatMessage [LKey "body"; LKey "messages"; LIdx 0]
    (PDict [("role", PStr "user")])
  = inr (ChatMessage.Build "user" None None None None None).
Proof.
  reflexivity.
Qed.

(** C7, amended. The role of every accepted [ChatMessage] is one of
    [system], [user], [assistant], [function], [tool]; the content may be
    absent whether or not a function or tool call is present: an object
    with an enumerated role alone is accepted, with every other field
    [None]. *)
Theorem accepted_message_role
    (P : Pydantic) (l : loc_t) (v : pyval) (m : ChatMessage.t) :
  validate_ChatMessage l v = inr m ->
  In (ChatMessage.role m) ["system"; "user"; "assistant"; "function"; "tool"]
  /\ forall role, In role ROLES ->
       validate_ChatMessage l (PDict [("role", PStr role)])
       = inr (ChatMessage.Build role None None None None None).
Proof.
  intros Hacc. split.
  - destruct v; try discriminate. unfold validate_ChatMessage in Hacc.
    ap_inv Hacc. cbn [ChatMessage.role].
    unfold required in Hfield4.
    destruct (dict_get "role" d); [| discriminate].
    apply v_literal_inr in Hfield4. apply Hfield4.
  - intros role Hin. simpl in Hin.
    decompose [or] Hin; subst; try contradiction; reflexivity.
Qed.

Lemma accepted_message_role_witness :
  In (ChatMessage.role (ChatMessage.Build "tool" None None None None (Some "call_1")))
     ["system"; "user"; "assistant"; "function"; "tool"].
Proof.
  exact (proj1 (accepted_message_role exact_scalars [LKey "body"]
                  (PDict [("role", PStr "tool"); ("tool_call_id", PStr "call_1")])
                  (ChatMessage.Build "tool" None None None None (Some "call_1"))
                  eq_refl)).
Defined.

(** ** Where validation errors lie *)

Lemma under_nil p : under p [].
Proof. constructor. Qed.

Lemma under_app p e1 e2 : under p e1 -> under p e2 -> under p (e1 ++ e2).
Proof. unfold under. intros H1 H2. apply Forall_app. split; assumption. Qed.

Lemma under_weaken p s errs : under (p ++ s) errs -> under p errs.
Proof.
  unfold under. apply Forall_impl. intros e (rest & Hrest).
  exists (s ++ rest). rewrite Hrest, app_assoc. reflexivity.
Qed.

Lemma under_ap {A B} p (f : V (A -> B)) (a : V A) :
  under p (errors_of f) -> under p (errors_of a) ->
  under p (errors_of (f <*> a)).
Proof. rewrite errors_of_ap. apply under_app. Qed.

Lemma under_ok {A} p (a : A) : under p (errors_of (ok a)).
Proof. apply under_nil. Qed.

Create HintDb validators.
#[local] Hint Resolve under_nil under_ap under_ok : validators.

Section Locality.
Context {P : Pydantic}.

Lemma under_fail {A} l k : under l (errors_of (@fail P A l k)).
Proof.
  constructor; [| constructor]. exists []. simpl. rewrite app_nil_r.
  reflexivity.
Qed.

Lemma localv_str : localv v_str.
Proof.
  intros l x. unfold v_str. destruct x; try apply under_fail. apply under_ok.
Qed.

Lemma localv_int : localv v_int.
Proof.
  intros l x. unfold v_int. destruct (coerce_int x);
    auto using under_ok, under_fail.
Qed.

Lemma localv_float : localv v_float.
Proof.
  intros l x. unfold v_float. destruct (coerce_float x);
    auto using under_ok, under_fail.
Qed.

Lemma localv_bool : localv v_bool.
Proof.
  intros l x. unfold v_bool. destruct (coerce_bool x);
    auto using under_ok, under_fail.
Qed.

Lemma localv_literal allowed : localv (v_literal allowed).
Proof.
  intros l x. unfold v_literal. destruct x; try apply under_fail.
  destruct (existsb _ _); auto using under_ok, under_fail.
Qed.

Lemma localv_dict_any : localv v_dict_any.
Proof.
  intros l x. unfold v_dict_any. destruct x; try apply under_fail.
  apply under_ok.
Qed.

Lemma localv_optional {A} (v : validator A) : localv v -> localv (v_optional v).
Proof.
  intros Hv l x. unfold v_optional.
  destruct x; try apply under_ok;
    (apply under_ap; [apply under_ok | apply Hv]).
Qed.

Lemma under_items {A} (v : validator A) :
  localv v -> forall xs l i, under l (errors_of (v_items v l i xs)).
Proof.
  intros Hv xs. induction xs as [| x xs IH]; intros l i; cbn [v_items].
  - apply under_nil.
  - apply under_ap; [apply under_ap; [apply under_ok |] | apply IH].
    apply under_weaken with (s := [LIdx i]). apply Hv.
Qed.

Lemma localv_list {A} (v : validator A) : localv v -> localv (v_list v).
Proof.
  intros Hv l x. unfold v_list.
  destruct x; try apply under_fail. apply under_items. assumption.
Qed.

Lemma under_entries {A} (v : validator A) :
  localv v -> forall d l, under l (errors_of (v_entries v l d)).
Proof.
  intros Hv d. induction d as [| [k x] d IH]; intros l; cbn [v_entries].
  - apply under_nil.
  - apply under_ap; [apply under_ap; [apply under_ok |] | apply IH].
    apply under_weaken with (s := [LKey k]). apply Hv.
Qed.

Lemma localv_dict {A} (v : validator A) : localv v -> localv (v_dict v).
Proof.
  intros Hv l x. unfold v_dict.
  destruct x; try apply under_fail. apply under_entries. assumption.
Qed.

Lemma localv_union {A B} ta (va : validator A) tb (vb : validator B) :
  localv va -> localv vb -> localv (v_union ta va tb vb).
Proof.
  intros Ha Hb l x. unfold v_union.
  pose proof (Ha (l ++ [LKey ta]) x) as Hea.
  pose proof (Hb (l ++ [LKey tb]) x) as Heb.
  destruct (va (l ++ [LKey ta]) x) as [ea | a]; [| apply under_ok].
  destruct (vb (l ++ [LKey tb]) x) as [eb | b]; [| apply under_ok].
  simpl in *. apply under_app; eapply under_weaken; eassumption.
Qed.

(** The errors of a field lie at or below the field's own key. *)
Lemma under_required {A} d k (v : validator A) l :
  localv v -> under (l ++ [LKey k]) (errors_of (required d k v l)).
Proof.
  intros Hv. unfold required.
  destruct (dict_get k d); [apply Hv | apply under_fail].
Qed.

Lemma under_with_default {A} d k (v : validator A) dflt l :
  localv v -> under (l ++ [LKey k]) (errors_of (with_default d k v dflt l)).
Proof.
  intros Hv. unfold with_default.
  destruct (dict_get k d); [apply Hv | apply under_ok].
Qed.

Lemma under_required_model {A} d k (v : validator A) l :
  localv v -> under l (errors_of (required d k v l)).
Proof.
  intros Hv. eapply under_weaken. apply under_required. assumption.
Qed.

Lemma under_with_default_model {A} d k (v : validator A) dflt l :
  localv v -> under l (errors_of (with_default d k v dflt l)).
Proof.
  intros Hv. eapply under_weaken. apply under_with_default. assumption.
Qed.

#[local] Hint Resolve under_fail localv_str localv_int localv_float
  localv_bool localv_literal localv_dict_any localv_optional localv_list
  localv_dict localv_union under_required_model under_with_default_model
  : validators.

Lemma localv_ChatMessage : localv validate_ChatMessage.
Proof.
  intros l x. unfold validate_ChatMessage.
  destruct x; auto 20 with validators.
Qed.

Lemma localv_Tool : localv validate_Tool.
Proof.
  intros l x. unfold validate_Tool.
  destruct x; auto 20 with validators.
Qed.

Lemma localv_AgentConfig : localv validate_AgentConfig.
Proof.
  intros l x. unfold validate_AgentConfig.
  destruct x; auto 20 with validators.
Qed.

Lemma localv_MemoryConfig : localv validate_MemoryConfig.
Proof.
  intros l x. unfold validate_MemoryConfig.
  destruct x; auto 20 with validators.
Qed.

Lemma localv_MCPConfig : localv validate_MCPConfig.
Proof.
  intros l x. unfold validate_MCPConfig.
  destruct x; auto 20 with validators.
Qed.

End Locality.

#[local] Hint Resolve under_fail localv_str localv_int localv_float
  localv_bool localv_literal localv_dict_any localv_optional localv_list
  localv_dict localv_union under_required_model under_with_default_model
  localv_ChatMessage localv_Tool localv_AgentConfig localv_MemoryConfig
  localv_MCPConfig : validators.

(** ** The validation envelope *)

Lemma join_head (k : string) (parts : list string) :
  exists s, join "." (k :: parts) = (k ++ s)%string.
Proof.
  destruct parts as [| p parts].
  - exists "". simpl. induction k as [| c k IH]; simpl; congruence.
  - exists ("." ++ join "." (p :: parts))%string. reflexivity.
Qed.

Lemma field_name_below (l0 : loc_seg) (k : string) (rest : loc_t) :
  field_name ([l0; LKey k] ++ rest) = Some (join "." (k :: map str_loc rest)).
Proof. reflexivity. Qed.

(** Errors at or below the key [k] of the body name a field that starts
    with [k]: none of them is taken for the field [name] when no string
    starting with [k] equals [name]. *)
Lemma no_field_elsewhere (name : string) (l0 : loc_seg) (k : string)
    (errs : list ErrorEntry) :
  under [l0; LKey k] errs ->
  (forall s, (k ++ s)%string <> name) ->
  filter (has_field name) (map validation_detail errs) = [].
Proof.
  intros Hunder Hk. induction Hunder as [| e errs (rest & Hloc) _ IH].
  - reflexivity.
  - cbn [map filter]. rewrite IH.
    unfold has_field, validation_detail. cbn [ErrorDetail.field].
    rewrite Hloc, field_name_below.
    destruct (join_head k (map str_loc rest)) as (s & ->).
    destruct (String.eqb_spec (k ++ s) name) as [Heq | _]; [| reflexivity].
    exfalso. apply (Hk s). assumption.
Qed.

Section BodyFacts.
Context {P : Pydantic}.

Lemma other_default_field {A} name d k (v : validator A) dflt l0 :
  localv v ->
  (forall s, (k ++ s)%string <> name) ->
  filter (has_field name)
    (map validation_detail (errors_of (with_default d k v dflt [l0]))) = [].
Proof.
  intros Hv Hk. apply no_field_elsewhere with (l0 := l0) (k := k); [| exact Hk].
  apply (under_with_default d k v dflt [l0] Hv).
Qed.

Lemma other_required_field {A} name d k (v : validator A) l0 :
  localv v ->
  (forall s, (k ++ s)%string <> name) ->
  filter (has_field name)
    (map validation_detail (errors_of (required d k v [l0]))) = [].
Proof.
  intros Hv Hk. apply no_field_elsewhere with (l0 := l0) (k := k); [| exact Hk].
  apply (under_required d k v [l0] Hv).
Qed.

(** A body without the key [messages] is rejected, and exactly one of the
    detail entries names the field [messages]: the one for the missing
    field. *)
Lemma missing_messages_detail (d : pydict) :
  dict_get "messages" d = None ->
  exists errors,
    validate_ChatCompletionRequest [LKey "body"] (PDict d) = inl errors /\
    filter (has_field "messages") (map validation_detail errors)
    = [ validation_detail (missing_entry [LKey "body"; LKey "messages"]) ].
Proof.
  intros Hmiss.
  assert (Herrs :
    filter (has_field "messages")
      (map validation_detail
         (errors_of (validate_ChatCompletionRequest [LKey "body"] (PDict d))))
    = [ validation_detail (missing_entry [LKey "body"; LKey "messages"]) ]).
  { unfold validate_ChatCompletionRequest.
    rewrite (required_miss d "messages" _ _ Hmiss).
    rewrite !errors_of_ap, !map_app, !filter_app.
    rewrite !other_default_field
      by first [ solve [ auto 10 with validators ]
               | intros s Hs; simpl in Hs; discriminate Hs ].
    rewrite !other_required_field
      by first [ solve [ auto 10 with validators ]
               | intros s Hs; simpl in Hs; discriminate Hs ].
    reflexivity. }
  destruct (validate_ChatCompletionRequest [LKey "body"] (PDict d))
    as [errors | request] eqn:Hv.
  - exists errors. split; [reflexivity | exact Herrs].
  - discriminate Herrs.
Qed.

End BodyFacts.

(** C4, as the specification states it, fails: a body that is not an
    object at all is reported at the location [("body",)], and the detail
    entry for it has no field, not the empty path. *)
Lemma root_error_has_no_field :
  let errors :=
    errors_of (validate_ChatCompletionRequest [LKey "body"] (PList [])) in
  map loc errors = [ [LKey "body"] ] /\
  map (fun e => ErrorDetail.field (validation_detail e)) errors = [ None ] /\
  map (fun e => ErrorDetail.field (validation_detail e)) errors
  <> map (fun e => Some (dotted_tail (loc e))) errors.
Proof.
  vm_compute. repeat split. discriminate.
Qed.

(** C4, amended. The validation handler answers 422 with error
    [VALIDATION_ERROR] and one detail entry per reported error, in order;
    an entry's field is the location without its first segment, joined
    with dots, when the location has more than one segment, and is absent
    otherwise.  A body object without [messages] is rejected with exactly
    one entry whose field is [messages]. *)
Theorem validation_envelope
    (P : Pydantic) (utcnow_isoformat : string)
    (http_request : option Request) (errors : list ErrorEntry) :
  let r := snd (validation_exception_handler utcnow_isoformat http_request
                  errors) in
  status_code r = 422%Z /\
  item (content r) "status_code" = Some (PInt 422) /\
  item (content r) "error" = Some (PStr "VALIDATION_ERROR") /\
  item (content r) "details"
  = Some (PList (map (fun e => dump_ErrorDetail (validation_detail e)) errors)) /\
  (forall e : ErrorEntry,
     ErrorDetail.type (validation_detail e) = "validation_error" /\
     ErrorDetail.message (validation_detail e) = msg e /\
     ErrorDetail.code (validation_detail e) = Some (type e) /\
     ErrorDetail.field (validation_detail e)
     = if (1 <? List.length (loc e))%nat then Some (dotted_tail (loc e))
       else None) /\
  (forall d : pydict,
     dict_get "messages" d = None ->
     exists errs,
       validate_body (PDict d) = inl (RequestValidationError errs) /\
       filter (has_field "messages") (map validation_detail errs)
       = [ validation_detail (missing_entry [LKey "body"; LKey "messages"]) ] /\
       ErrorDetail.field
         (validation_detail (missing_entry [LKey "body"; LKey "messages"]))
       = Some "messages").
Proof.
  cbv zeta. repeat split.
  - destruct errors as [| e errors]; [reflexivity |].
    unfold validation_exception_handler, create_error_response,
      dump_ErrorResponse, dump_opt, dump_list, item.
    cbn [snd content ErrorResponse.details dict_get String.eqb Ascii.eqb
         Bool.eqb map].
    rewrite map_map. reflexivity.
  - intros d Hmiss.
    destruct (missing_messages_detail d Hmiss) as (errs & Hv & Hone).
    exists errs. unfold validate_body. rewrite Hv. repeat split. exact Hone.
Qed.

Lemma validation_envelope_witness :
  exists errs,
    validate_body (PDict [("model", PStr "gpt-4"); ("max_tokens", PStr "many")])
    = inl (RequestValidationError errs) /\
    filter (has_field "messages") (map validation_detail errs)
    = [ validation_detail (missing_entry [LKey "body"; LKey "messages"]) ] /\
    ErrorDetail.field
      (validation_detail (missing_entry [LKey "body"; LKey "messages"]))
    = Some "messages".
Proof.
  exact (proj2 (proj2 (proj2 (proj2 (proj2
           (validation_envelope exact_scalars demo_now demo_http_request [])))))
           [("model", PStr "gpt-4"); ("max_tokens", PStr "many")] eq_refl).
Defined.

(** ** Dumping and validating again *)

Section Codecs.
Context {P : Pydantic} {L : PydanticLaws P}.

Lemma never_none_PStr : never_none PStr.
Proof. intros a. discriminate. Qed.

Lemma never_none_PInt : never_none PInt.
Proof. intros a. discriminate. Qed.

Lemma never_none_PFloat : never_none PFloat.
Proof. intros a. discriminate. Qed.

Lemma never_none_PBool : never_none PBool.
Proof. intros a. discriminate. Qed.

Lemma never_none_PDict : never_none PDict.
Proof. intros a. discriminate. Qed.

Lemma never_none_list {A} (f : A -> pyval) : never_none (dump_list f).
Proof. intros a. discriminate. Qed.

Lemma never_none_dict {A} (f : A -> pyval) : never_none (dump_dict f).
Proof. intros a. discriminate. Qed.

Lemma never_none_union {A B} (f : A -> pyval) (g : B -> pyval) :
  never_none f -> never_none g -> never_none (dump_union f g).
Proof. intros Hf Hg [a | b]; simpl; auto. Qed.

Lemma never_none_ChatMessage : never_none dump_ChatMessage.
Proof. intros a. discriminate. Qed.

Lemma never_none_Tool : never_none dump_Tool.
Proof. intros a. discriminate. Qed.

Lemma never_none_AgentConfig : never_none dump_AgentConfig.
Proof. intros a. discriminate. Qed.

Lemma never_none_MemoryConfig : never_none dump_MemoryConfig.
Proof. intros a. discriminate. Qed.

Lemma never_none_MCPConfig : never_none dump_MCPConfig.
Proof. intros a. discriminate. Qed.

Lemma codec_str : codec v_str PStr.
Proof. intros l x a _ l'. reflexivity. Qed.

Lemma codec_int : codec v_int PInt.
Proof. intros l x a _ l'. unfold v_int. rewrite coerce_int_int. reflexivity. Qed.

Lemma codec_float : codec v_float PFloat.
Proof.
  intros l x a _ l'. unfold v_float. rewrite coerce_float_float. reflexivity.
Qed.

Lemma codec_bool : codec v_bool PBool.
Proof.
  intros l x a _ l'. unfold v_bool. rewrite coerce_bool_bool. reflexivity.
Qed.

Lemma codec_dict_any : codec v_dict_any PDict.
Proof. intros l x a _ l'. reflexivity. Qed.

Lemma v_literal_again allowed s l :
  In s allowed -> v_literal allowed l (PStr s) = ok s.
Proof.
  intros Hin. unfold v_literal.
  replace (existsb (String.eqb s) allowed) with true; [reflexivity |].
  symmetry. apply existsb_exists. exists s. split; [assumption |].
  apply String.eqb_refl.
Qed.

Lemma codec_literal allowed : codec (v_literal allowed) PStr.
Proof.
  intros l x a Hacc l'. apply v_literal_inr in Hacc.
  apply v_literal_again. apply Hacc.
Qed.

Lemma v_optional_some {A} (v : validator A) (f : A -> pyval) l a :
  never_none f -> v l (f a) = ok a -> v_optional v l (f a) = ok (Some a).
Proof.
  intros Hnn Hv. unfold v_optional. specialize (Hnn a).
  destruct (f a); try contradiction; rewrite Hv; reflexivity.
Qed.

Lemma v_optional_inr {A} (v : validator A) l x o :
  v_optional v l x = inr o ->
  (x = PNone /\ o = None) \/ (exists a, o = Some a /\ v l x = inr a).
Proof.
  unfold v_optional. intros Hacc.
  destruct x;
    try (right; apply ap_inr in Hacc;
         destruct Hacc as (g & a & Hg & Ha & ->);
         injection Hg as <-; eauto).
  left. injection Hacc as <-. auto.
Qed.

Lemma codec_optional {A} (v : validator A) (f : A -> pyval) :
  codec v f -> never_none f -> codec (v_optional v) (dump_opt f).
Proof.
  intros Hc Hnn l x o Hacc l'.
  apply v_optional_inr in Hacc.
  destruct Hacc as [[_ ->] | (a & -> & Ha)]; [reflexivity |].
  cbn [dump_opt]. apply v_optional_some; [assumption |].
  eapply Hc. eassumption.
Qed.

Lemma codec_items {A} (v : validator A) (f : A -> pyval) :
  codec v f ->
  forall xs l i ys, v_items v l i xs = inr ys ->
  forall l' i', v_items v l' i' (map f ys) = ok ys.
Proof.
  intros Hc xs. induction xs as [| x xs IH]; intros l i ys Hacc l' i';
    cbn [v_items] in Hacc.
  - injection Hacc as <-. reflexivity.
  - ap_inv Hacc. cbn [map v_items].
    rewrite (Hc _ _ _ Hfield0), (IH _ _ _ Hfield). reflexivity.
Qed.

Lemma codec_list {A} (v : validator A) (f : A -> pyval) :
  codec v f -> codec (v_list v) (dump_list f).
Proof.
  intros Hc l x ys Hacc l'. unfold v_list in *.
  destruct x; try discriminate. eapply codec_items; eassumption.
Qed.

Lemma codec_entries {A} (v : validator A) (f : A -> pyval) :
  codec v f ->
  forall d l ys, v_entries v l d = inr ys ->
  forall l', v_entries v l' (map (fun kv => (fst kv, f (snd kv))) ys) = ok ys.
Proof.
  intros Hc d. induction d as [| [k x] d IH]; intros l ys Hacc l';
    cbn [v_entries] in Hacc.
  - injection Hacc as <-. reflexivity.
  - ap_inv Hacc. cbn [map v_entries fst snd].
    rewrite (Hc _ _ _ Hfield0), (IH _ _ Hfield). reflexivity.
Qed.

Lemma codec_dict {A} (v : validator A) (f : A -> pyval) :
  codec v f -> codec (v_dict v) (dump_dict f).
Proof.
  intros Hc l x ys Hacc l'. unfold v_dict in *.
  destruct x; try discriminate. eapply codec_entries; eassumption.
Qed.

Lemma rejects_str_list {A} (f : A -> pyval) : rejects v_str (dump_list f).
Proof. intros l b. eexists. reflexivity. Qed.

Lemma rejects_str_dict : rejects v_str PDict.
Proof. intros l b. eexists. reflexivity. Qed.

Lemma codec_union {A B} ta (va : validator A) (f : A -> pyval)
    tb (vb : validator B) (g : B -> pyval) :
  codec va f -> codec vb g -> rejects va g ->
  codec (v_union ta va tb vb) (dump_union f g).
Proof.
  intros Ha Hb Hrej l x u Hacc l'. unfold v_union in Hacc.
  destruct (va (l ++ [LKey ta]) x) as [ea | a] eqn:Hva.
  - destruct (vb (l ++ [LKey tb]) x) as [eb | b] eqn:Hvb; [discriminate |].
    injection Hacc as <-. unfold v_union. cbn [dump_union].
    destruct (Hrej (l' ++ [LKey ta]) b) as (e & ->).
    rewrite (Hb _ _ _ Hvb). reflexivity.
  - injection Hacc as <-. unfold v_union. cbn [dump_union].
    rewrite (Ha _ _ _ Hva). reflexivity.
Qed.

(** A field that was accepted is accepted again from the dump. *)
Lemma required_again {A} (v : validator A) (f : A -> pyval) d k l a d' l' :
  codec v f ->
  required d k v l = inr a ->
  dict_get k d' = Some (f a) ->
  required d' k v l' = ok a.
Proof.
  intros Hc Hacc Hget. rewrite (required_hit _ _ _ _ _ Hget).
  unfold required in Hacc. destruct (dict_get k d); [| discriminate].
  eapply Hc. eassumption.
Qed.

Lemma with_default_again {A} (v : validator A) (f : A -> pyval)
    d k dflt l a d' l' :
  codec v f ->
  (forall l0, v l0 (f dflt) = ok dflt) ->
  with_default d k v dflt l = inr a ->
  dict_get k d' = Some (f a) ->
  with_default d' k v dflt l' = ok a.
Proof.
  intros Hc Hd Hacc Hget. rewrite (with_default_hit _ _ _ _ _ _ Hget).
  unfold with_default in Hacc. destruct (dict_get k d).
  - eapply Hc. eassumption.
  - injection Hacc as <-. apply Hd.
Qed.

End Codecs.

#[local] Hint Resolve never_none_PStr never_none_PInt never_none_PFloat
  never_none_PBool never_none_PDict never_none_list never_none_dict
  never_none_union never_none_ChatMessage never_none_Tool
  never_none_AgentConfig never_none_MemoryConfig never_none_MCPConfig
  codec_str codec_int codec_float codec_bool codec_dict_any codec_literal
  codec_optional codec_list codec_dict codec_union rejects_str_list
  rejects_str_dict : validators.

(** Closes [forall l0, v l0 (f default) = ok default] for a declared
    default. *)
Ltac default_ok :=
  intros; cbn [dump_opt];
  unfold v_optional, v_int, v_float, v_bool;
  rewrite ?coerce_int_int, ?coerce_float_float, ?coerce_bool_bool;
  reflexivity.

(** Rewrites one field of a model validated from its own dump, using the
    hypothesis that the field was accepted in the first place. *)
Ltac field_again :=
  match goal with
  | H : required ?d ?k ?v ?l = inr ?a |- context [required ?d' ?k ?v ?l'] =>
      let E := fresh "E" in
      assert (E : required d' k v l' = ok a)
        by (eapply required_again;
            [ solve [eauto 10 with validators] | exact H | reflexivity ]);
      rewrite E; clear E H
  | H : with_default ?d ?k ?v ?dflt ?l = inr ?a
    |- context [with_default ?d' ?k ?v ?dflt ?l'] =>
      let E := fresh "E" in
      assert (E : with_default d' k v dflt l' = ok a)
        by (eapply with_default_again;
            [ solve [eauto 10 with validators] | default_ok | exact H
            | reflexivity ]);
      rewrite E; clear E H
  end.

Section ModelCodecs.
Context {P : Pydantic} {L : PydanticLaws P}.

Lemma codec_ChatMessage : codec validate_ChatMessage dump_ChatMessage.
Proof.
  intros l x m Hacc l'. destruct x; try discriminate.
  unfold validate_ChatMessage in Hacc. ap_inv Hacc.
  unfold validate_ChatMessage, dump_ChatMessage.
  repeat field_again. reflexivity.
Qed.

Lemma codec_Tool : codec validate_Tool dump_Tool.
Proof.
  intros l x m Hacc l'. destruct x; try discriminate.
  unfold validate_Tool in Hacc. ap_inv Hacc.
  unfold validate_Tool, dump_Tool.
  repeat field_again. reflexivity.
Qed.

Lemma codec_AgentConfig : codec validate_AgentConfig dump_AgentConfig.
Proof.
  intros l x m Hacc l'. destruct x; try discriminate.
  unfold validate_AgentConfig in Hacc. ap_inv Hacc.
  unfold validate_AgentConfig, dump_AgentConfig.
  repeat field_again. reflexivity.
Qed.

Lemma codec_MemoryConfig : codec validate_MemoryConfig dump_MemoryConfig.
Proof.
  intros l x m Hacc l'. destruct x; try discriminate.
  unfold validate_MemoryConfig in Hacc. ap_inv Hacc.
  unfold validate_MemoryConfig, dump_MemoryConfig.
  repeat field_again. reflexivity.
Qed.

Lemma codec_MCPConfig : codec validate_MCPConfig dump_MCPConfig.
Proof.
  intros l x m Hacc l'. destruct x; try discriminate.
  unfold validate_MCPConfig in Hacc. ap_inv Hacc.
  unfold validate_MCPConfig, dump_MCPConfig.
  repeat field_again. reflexivity.
Qed.

End ModelCodecs.

#[local] Hint Resolve codec_ChatMessage codec_Tool codec_AgentConfig
  codec_MemoryConfig codec_MCPConfig : validators.

Section RequestCodec.
Context {P : Pydantic} {L : PydanticLaws P}.

Lemma codec_ChatCompletionRequest :
  codec validate_ChatCompletionRequest dump_ChatCompletionRequest.
Proof.
  intros l x m Hacc l'. destruct x; try discriminate.
  unfold validate_ChatCompletionRequest in Hacc. ap_inv Hacc.
  unfold validate_ChatCompletionRequest, dump_ChatCompletionRequest.
  repeat field_again. reflexivity.
Qed.

End RequestCodec.

(** ** Fields kept verbatim *)

Section Verbatim.
Context {P : Pydantic}.

Lemma exact_str : exact v_str PStr.
Proof.
  intros l x a Hacc. unfold v_str in Hacc.
  destruct x; try discriminate. injection Hacc as <-. reflexivity.
Qed.

Lemma exact_dict_any : exact v_dict_any PDict.
Proof.
  intros l x a Hacc. unfold v_dict_any in Hacc.
  destruct x; try discriminate. injection Hacc as <-. reflexivity.
Qed.

Lemma exact_optional {A} (v : validator A) (f : A -> pyval) :
  exact v f -> exact (v_optional v) (dump_opt f).
Proof.
  intros Hv l x o Hacc. apply v_optional_inr in Hacc.
  destruct Hacc as [[-> ->] | (a & -> & Ha)]; [reflexivity |].
  cbn [dump_opt]. eapply Hv. eassumption.
Qed.

Lemma exact_items {A} (v : validator A) (f : A -> pyval) :
  exact v f ->
  forall xs l i ys, v_items v l i xs = inr ys -> xs = map f ys.
Proof.
  intros Hv xs. induction xs as [| x xs IH]; intros l i ys Hacc;
    cbn [v_items] in Hacc.
  - injection Hacc as <-. reflexivity.
  - ap_inv Hacc. cbn [map].
    rewrite (Hv _ _ _ Hfield0), (IH _ _ _ Hfield). reflexivity.
Qed.

Lemma exact_list {A} (v : validator A) (f : A -> pyval) :
  exact v f -> exact (v_list v) (dump_list f).
Proof.
  intros Hv l x ys Hacc. unfold v_list in Hacc.
  destruct x; try discriminate. unfold dump_list.
  f_equal. eapply exact_items; eassumption.
Qed.

Lemma exact_union {A B} ta (va : validator A) (f : A -> pyval)
    tb (vb : validator B) (g : B -> pyval) :
  exact va f -> exact vb g -> exact (v_union ta va tb vb) (dump_union f g).
Proof.
  intros Ha Hb l x u Hacc. unfold v_union in Hacc.
  destruct (va (l ++ [LKey ta]) x) as [ea | a] eqn:Hva.
  - destruct (vb (l ++ [LKey tb]) x) as [eb | b] eqn:Hvb; [discriminate |].
    injection Hacc as <-. cbn [dump_union]. eapply Hb. eassumption.
  - injection Hacc as <-. cbn [dump_union]. eapply Ha. eassumption.
Qed.

Lemma required_verbatim {A} (v : validator A) (f : A -> pyval) d k l a x :
  exact v f -> required d k v l = inr a -> dict_get k d = Some x -> x = f a.
Proof.
  intros Hv Hacc Hget. rewrite (required_hit _ _ _ _ _ Hget) in Hacc.
  eapply Hv. eassumption.
Qed.

Lemma with_default_verbatim {A} (v : validator A) (f : A -> pyval)
    d k dflt l a x :
  exact v f -> with_default d k v dflt l = inr a -> dict_get k d = Some x ->
  x = f a.
Proof.
  intros Hv Hacc Hget. rewrite (with_default_hit _ _ _ _ _ _ Hget) in Hacc.
  eapply Hv. eassumption.
Qed.

End Verbatim.

#[local] Hint Resolve exact_str exact_dict_any exact_optional exact_list
  exact_union : validators.

Lemma exact_scalars_laws : PydanticLaws exact_scalars.
Proof. split; reflexivity. Qed.

(** The fields at the top level of an accepted request: dumping the
    request and validating the dump gives the same request back; the
    values of the fields typed by strings and free-form dicts appear in
    the dump as supplied, and so do those of the integer, float and
    boolean fields when they are supplied at that type (or as null); a
    field that is not supplied appears with its declared default. *)
Lemma top_level_fields_kept
    (P : Pydantic) (L : PydanticLaws P) (l l' : loc_t) (d : pydict)
    (r : ChatCompletionRequest.t) :
  validate_ChatCompletionRequest l (PDict d) = inr r ->
  validate_ChatCompletionRequest l' (dump_ChatCompletionRequest r) = inr r /\
  (forall k x, In k verbatim_fields -> dict_get k d = Some x ->
     item (dump_ChatCompletionRequest r) k = Some x) /\
  (forall k s x, In (k, s) scalar_fields -> dict_get k d = Some x ->
     of_scalar s x = true ->
     item (dump_ChatCompletionRequest r) k = Some x) /\
  (forall k dflt, dict_get k d = None ->
     dict_get k documented_defaults = Some dflt ->
     item (dump_ChatCompletionRequest r) k = Some dflt).
Proof.
  intros Hacc. split; [| split; [| split]].
  - eapply codec_ChatCompletionRequest. eassumption.
  - unfold validate_ChatCompletionRequest in Hacc. ap_inv Hacc.
    intros k jv Hin Hget. unfold verbatim_fields in Hin. simpl in Hin.
    decompose [or] Hin; try contradiction; subst k;
      cbn [item dump_ChatCompletionRequest dict_get String.eqb Ascii.eqb
           Bool.eqb ChatCompletionRequest.model ChatCompletionRequest.stop
           ChatCompletionRequest.user ChatCompletionRequest.tool_choice
           ChatCompletionRequest.context_id ChatCompletionRequest.session_id
           ChatCompletionRequest.metadata];
      f_equal; symmetry;
      match goal with
      | Hg : dict_get ?key d = Some jv, H : required d ?key _ _ = inr _ |- _ =>
          eapply required_verbatim;
            [ solve [eauto 10 with validators] | exact H | exact Hg ]
      | Hg : dict_get ?key d = Some jv, H : with_default d ?key _ _ _ = inr _
        |- _ =>
          eapply with_default_verbatim;
            [ solve [eauto 10 with validators] | exact H | exact Hg ]
      end.
  - unfold validate_ChatCompletionRequest in Hacc. ap_inv Hacc.
    intros k s jv Hin Hget Hty. unfold scalar_fields in Hin. simpl in Hin.
    decompose [or] Hin; try contradiction;
      match goal with Heq : (_, _) = (k, s) |- _ => injection Heq as <- <- end;
      match goal with
      | Hf : with_default d ?key _ _ _ = inr _,
        Hg : dict_get ?key d = Some jv |- _ =>
          rewrite (with_default_hit _ _ _ _ _ _ Hg) in Hf;
          destruct jv; try discriminate Hty;
          unfold v_optional, v_int, v_float, v_bool in Hf;
          rewrite ?coerce_int_int, ?coerce_float_float, ?coerce_bool_bool
            in Hf;
          injection Hf as <-; reflexivity
      end.
  - unfold validate_ChatCompletionRequest in Hacc. ap_inv Hacc.
    intros k dv Hnone Hdoc. unfold documented_defaults in Hdoc.
    cbn [dict_get] in Hdoc.
    repeat match type of Hdoc with
      | (if String.eqb k ?c then _ else _) = Some _ =>
          destruct (String.eqb_spec k c);
            [ subst k; injection Hdoc as <-;
              match goal with
              | Hf : with_default d c _ _ _ = inr _ |- _ =>
                  apply (with_default_miss_inr _ _ _ _ _ _ Hnone) in Hf;
                  subst; reflexivity
              end
            | ]
      end.
    discriminate Hdoc.
Qed.

(** * Further properties of the relay *)

(** [generate] works through a prefix without ["done"] event by event and
    then goes on with the rest of the upstream. *)
Lemma generate_prefix
    (json_dumps : pyval -> string)
    (before : list ChatStreamEvent) (rest : agen ChatStreamEvent) :
  Forall (fun event => ev_type event <> "done") before ->
  emitted (generate json_dumps (yield_all before rest))
  = map (fun event => message_frame json_dumps (ev_data event))
        (filter is_payload_message before)
    ++ emitted (generate json_dumps rest)
  /\ raised (generate json_dumps (yield_all before rest))
     = raised (generate json_dumps rest)
  /\ pulled (yield_all before rest) = (List.length before + pulled rest)%nat.
Proof.
  intros Hbefore. induction Hbefore as [| event before' Hev _ IH].
  - repeat split.
  - destruct IH as (IHe & IHr & IHp).
    cbn [yield_all filter List.length].
    rewrite pulled_step_other by assumption.
    destruct (is_payload_message event) eqn:Hm.
    + rewrite generate_step_message by assumption.
      cbn [emitted raised map app]. rewrite IHe, IHr, IHp. repeat split.
    + rewrite generate_step_skip by assumption.
      rewrite IHe, IHr, IHp. repeat split.
Qed.

(** X1. When the upstream ends without any ["done"] event, the stream
    consists of the message frames alone: it ends normally, every event
    has been pulled, and no terminating frame is added. *)
Theorem generate_without_done
    (json_dumps : pyval -> string) (events : list ChatStreamEvent) :
  Forall (fun event => ev_type event <> "done") events ->
  emitted (generate json_dumps (yield_all events AStop))
  = map (fun event => message_frame json_dumps (ev_data event))
        (filter is_payload_message events)
  /\ raised (generate json_dumps (yield_all events AStop)) = None
  /\ pulled (yield_all events AStop) = List.length events.
Proof.
  intros Hev.
  destruct (generate_prefix json_dumps events AStop Hev) as (He & Hr & Hp).
  rewrite He, Hr, Hp. cbn [generate emitted raised pulled].
  rewrite app_nil_r, Nat.add_0_r. repeat split.
Qed.

Lemma generate_without_done_witness :
  emitted (generate demo_dumps (yield_all demo_before AStop))
  = [ ("data: hello" ++ LF ++ LF)%string ]
  /\ raised (generate demo_dumps (yield_all demo_before AStop)) = None
  /\ pulled (yield_all demo_before AStop) = 4%nat.
Proof.
  apply (generate_without_done demo_dumps demo_before).
  repeat constructor; simpl; discriminate.
Defined.

(** X2. When the upstream raises before any ["done"] event, the frames
    of the events read so far have been sent, the exception of the
    upstream is the one that ends the stream, and no terminating frame is
    sent. *)
Theorem generate_upstream_raises
    (json_dumps : pyval -> string) (events : list ChatStreamEvent) (e : exn) :
  Forall (fun event => ev_type event <> "done") events ->
  emitted (generate json_dumps (yield_all events (ARaise e)))
  = map (fun event => message_frame json_dumps (ev_data event))
        (filter is_payload_message events)
  /\ raised (generate json_dumps (yield_all events (ARaise e))) = Some e
  /\ pulled (yield_all events (ARaise e)) = List.length events.
Proof.
  intros Hev.
  destruct (generate_prefix json_dumps events (ARaise e) Hev) as (He & Hr & Hp).
  rewrite He, Hr, Hp. cbn [generate emitted raised pulled].
  rewrite app_nil_r, Nat.add_0_r. repeat split.
Qed.

Lemma generate_upstream_raises_witness :
  emitted (generate demo_dumps
             (yield_all demo_before (ARaise (PyException "TimeoutError" []))))
  = [ ("data: hello" ++ LF ++ LF)%string ]
  /\ raised (generate demo_dumps
               (yield_all demo_before (ARaise (PyException "TimeoutError" []))))
     = Some (PyException "TimeoutError" [])
  /\ pulled (yield_all demo_before (ARaise (PyException "TimeoutError" [])))
     = 4%nat.
Proof.
  apply (generate_upstream_raises demo_dumps demo_before
           (PyException "TimeoutError" [])).
  repeat constructor; simpl; discriminate.
Defined.

(** X3. Whatever the upstream does, [generate] sends at most one frame
    per event it pulls and never pulls more events than the upstream has;
    every frame is the terminating frame or the frame of a payload-carrying
    ["message"] event of the upstream; and it raises nothing of its own:
    an exception that ends the stream is one the upstream raised. *)
Theorem generate_bounds
    (json_dumps : pyval -> string) (upstream : agen ChatStreamEvent) :
  (List.length (emitted (generate json_dumps upstream)) <= pulled upstream)%nat
  /\ (pulled upstream <= List.length (emitted upstream))%nat
  /\ Forall (fun frame =>
               frame = DONE_FRAME \/
               exists event, In event (emitted upstream) /\
                             is_payload_message event = true /\
                             frame = message_frame json_dumps (ev_data event))
            (emitted (generate json_dumps upstream))
  /\ forall e, raised (generate json_dumps upstream) = Some e ->
               raised upstream = Some e.
Proof.
  assert (Hlift : forall (rest : agen ChatStreamEvent) (event : ChatStreamEvent)
                         (frames : list string),
            Forall (fun frame =>
                      frame = DONE_FRAME \/
                      exists ev, In ev (emitted rest) /\
                                 is_payload_message ev = true /\
                                 frame = message_frame json_dumps (ev_data ev))
                   frames ->
            Forall (fun frame =>
                      frame = DONE_FRAME \/
                      exists ev, In ev (event :: emitted rest) /\
                                 is_payload_message ev = true /\
                                 frame = message_frame json_dumps (ev_data ev))
                   frames).
  { intros rest event frames. apply Forall_impl.
    intros f [Hd | (ev & Hin & Hp & Hf)]; [left; assumption |].
    right. exists ev. split; [right; assumption | split; assumption]. }
  induction upstream as [| event rest IH | e0].
  - cbn. split; [lia |]. split; [lia |]. split; [constructor | discriminate].
  - destruct IH as (IHl & IHp & IHf & IHr).
    cbn [generate pulled emitted raised List.length].
    fold (is_payload_message event).
    destruct (is_payload_message event) eqn:Hm.
    + cbn [emitted raised List.length].
      split; [lia |]. split; [lia |]. split; [| assumption].
      constructor; [| apply Hlift; assumption].
      right. exists event.
      split; [left; reflexivity | split; [assumption | reflexivity]].
    + destruct (String.eqb (ev_type event) "done").
      * cbn [emitted raised List.length].
        split; [lia |]. split; [lia |]. split; [| discriminate].
        constructor; [left; reflexivity | constructor].
      * split; [lia |]. split; [lia |]. split; [| assumption].
        apply Hlift. assumption.
  - cbn. split; [lia |]. split; [lia |]. split; [constructor | auto].
Qed.

(** X4. With [stream] true neither endpoint awaits [chat_completion] nor
    raises: the answer is a streaming response with status 200 and nothing
    is logged as an error, whatever the provider does.  A provider failure
    shows inside the stream only; if the upstream raises at the first
    pull, the body is empty and ends with that exception. *)
Theorem streaming_starts_whatever_the_provider_does
    {Session Response UploadFile : Type}
    (json_dumps : pyval -> string) (str_exc : exn -> string)
    (ai_chat_service : AIChatService Session Response)
    (utcnow_isoformat : string) (environment : option string)
    (response_model : Response -> list ErrorEntry + pyval)
    (http_request : option Request)
    (request : ChatCompletionRequest.t) (files : list UploadFile)
    (db : Session) :
  truthy_bool (ChatCompletionRequest.stream request) = true ->
  let a := completions_chat_completions json_dumps str_exc ai_chat_service
             request db in
  let b := colposcopy_chat_completions json_dumps str_exc ai_chat_service
             request files db in
  let upstream := chat_completion_stream ai_chat_service db request in
  await_count (fst a) = 0%nat /\ await_count (fst b) = 0%nat /\
  snd a = inr (ReturnStreaming
                 {| body_iterator := generate json_dumps upstream;
                    media_type := "text/plain";
                    headers := STREAM_HEADERS |}) /\
  snd b = snd a /\
  respond utcnow_isoformat str_exc environment response_model http_request a
  = ([], StreamBody 200 "text/plain" STREAM_HEADERS
           (generate json_dumps upstream)) /\
  forall e, upstream = ARaise e ->
    emitted (generate json_dumps upstream) = [] /\
    raised (generate json_dumps upstream) = Some e.
Proof.
  intros Hstream a b upstream. subst a b upstream.
  unfold completions_chat_completions, colposcopy_chat_completions, respond.
  rewrite Hstream. cbn [fst snd].
  split; [reflexivity |]. split; [reflexivity |].
  split; [reflexivity |]. split; [reflexivity |].
  split; [reflexivity |].
  intros e ->. split; reflexivity.
Qed.

Lemma streaming_starts_whatever_the_provider_does_witness :
  await_count (fst (completions_chat_completions demo_dumps demo_str_exc
                      failing_service (demo_request (Some true)) tt)) = 0%nat
  /\ respond demo_now demo_str_exc None serialize_response demo_http_request
       (completions_chat_completions demo_dumps demo_str_exc
          failing_service (demo_request (Some true)) tt)
     = ([], StreamBody 200 "text/plain" STREAM_HEADERS AStop).
Proof.
  pose proof (@streaming_starts_whatever_the_provider_does unit pyval unit
                demo_dumps demo_str_exc failing_service demo_now None
                serialize_response demo_http_request (demo_request (Some true)) [] tt eq_refl)
    as (Ha & _ & _ & _ & Hr & _).
  split; [exact Ha | exact Hr].
Defined.

(** * Further properties of the error envelope *)

Lemma map_get_mapped (status : Z) :
  In status MAPPED_STATUSES ->
  map_get status error_type_map "HTTP_ERROR" <> "HTTP_ERROR".
Proof.
  unfold MAPPED_STATUSES. simpl.
  intros Hin. decompose [or] Hin; try contradiction; subst; discriminate.
Qed.

Lemma map_get_unmapped (status : Z) :
  ~ In status MAPPED_STATUSES ->
  map_get status error_type_map "HTTP_ERROR" = "HTTP_ERROR".
Proof.
  unfold MAPPED_STATUSES, error_type_map. simpl. intros Hnot.
  repeat match goal with
    | |- context [Z.eqb status ?c] =>
        destruct (Z.eqb_spec status c); [exfalso; apply Hnot; subst; auto 10 |]
    end.
  reflexivity.
Qed.

Lemma map_get_nonempty (status : Z) :
  map_get status error_type_map "HTTP_ERROR" <> "".
Proof.
  unfold error_type_map. simpl.
  repeat match goal with
    | |- context [Z.eqb status ?c] => destruct (Z.eqb status c)
    end; discriminate.
Qed.

Lemma str_or_nonempty (x : option string) (y : string) :
  y <> "" -> str_or x y <> "".
Proof.
  intros Hy. unfold str_or. destruct x as [s |]; [| assumption].
  destruct (String.eqb_spec s ""); assumption.
Qed.

(** X5. Whatever exception reaches the registered handlers, the answer
    is one envelope of the same eight keys: [success] false, a non-empty
    error code, a details list (possibly empty, never null), a
    [status_code] equal to the HTTP status of the response, the call time
    with a [Z] suffix, the request path and a null request id; and at
    least one error record is logged. *)
Theorem envelope_invariants
    (utcnow_isoformat : string) (str_exc : exn -> string)
    (environment : option string) (http_request : option Request) (e : exn) :
  let r := handle_exception utcnow_isoformat str_exc environment
             http_request e in
  status_code (snd r) = answered_status e /\
  fst r <> [] /\
  exists error message details,
    error <> "" /\
    content (snd r)
    = PDict [
        ("success", PBool false);
        ("error", PStr error);
        ("message", PStr message);
        ("details", PList details);
        ("status_code", PInt (status_code (snd r)));
        ("timestamp", PStr (utcnow_isoformat ++ "Z"));
        ("path", dump_opt PStr (option_map url_path http_request));
        ("request_id", PNone) ].
Proof.
  cbv zeta.
  destruct e as [[status detail hs | cls status detail hs code field]
                 | errors | name args].
  - split; [reflexivity |]. split; [discriminate |].
    eexists _, _, _. split; [| destruct http_request; reflexivity].
    apply map_get_nonempty.
  - split; [reflexivity |]. split; [discriminate |].
    exists (str_or code "BUSINESS_ERROR"), detail,
      (map dump_ErrorDetail
         (if truthy_str field || truthy_str code
          then [business_detail detail code field] else [])).
    split; [apply str_or_nonempty; discriminate |].
    destruct http_request; cbn;
      destruct (truthy_str field || truthy_str code); reflexivity.
  - split; [reflexivity |]. split; [discriminate |].
    exists "VALIDATION_ERROR", "请求数据验证失败",
      (map dump_ErrorDetail (map validation_detail errors)).
    split; [discriminate |].
    destruct http_request, errors; reflexivity.
  - assert (Hs : status_code
                   (snd (handle_exception utcnow_isoformat str_exc environment
                           http_request (PyException name args))) = 500%Z).
    { unfold handle_exception, general_exception_handler.
      destruct (String.eqb (kwarg environment "development") "development");
        reflexivity. }
    split; [exact Hs |]. rewrite Hs. split.
    { unfold handle_exception, general_exception_handler.
      destruct (String.eqb (kwarg environment "development") "development");
        discriminate. }
    exists "INTERNAL_SERVER_ERROR",
      (if development_mode environment
       then (type_name (PyException name args) ++ ": "
             ++ str_exc (PyException name args))%string
       else GENERIC_MESSAGE),
      (map dump_ErrorDetail
         (if development_mode environment
          then [system_detail (type_name (PyException name args))
                  (str_exc (PyException name args))]
          else [])).
    split; [discriminate |].
    unfold handle_exception, general_exception_handler.
    fold (development_mode environment).
    destruct (development_mode environment), http_request; reflexivity.
Qed.

(** X6. For a plain [HTTPException] the envelope has no details, its
    message is the exception's detail and its status the exception's; the
    error code is [HTTP_ERROR] exactly when the status is none of 400, 401,
    403, 404, 405, 409, 422, 500. *)
Theorem plain_http_exception_envelope
    (utcnow_isoformat : string) (http_request : option Request)
    (status : Z) (detail : string) (headers : option header_map) :
  let r := snd (http_exception_handler utcnow_isoformat http_request
                  (HTTPException status detail headers)) in
  status_code r = status /\
  item (content r) "status_code" = Some (PInt status) /\
  item (content r) "message" = Some (PStr detail) /\
  item (content r) "details" = Some (PList []) /\
  (item (content r) "error" = Some (PStr "HTTP_ERROR")
   <-> ~ In status MAPPED_STATUSES).
Proof.
  cbv zeta. repeat (split; [reflexivity |]).
  cbn [http_exception_handler snd content create_error_response
       dump_ErrorResponse item dict_get String.eqb Ascii.eqb Bool.eqb
       ErrorResponse.error].
  split.
  - intros Heq Hin. injection Heq as Heq.
    exact (map_get_mapped status Hin Heq).
  - intros Hout. rewrite (map_get_unmapped _ Hout). reflexivity.
Qed.

(** X7. For a [BusinessException] of any class the envelope carries the
    exception's status and detail; its error code is the exception's when
    that is a non-empty string and [BUSINESS_ERROR] otherwise; and there is
    one detail entry, with the field and the code as given, exactly when
    the field or the code is a non-empty string, and none otherwise. *)
Theorem business_exception_envelope
    (utcnow_isoformat : string) (http_request : option Request)
    (cls : business_class) (status : Z) (detail : string)
    (headers : option header_map) (error_code field : option string) :
  let r := snd (http_exception_handler utcnow_isoformat http_request
                  (BusinessExc cls status detail headers error_code field)) in
  status_code r = status /\
  item (content r) "message" = Some (PStr detail) /\
  item (content r) "error"
  = Some (PStr (if truthy_str error_code
                then match error_code with Some c => c | None => "" end
                else "BUSINESS_ERROR")) /\
  item (content r) "details"
  = Some (PList (if truthy_str field || truthy_str error_code
                 then [ dump_ErrorDetail
                          (business_detail detail error_code field) ]
                 else [])).
Proof.
  cbv zeta. split; [reflexivity |]. split; [reflexivity |]. split.
  - destruct error_code as [c |]; [| reflexivity].
    cbn. unfold str_or. destruct (String.eqb c ""); reflexivity.
  - cbn. destruct (truthy_str field || truthy_str error_code); reflexivity.
Qed.

(** X8. The quick constructors give, through the handler, the status and
    error code of their class with the given text as message and one
    detail entry: 404 [NOT_FOUND] with the resource name followed by
    [不存在], 422 [VALIDATION_ERROR] with the given field, 401
    [AUTHENTICATION_ERROR], 403 [AUTHORIZATION_ERROR], 409 [CONFLICT]. *)
Theorem quick_constructor_envelopes
    (utcnow_isoformat : string) (http_request : option Request)
    (resource message : option string) (text : string)
    (field : option string) :
  let answer := fun exc =>
    snd (http_exception_handler utcnow_isoformat http_request exc) in
  let envelope := business_envelope utcnow_isoformat http_request in
  answer (not_found_error resource)
  = {| status_code := 404;
       content := envelope 404%Z "NOT_FOUND"
                    (kwarg resource "资源" ++ "不存在")%string None |} /\
  answer (validation_error text field)
  = {| status_code := 422;
       content := envelope 422%Z "VALIDATION_ERROR" text field |} /\
  answer (unauthorized_error message)
  = {| status_code := 401;
       content := envelope 401%Z "AUTHENTICATION_ERROR"
                    (kwarg message "请先登录") None |} /\
  answer (forbidden_error message)
  = {| status_code := 403;
       content := envelope 403%Z "AUTHORIZATION_ERROR"
                    (kwarg message "权限不足") None |} /\
  answer (conflict_error text)
  = {| status_code := 409;
       content := envelope 409%Z "CONFLICT" text None |}.
Proof.
  cbv zeta.
  assert (Hor : forall b, b || true = true) by (intros []; reflexivity).
  unfold http_exception_handler, business_envelope, business_detail.
  repeat split; destruct http_request; cbn;
    rewrite ?Hor; reflexivity.
Qed.

(** X9. Outside development mode the answer of the catch-all handler
    does not depend on the exception: whatever was raised, and whatever
    its text, the client gets the same response; the exception's type and
    text go to the log only. *)
Theorem production_hides_the_exception
    (utcnow_isoformat : string) (str_exc str_exc' : exn -> string)
    (environment : option string) (http_request : option Request)
    (exc exc' : exn) :
  development_mode environment = false ->
  snd (general_exception_handler utcnow_isoformat str_exc environment
         http_request exc)
  = snd (general_exception_handler utcnow_isoformat str_exc' environment
           http_request exc') /\
  item (content (snd (general_exception_handler utcnow_isoformat str_exc
                        environment http_request exc))) "message"
  = Some (PStr GENERIC_MESSAGE) /\
  fst (general_exception_handler utcnow_isoformat str_exc environment
         http_request exc)
  = [ ErrorUnhandled (type_name exc) (str_exc exc); ErrorTraceback ].
Proof.
  unfold development_mode, general_exception_handler. intros ->.
  repeat split.
Qed.

Lemma production_hides_the_exception_witness :
  snd (general_exception_handler demo_now demo_str_exc (Some "production")
         demo_http_request (PyException "KeyError" [PStr "secret"]))
  = snd (general_exception_handler demo_now demo_str_exc (Some "production")
           demo_http_request (PyException "RuntimeError" [PStr "boom"])).
Proof.
  exact (proj1 (production_hides_the_exception demo_now demo_str_exc
                  demo_str_exc (Some "production") demo_http_request
                  (PyException "KeyError" [PStr "secret"])
                  (PyException "RuntimeError" [PStr "boom"]) eq_refl)).
Defined.

(** * Further properties of request validation *)

Lemma dict_get_skip (k k' : string) (v : pyval) (d1 d2 : pydict) :
  k' <> k -> dict_get k' (d1 ++ (k, v) :: d2) = dict_get k' (d1 ++ d2).
Proof.
  intros Hne. induction d1 as [| [k1 v1] d1 IH]; simpl.
  - destruct (String.eqb_spec k' k); [contradiction | reflexivity].
  - rewrite IH. reflexivity.
Qed.

(** X10. A key that is not a declared field of [ChatCompletionRequest]
    is ignored: wherever it stands in the body, the outcome of validation,
    errors included, is the same as without it. *)
Theorem unknown_keys_are_ignored
    (P : Pydantic) (l : loc_t) (k : string) (v : pyval) (d1 d2 : pydict) :
  ~ In k REQUEST_FIELDS ->
  validate_ChatCompletionRequest l (PDict (d1 ++ (k, v) :: d2))
  = validate_ChatCompletionRequest l (PDict (d1 ++ d2)).
Proof.
  intros Hk. unfold validate_ChatCompletionRequest, required, with_default.
  rewrite !(dict_get_skip k)
    by (intros <-; apply Hk; unfold REQUEST_FIELDS; simpl; auto 30).
  reflexivity.
Qed.

Lemma unknown_keys_are_ignored_witness :
  validate_ChatCompletionRequest [LKey "body"]
    (PDict ([("model", PStr "gpt-4")]
            ++ ("trace_id", PInt 7) :: [("messages", PList [])]))
  = validate_ChatCompletionRequest [LKey "body"]
      (PDict ([("model", PStr "gpt-4")] ++ [("messages", PList [])])).
Proof.
  apply (unknown_keys_are_ignored exact_scalars [LKey "body"] "trace_id"
           (PInt 7) [("model", PStr "gpt-4")] [("messages", PList [])]).
  unfold REQUEST_FIELDS. simpl.
  intros H. decompose [or] H; try contradiction; discriminate.
Defined.



(** X12. A body that supplies a string for [model] and an empty list for
    [messages], and none of the other declared fields, is accepted: neither
    an empty message list nor an empty model name is refused, and the
    request carries the declared defaults. *)
Theorem minimal_body_is_accepted
    (P : Pydantic) (l : loc_t) (d : pydict) (model : string) :
  dict_get "model" d = Some (PStr model) ->
  dict_get "messages" d = Some (PList []) ->
  (forall k, In k REQUEST_FIELDS -> k <> "model" -> k <> "messages" ->
             dict_get k d = None) ->
  validate_ChatCompletionRequest l (PDict d)
  = inr (request_with_defaults model []).
Proof.
  intros Hmodel Hmessages Hrest.
  unfold validate_ChatCompletionRequest.
  rewrite (required_hit _ _ _ _ _ Hmodel), (required_hit _ _ _ _ _ Hmessages).
  rewrite !with_default_miss
    by (apply Hrest; [unfold REQUEST_FIELDS; simpl; auto 30
                     | discriminate | discriminate]).
  reflexivity.
Qed.

Lemma minimal_body_is_accepted_witness :
  validate_ChatCompletionRequest [LKey "body"]
    (PDict [("messages", PList []); ("model", PStr ""); ("extra", PNone)])
  = inr (request_with_defaults "" []).
Proof.
  apply (minimal_body_is_accepted exact_scalars [LKey "body"]
           [("messages", PList []); ("model", PStr ""); ("extra", PNone)] "");
    try reflexivity.
  intros k Hin Hm Hs. unfold REQUEST_FIELDS in Hin. simpl in Hin.
  decompose [or] Hin; try contradiction; subst; try reflexivity;
    congruence.
Defined.

(** ** Invariants of accepted requests *)

Section Ensures.
Context {P : Pydantic}.

Lemma ensures_literal allowed :
  ensures (v_literal allowed) (fun s => In s allowed).
Proof. intros l x s Hacc. apply v_literal_inr in Hacc. apply Hacc. Qed.

Lemma ensures_optional {A} (v : validator A) (Q : A -> Prop) :
  ensures v Q ->
  ensures (v_optional v) (fun o => forall a, o = Some a -> Q a).
Proof.
  intros Hv l x o Hacc a ->. apply v_optional_inr in Hacc.
  destruct Hacc as [[_ Hn] | (a' & Ha & Hacc)]; [discriminate |].
  injection Ha as <-. eapply Hv. eassumption.
Qed.

Lemma ensures_items {A} (v : validator A) (Q : A -> Prop) :
  ensures v Q ->
  forall xs l i ys, v_items v l i xs = inr ys -> Forall Q ys.
Proof.
  intros Hv xs. induction xs as [| x xs IH]; intros l i ys Hacc;
    cbn [v_items] in Hacc.
  - injection Hacc as <-. constructor.
  - ap_inv Hacc. constructor; [eapply Hv | eapply IH]; eassumption.
Qed.

Lemma ensures_list {A} (v : validator A) (Q : A -> Prop) :
  ensures v Q -> ensures (v_list v) (Forall Q).
Proof.
  intros Hv l x ys Hacc. unfold v_list in Hacc.
  destruct x; try discriminate. eapply ensures_items; eassumption.
Qed.

Lemma ensures_required {A} (v : validator A) (Q : A -> Prop) d k l a :
  ensures v Q -> required d k v l = inr a -> Q a.
Proof.
  intros Hv Hacc. unfold required in Hacc.
  destruct (dict_get k d); [| discriminate]. eapply Hv. eassumption.
Qed.

Lemma ensures_with_default {A} (v : validator A) (Q : A -> Prop)
    d k dflt l a :
  ensures v Q -> Q dflt -> with_default d k v dflt l = inr a -> Q a.
Proof.
  intros Hv Hd Hacc. unfold with_default in Hacc.
  destruct (dict_get k d).
  - eapply Hv. eassumption.
  - injection Hacc as <-. assumption.
Qed.

Lemma ensures_ChatMessage :
  ensures validate_ChatMessage (fun m => In (ChatMessage.role m) ROLES).
Proof.
  intros l x m Hacc. destruct x; try discriminate.
  unfold validate_ChatMessage in Hacc. ap_inv Hacc. cbn [ChatMessage.role].
  match goal with
  | H : required _ "role" _ _ = inr _ |- _ =>
      exact (ensures_required _ _ _ _ _ _ (ensures_literal ROLES) H)
  end.
Qed.

Lemma ensures_Tool : ensures validate_Tool tool_ok.
Proof.
  intros l x t Hacc. destruct x; try discriminate.
  unfold validate_Tool in Hacc. ap_inv Hacc. unfold tool_ok. cbn [Tool.type].
  match goal with
  | H : with_default _ "type" _ _ _ = inr _ |- _ =>
      pose proof (ensures_with_default _ _ _ _ _ _ _
                    (ensures_literal ["function"])
                    (or_introl eq_refl) H) as Hin
  end.
  simpl in Hin. destruct Hin as [Heq | []]. symmetry. exact Heq.
Qed.

Lemma ensures_AgentConfig : ensures validate_AgentConfig agent_config_ok.
Proof.
  intros l x c Hacc. destruct x; try discriminate.
  unfold validate_AgentConfig in Hacc. ap_inv Hacc. unfold agent_config_ok.
  cbn [AgentConfig.agent_type AgentConfig.reasoning_mode]. split.
  - match goal with
    | H : required _ "agent_type" _ _ = inr _ |- _ =>
        exact (ensures_required _ _ _ _ _ _ (ensures_literal _) H)
    end.
  - match goal with
    | H : with_default _ "reasoning_mode" _ _ _ = inr _ |- _ =>
        refine (ensures_with_default _ _ _ _ _ _ _
                  (ensures_optional _ _ (ensures_literal _)) _ H)
    end.
    intros m Hm. injection Hm as <-. simpl. auto.
Qed.

Lemma ensures_MemoryConfig : ensures validate_MemoryConfig memory_config_ok.
Proof.
  intros l x c Hacc. destruct x; try discriminate.
  unfold validate_MemoryConfig in Hacc. ap_inv Hacc. unfold memory_config_ok.
  cbn [MemoryConfig.memory_type MemoryConfig.retention_policy
       MemoryConfig.retrieval_strategy].
  split; [| split].
  - match goal with
    | H : required _ "memory_type" _ _ = inr _ |- _ =>
        exact (ensures_required _ _ _ _ _ _ (ensures_literal _) H)
    end.
  - match goal with
    | H : with_default _ "retention_policy" _ _ _ = inr _ |- _ =>
        refine (ensures_with_default _ _ _ _ _ _ _
                  (ensures_optional _ _ (ensures_literal _)) _ H)
    end.
    intros m Hm. injection Hm as <-. simpl. auto.
  - match goal with
    | H : with_default _ "retrieval_strategy" _ _ _ = inr _ |- _ =>
        refine (ensures_with_default _ _ _ _ _ _ _
                  (ensures_optional _ _ (ensures_literal _)) _ H)
    end.
    intros m Hm. injection Hm as <-. simpl. auto.
Qed.

End Ensures.

(** X13. In every accepted request the literal constraints hold all the
    way down: each message has one of the five roles, each tool has type
    [function], and the agent and memory configurations, when present,
    carry only enumerated values. *)
Theorem accepted_request_literals
    (P : Pydantic) (l : loc_t) (body : pyval) (r : ChatCompletionRequest.t) :
  validate_ChatCompletionRequest l body = inr r ->
  Forall (fun m => In (ChatMessage.role m) ROLES)
         (ChatCompletionRequest.messages r) /\
  (forall ts, ChatCompletionRequest.tools r = Some ts -> Forall tool_ok ts) /\
  (forall c, ChatCompletionRequest.agent_config r = Some c ->
             agent_config_ok c) /\
  (forall c, ChatCompletionRequest.memory_config r = Some c ->
             memory_config_ok c).
Proof.
  intros Hacc. destruct body; try discriminate.
  unfold validate_ChatCompletionRequest in Hacc. ap_inv Hacc.
  cbn [ChatCompletionRequest.messages ChatCompletionRequest.tools
       ChatCompletionRequest.agent_config ChatCompletionRequest.memory_config].
  split; [| split; [| split]].
  - match goal with
    | H : required _ "messages" _ _ = inr _ |- _ =>
        exact (ensures_required _ _ _ _ _ _
                 (ensures_list _ _ ensures_ChatMessage) H)
    end.
  - match goal with
    | H : with_default _ "tools" _ _ _ = inr _ |- _ =>
        refine (ensures_with_default _ _ _ _ _ _ _
                  (ensures_optional _ _ (ensures_list _ _ ensures_Tool)) _ H)
    end.
    discriminate.
  - match goal with
    | H : with_default _ "agent_config" _ _ _ = inr _ |- _ =>
        refine (ensures_with_default _ _ _ _ _ _ _
                  (ensures_optional _ _ ensures_AgentConfig) _ H)
    end.
    discriminate.
  - match goal with
    | H : with_default _ "memory_config" _ _ _ = inr _ |- _ =>
        refine (ensures_with_default _ _ _ _ _ _ _
                  (ensures_optional _ _ ensures_MemoryConfig) _ H)
    end.
    discriminate.
Qed.

Lemma accepted_request_literals_witness :
  Forall (fun m => In (ChatMessage.role m) ROLES)
         (ChatCompletionRequest.messages
            (request_with_defaults "gpt-4" [demo_message])).
Proof.
  exact (proj1 (accepted_request_literals exact_scalars [LKey "body"]
                  (PDict [ ("model", PStr "gpt-4");
                           ("messages",
                              PList [PDict [("role", PStr "user");
                                            ("content", PStr "hi")]]) ])
                  (request_with_defaults "gpt-4" [demo_message]) eq_refl)).
Defined.

(** ** What a rejection reports *)

Lemma some_error_ap {A B} (f : V (A -> B)) (a : V A) :
  some_error f -> some_error a -> some_error (f <*> a).
Proof.
  destruct f as [e1 | g], a as [e2 | x]; simpl; auto.
  intros H1 _ Happ. apply app_eq_nil in Happ. apply H1. apply Happ.
Qed.

Lemma some_error_ok {A} (a : A) : some_error (ok a).
Proof. exact I. Qed.

Section Loud.
Context {P : Pydantic}.

Lemma some_error_fail {A} l k : some_error (@fail P A l k).
Proof. simpl. discriminate. Qed.

Lemma loud_str : fails_loudly v_str.
Proof. intros l x. destruct x; simpl; try discriminate; exact I. Qed.

Lemma loud_int : fails_loudly v_int.
Proof.
  intros l x. unfold v_int. destruct (coerce_int x);
    [exact I | apply some_error_fail].
Qed.

Lemma loud_float : fails_loudly v_float.
Proof.
  intros l x. unfold v_float. destruct (coerce_float x);
    [exact I | apply some_error_fail].
Qed.

Lemma loud_bool : fails_loudly v_bool.
Proof.
  intros l x. unfold v_bool. destruct (coerce_bool x);
    [exact I | apply some_error_fail].
Qed.

Lemma loud_literal allowed : fails_loudly (v_literal allowed).
Proof.
  intros l x. unfold v_literal. destruct x; try apply some_error_fail.
  destruct (existsb _ _); [exact I | apply some_error_fail].
Qed.

Lemma loud_dict_any : fails_loudly v_dict_any.
Proof. intros l x. destruct x; simpl; try discriminate; exact I. Qed.

Lemma loud_optional {A} (v : validator A) :
  fails_loudly v -> fails_loudly (v_optional v).
Proof.
  intros Hv l x. unfold v_optional.
  destruct x; try exact I;
    (apply some_error_ap; [apply some_error_ok | apply Hv]).
Qed.

Lemma loud_items {A} (v : validator A) :
  fails_loudly v -> forall xs l i, some_error (v_items v l i xs).
Proof.
  intros Hv xs. induction xs as [| x xs IH]; intros l i; cbn [v_items].
  - exact I.
  - apply some_error_ap; [apply some_error_ap; [apply some_error_ok |] |].
    + apply Hv.
    + apply IH.
Qed.

Lemma loud_list {A} (v : validator A) :
  fails_loudly v -> fails_loudly (v_list v).
Proof.
  intros Hv l x. unfold v_list.
  destruct x; try apply some_error_fail. apply loud_items. assumption.
Qed.

Lemma loud_entries {A} (v : validator A) :
  fails_loudly v -> forall d l, some_error (v_entries v l d).
Proof.
  intros Hv d. induction d as [| [k x] d IH]; intros l; cbn [v_entries].
  - exact I.
  - apply some_error_ap; [apply some_error_ap; [apply some_error_ok |] |].
    + apply Hv.
    + apply IH.
Qed.

Lemma loud_dict {A} (v : validator A) :
  fails_loudly v -> fails_loudly (v_dict v).
Proof.
  intros Hv l x. unfold v_dict.
  destruct x; try apply some_error_fail. apply loud_entries. assumption.
Qed.

Lemma loud_union {A B} ta (va : validator A) tb (vb : validator B) :
  fails_loudly va -> fails_loudly (v_union ta va tb vb).
Proof.
  intros Ha l x. unfold v_union.
  pose proof (Ha (l ++ [LKey ta]) x) as Hea.
  destruct (va (l ++ [LKey ta]) x) as [ea | a]; [| exact I].
  destruct (vb (l ++ [LKey tb]) x) as [eb | b]; [| exact I].
  simpl in *. intros Happ. apply app_eq_nil in Happ. apply Hea. apply Happ.
Qed.

Lemma some_error_required {A} d k (v : validator A) l :
  fails_loudly v -> some_error (required d k v l).
Proof.
  intros Hv. unfold required.
  destruct (dict_get k d); [apply Hv | apply some_error_fail].
Qed.

Lemma some_error_with_default {A} d k (v : validator A) dflt l :
  fails_loudly v -> some_error (with_default d k v dflt l).
Proof.
  intros Hv. unfold with_default.
  destruct (dict_get k d); [apply Hv | exact I].
Qed.

End Loud.

#[local] Hint Resolve some_error_ap some_error_ok some_error_fail loud_str
  loud_int loud_float loud_bool loud_literal loud_dict_any loud_optional
  loud_list loud_dict loud_union some_error_required some_error_with_default
  : validators.

Section LoudModels.
Context {P : Pydantic}.

Lemma loud_ChatMessage : fails_loudly validate_ChatMessage.
Proof.
  intros l x. unfold validate_ChatMessage.
  destruct x; try apply some_error_fail.
  repeat apply some_error_ap; eauto 10 with validators.
Qed.

Lemma loud_Tool : fails_loudly validate_Tool.
Proof.
  intros l x. unfold validate_Tool.
  destruct x; try apply some_error_fail.
  repeat apply some_error_ap; eauto 10 with validators.
Qed.

Lemma loud_AgentConfig : fails_loudly validate_AgentConfig.
Proof.
  intros l x. unfold validate_AgentConfig.
  destruct x; try apply some_error_fail.
  repeat apply some_error_ap; eauto 10 with validators.
Qed.

Lemma loud_MemoryConfig : fails_loudly validate_MemoryConfig.
Proof.
  intros l x. unfold validate_MemoryConfig.
  destruct x; try apply some_error_fail.
  repeat apply some_error_ap; eauto 10 with validators.
Qed.

Lemma loud_MCPConfig : fails_loudly validate_MCPConfig.
Proof.
  intros l x. unfold validate_MCPConfig.
  destruct x; try apply some_error_fail.
  repeat apply some_error_ap; eauto 10 with validators.
Qed.

Lemma loud_ChatCompletionRequest :
  fails_loudly validate_ChatCompletionRequest.
Proof.
  intros l x. unfold validate_ChatCompletionRequest.
  destruct x; try apply some_error_fail.
  repeat apply some_error_ap;
    eauto 10 using loud_ChatMessage, loud_Tool, loud_AgentConfig,
      loud_MemoryConfig, loud_MCPConfig with validators.
Qed.

Lemma localv_ChatCompletionRequest : localv validate_ChatCompletionRequest.
Proof.
  intros l x. unfold validate_ChatCompletionRequest.
  destruct x; try apply under_fail.
  repeat apply under_ap; eauto 10 with validators.
Qed.

End LoudModels.

Lemma field_name_root_only (root : loc_seg) (rest : loc_t) :
  field_name (root :: rest) = None <-> rest = [].
Proof.
  destruct rest as [| s rest]; split; try reflexivity; discriminate.
Qed.

(** X14. A rejected body always comes with at least one error, and every
    error is located at or below ["body"]; so the 422 envelope has at
    least one detail entry, and an entry lacks a field only when its error
    is located at the body itself. *)
Theorem rejection_reports_errors_under_body
    (P : Pydantic) (body : pyval) (errs : list ErrorEntry) :
  validate_body body = inl (RequestValidationError errs) ->
  errs <> [] /\
  map validation_detail errs <> [] /\
  Forall (fun e =>
            exists rest, loc e = LKey "body" :: rest /\
              (ErrorDetail.field (validation_detail e) = None <-> rest = []))
         errs.
Proof.
  unfold validate_body. intros Hrej.
  pose proof (loud_ChatCompletionRequest [LKey "body"] body) as Hloud.
  pose proof (localv_ChatCompletionRequest [LKey "body"] body) as Hloc.
  destruct (validate_ChatCompletionRequest [LKey "body"] body) as [e | r];
    [| discriminate].
  injection Hrej as <-. simpl in Hloud, Hloc.
  split; [assumption |]. split.
  - destruct e; [contradiction | discriminate].
  - revert Hloc. apply Forall_impl. intros entry (rest & Hrest).
    exists rest. split; [exact Hrest |].
    cbn [validation_detail ErrorDetail.field]. rewrite Hrest.
    apply field_name_root_only.
Qed.

Lemma rejection_reports_errors_under_body_witness :
  [ model_entry [LKey "body"] ] <> [].
Proof.
  exact (proj1 (rejection_reports_errors_under_body exact_scalars (PInt 3)
                  [ model_entry [LKey "body"] ] eq_refl)).
Defined.

(** ** Errors inside the message list, and several errors at once *)

Section NestedErrors.
Context {P : Pydantic}.

Lemma v_literal_reject allowed l x :
  (forall s, x = PStr s -> ~ In s allowed) ->
  v_literal allowed l x = fail l (LiteralError allowed).
Proof.
  intros Hout. unfold v_literal. destruct x; try reflexivity.
  destruct (existsb (String.eqb s) allowed) eqn:Hex; [| reflexivity].
  exfalso. apply existsb_exists in Hex. destruct Hex as (y & Hin & Hy).
  apply String.eqb_eq in Hy. subst y. exact (Hout s eq_refl Hin).
Qed.

(** The errors of the item at position [n] are among those of the list. *)
Lemma errors_of_item {A} (v : validator A) :
  forall xs l i n x,
    nth_error xs n = Some x ->
    incl (errors_of (v (l ++ [LIdx (i + Z.of_nat n)]) x))
         (errors_of (v_items v l i xs)).
Proof.
  induction xs as [| y xs IH]; intros l i n x Hn.
  - destruct n; discriminate.
  - cbn [v_items]. rewrite !errors_of_ap. destruct n as [| n].
    + injection Hn as <-. replace (i + Z.of_nat 0)%Z with i by lia.
      intros e He. apply in_or_app. left. apply in_or_app. right. exact He.
    + replace (i + Z.of_nat (S n))%Z with (i + 1 + Z.of_nat n)%Z by lia.
      intros e He. apply in_or_app. right. exact (IH l (i + 1)%Z n x Hn e He).
Qed.

Lemma role_error_of_message l m x :
  dict_get "role" m = Some x ->
  (forall s, x = PStr s -> ~ In s ROLES) ->
  In (literal_entry (l ++ [LKey "role"]) ROLES)
     (errors_of (validate_ChatMessage l (PDict m))).
Proof.
  intros Hrole Hout. unfold validate_ChatMessage.
  rewrite (required_hit _ _ _ _ _ Hrole), (v_literal_reject _ _ _ Hout).
  rewrite !errors_of_ap, !in_app_iff.
  left. left. left. left. left. right. left. reflexivity.
Qed.

Lemma messages_errors_of_request d xs e :
  dict_get "messages" d = Some (PList xs) ->
  In e (errors_of (v_items validate_ChatMessage
                     [LKey "body"; LKey "messages"] 0 xs)) ->
  In e (errors_of (validate_ChatCompletionRequest [LKey "body"] (PDict d))).
Proof.
  intros Hget He. unfold validate_ChatCompletionRequest.
  rewrite (required_hit _ "messages" _ _ _ Hget).
  rewrite !errors_of_ap, !in_app_iff.
  do 20 left. right. exact He.
Qed.

Lemma missing_model_detail (d : pydict) :
  dict_get "model" d = None ->
  filter (has_field "model")
    (map validation_detail
       (errors_of (validate_ChatCompletionRequest [LKey "body"] (PDict d))))
  = [ validation_detail (missing_entry [LKey "body"; LKey "model"]) ].
Proof.
  intros Hmiss. unfold validate_ChatCompletionRequest.
  rewrite (required_miss d "model" _ _ Hmiss).
  rewrite !errors_of_ap, !map_app, !filter_app.
  rewrite !other_default_field
    by first [ solve [ auto 10 with validators ]
             | intros s Hs; simpl in Hs; discriminate Hs ].
  rewrite !other_required_field
    by first [ solve [ auto 10 with validators ]
             | intros s Hs; simpl in Hs; discriminate Hs ].
  reflexivity.
Qed.

End NestedErrors.

(** X15. A message whose role is not one of the five enumerated strings
    makes the body fail, with an error located at that message's [role]:
    for the message at position [n] the detail entry's field is
    [messages.<n>.role]. *)
Theorem invalid_role_is_reported
    (P : Pydantic) (d : pydict) (msgs : list pyval) (n : nat)
    (m : pydict) (x : pyval) :
  dict_get "messages" d = Some (PList msgs) ->
  nth_error msgs n = Some (PDict m) ->
  dict_get "role" m = Some x ->
  (forall s, x = PStr s -> ~ In s ROLES) ->
  let entry :=
    literal_entry
      [LKey "body"; LKey "messages"; LIdx (Z.of_nat n); LKey "role"] ROLES in
  exists errs,
    validate_body (PDict d) = inl (RequestValidationError errs) /\
    In entry errs /\
    In (validation_detail entry) (map validation_detail errs) /\
    ErrorDetail.field (validation_detail entry)
    = Some ("messages" ++ "." ++ str_int (Z.of_nat n) ++ "." ++ "role")%string.
Proof.
  intros Hmsgs Hn Hrole Hout entry.
  assert (Hin : In entry
                  (errors_of (validate_ChatCompletionRequest [LKey "body"]
                                (PDict d)))).
  { apply (messages_errors_of_request d msgs entry Hmsgs).
    apply (errors_of_item validate_ChatMessage msgs
             [LKey "body"; LKey "messages"] 0%Z n (PDict m) Hn).
    exact (role_error_of_message _ m x Hrole Hout). }
  unfold validate_body.
  destruct (validate_ChatCompletionRequest [LKey "body"] (PDict d))
    as [errs | r]; [| contradiction].
  exists errs. split; [reflexivity |]. split; [exact Hin |].
  split; [apply in_map; exact Hin | reflexivity].
Qed.

Lemma invalid_role_is_reported_witness :
  exists errs,
    validate_body
      (PDict [ ("model", PStr "gpt-4");
               ("messages",
                  PList [ PDict [("role", PStr "user")];
                          PDict [("role", PStr "invalid_role")] ]) ])
    = inl (RequestValidationError errs) /\
    In (literal_entry [LKey "body"; LKey "messages"; LIdx 1; LKey "role"] ROLES)
       errs.
Proof.
  destruct (invalid_role_is_reported exact_scalars
              [ ("model", PStr "gpt-4");
                ("messages",
                   PList [ PDict [("role", PStr "user")];
                           PDict [("role", PStr "invalid_role")] ]) ]
              [ PDict [("role", PStr "user")];
                PDict [("role", PStr "invalid_role")] ]
              1 [("role", PStr "invalid_role")] (PStr "invalid_role")
              eq_refl eq_refl eq_refl)
    as (errs & Hv & Hin & _).
  - intros s Hs. injection Hs as <-. unfold ROLES. simpl.
    intros H. decompose [or] H; try contradiction; discriminate.
  - exists errs. split; assumption.
Defined.

(** X16. Every missing required field is reported, once each: a body
    without [model] is rejected with exactly one detail entry whose field
    is [model], and when [messages] is missing as well there is exactly
    one entry for it too, after the one for [model]. *)
Theorem missing_required_fields_are_all_reported
    (P : Pydantic) (d : pydict) :
  dict_get "model" d = None ->
  exists errs,
    validate_body (PDict d) = inl (RequestValidationError errs) /\
    filter (has_field "model") (map validation_detail errs)
    = [ validation_detail (missing_entry [LKey "body"; LKey "model"]) ] /\
    (dict_get "messages" d = None ->
       filter (has_field "messages") (map validation_detail errs)
       = [ validation_detail (missing_entry [LKey "body"; LKey "messages"]) ]
       /\ exists rest,
            errs = missing_entry [LKey "body"; LKey "model"]
                   :: missing_entry [LKey "body"; LKey "messages"] :: rest).
Proof.
  intros Hmodel. pose proof (missing_model_detail d Hmodel) as Hone.
  unfold validate_body.
  destruct (validate_ChatCompletionRequest [LKey "body"] (PDict d))
    as [errs | r] eqn:Hv; [| discriminate Hone].
  exists errs. split; [reflexivity |]. split; [exact Hone |].
  intros Hmessages.
  destruct (missing_messages_detail d Hmessages) as (errs' & Hv' & Hone').
  rewrite Hv in Hv'. injection Hv' as <-. split; [exact Hone' |].
  unfold validate_ChatCompletionRequest in Hv.
  rewrite (required_miss d "model" _ _ Hmodel) in Hv.
  rewrite (required_miss d "messages" _ _ Hmessages) in Hv.
  match type of Hv with
  | ?chain = inl errs =>
      assert (Herrs : errors_of chain = errs) by (rewrite Hv; reflexivity)
  end.
  rewrite !errors_of_ap in Herrs. cbn [errors_of ok fail app] in Herrs.
  eexists. symmetry. exact Herrs.
Qed.

Lemma missing_required_fields_are_all_reported_witness :
  exists errs,
    validate_body (PDict [("stream", PBool true)])
    = inl (RequestValidationError errs) /\
    filter (has_field "model") (map validation_detail errs)
    = [ validation_detail (missing_entry [LKey "body"; LKey "model"]) ].
Proof.
  destruct (missing_required_fields_are_all_reported exact_scalars
              [("stream", PBool true)] eq_refl) as (errs & Hv & Hm & _).
  exists errs. split; assumption.
Defined.

(** ** The nested models *)

(** X17. Each nested model survives its own dump: whatever message, tool,
    agent, memory or MCP configuration is accepted, validating its dump
    (at any location) gives the same value back. *)
Theorem nested_models_round_trip (P : Pydantic) (L : PydanticLaws P) :
  codec validate_ChatMessage dump_ChatMessage /\
  codec validate_Tool dump_Tool /\
  codec validate_AgentConfig dump_AgentConfig /\
  codec validate_MemoryConfig dump_MemoryConfig /\
  codec validate_MCPConfig dump_MCPConfig.
Proof.
  repeat split.
  - apply codec_ChatMessage.
  - apply codec_Tool.
  - apply codec_AgentConfig.
  - apply codec_MemoryConfig.
  - apply codec_MCPConfig.
Qed.

Lemma nested_models_round_trip_witness :
  validate_ChatMessage [LKey "again"] (dump_ChatMessage demo_message)
  = ok demo_message.
Proof.
  exact (proj1 (nested_models_round_trip exact_scalars exact_scalars_laws)
           [LKey "body"; LKey "messages"; LIdx 0]
           (PDict [("role", PStr "user"); ("content", PStr "hi")])
           demo_message eq_refl [LKey "again"]).
Defined.

(** Closes a goal about a field that was not supplied, from the equation
    of that field. *)
Ltac default_of key :=
  match goal with
  | Hn : dict_get key ?d = None, Hf : with_default ?d key _ _ _ = inr _ |- _ =>
      apply (with_default_miss_inr _ _ _ _ _ _ Hn) in Hf; subst; reflexivity
  end.

(** X18. The nested models fill in their declared defaults for the keys
    that are not supplied: a tool's type is [function]; an agent
    configuration gets 3 iterations and [chain_of_thought]; a memory
    configuration gets [session], 100, compression on and [hybrid]; and an
    MCP configuration needs no key at all, an object without the five keys
    being accepted as 4096, compression on, 0.7, no sources, dynamic. *)
Theorem nested_defaults (P : Pydantic) (l : loc_t) (d : pydict) :
  (forall t, validate_Tool l (PDict d) = inr t ->
     dict_get "type" d = None -> Tool.type t = "function") /\
  (forall c, validate_AgentConfig l (PDict d) = inr c ->
     (dict_get "max_iterations" d = None ->
        AgentConfig.max_iterations c = Some 3%Z) /\
     (dict_get "reasoning_mode" d = None ->
        AgentConfig.reasoning_mode c = Some "chain_of_thought") /\
     (dict_get "guidelines" d = None -> AgentConfig.guidelines c = None)) /\
  (forall c, validate_MemoryConfig l (PDict d) = inr c ->
     (dict_get "retention_policy" d = None ->
        MemoryConfig.retention_policy c = Some "session") /\
     (dict_get "max_memory_size" d = None ->
        MemoryConfig.max_memory_size c = Some 100%Z) /\
     (dict_get "compression_enabled" d = None ->
        MemoryConfig.compression_enabled c = Some true) /\
     (dict_get "retrieval_strategy" d = None ->
        MemoryConfig.retrieval_strategy c = Some "hybrid")) /\
  ((forall k, In k ["context_window_size"; "context_compression";
                    "relevance_threshold"; "context_sources";
                    "dynamic_context"] -> dict_get k d = None) ->
   validate_MCPConfig l (PDict d)
   = inr (MCPConfig.Build 4096%Z true 0.7%float [] true)).
Proof.
  split; [| split; [| split]].
  - intros t Hacc Hn. unfold validate_Tool in Hacc. ap_inv Hacc.
    cbn [Tool.type]. default_of "type".
  - intros c Hacc. unfold validate_AgentConfig in Hacc. ap_inv Hacc.
    cbn [AgentConfig.max_iterations AgentConfig.reasoning_mode
         AgentConfig.guidelines].
    split; [| split]; intros Hn.
    + default_of "max_iterations".
    + default_of "reasoning_mode".
    + default_of "guidelines".
  - intros c Hacc. unfold validate_MemoryConfig in Hacc. ap_inv Hacc.
    cbn [MemoryConfig.retention_policy MemoryConfig.max_memory_size
         MemoryConfig.compression_enabled MemoryConfig.retrieval_strategy].
    split; [| split; [| split]]; intros Hn.
    + default_of "retention_policy".
    + default_of "max_memory_size".
    + default_of "compression_enabled".
    + default_of "retrieval_strategy".
  - intros Hnone. unfold validate_MCPConfig.
    rewrite !with_default_miss by (apply Hnone; simpl; auto 10).
    reflexivity.
Qed.

Lemma nested_defaults_witness :
  validate_MCPConfig [LKey "body"; LKey "mcp_config"] (PDict [])
  = inr (MCPConfig.Build 4096%Z true 0.7%float [] true).
Proof.
  apply (proj2 (proj2 (proj2 (nested_defaults exact_scalars
                                [LKey "body"; LKey "mcp_config"] [])))).
  intros k _. reflexivity.
Defined.

(** * Properties of the settings validator *)

Import Config.

Lemma lstrip_head (s : ustr) :
  match lstrip s with [] => True | c :: _ => isspace c = false end.
Proof.
  induction s as [| c s IH]; simpl; [exact I |].
  destruct (isspace c) eqn:Hc; [exact IH | exact Hc].
Qed.

Lemma lstrip_fixed (s : ustr) :
  match s with [] => True | c :: _ => isspace c = false end -> lstrip s = s.
Proof.
  destruct s as [| c s]; simpl; [reflexivity |]. intros ->. reflexivity.
Qed.

Lemma lstrip_snoc (s : ustr) (c : N) :
  isspace c = false -> lstrip (s ++ [c]) = lstrip s ++ [c].
Proof.
  intros Hc. induction s as [| a s IH]; simpl.
  - rewrite Hc. reflexivity.
  - destruct (isspace a); [exact IH | reflexivity].
Qed.

Lemma rstrip_cons (c : N) (s : ustr) :
  isspace c = false -> rstrip (c :: s) = c :: rstrip s.
Proof.
  intros Hc. unfold rstrip. cbn [rev].
  rewrite (lstrip_snoc _ _ Hc), rev_app_distr. reflexivity.
Qed.

Lemma rstrip_last (s : ustr) :
  match rev (rstrip s) with [] => True | c :: _ => isspace c = false end.
Proof.
  unfold rstrip. rewrite rev_involutive. apply lstrip_head.
Qed.

Lemma strip_trimmed (s : ustr) : trimmed (strip s).
Proof.
  unfold trimmed, strip. split; [| apply rstrip_last].
  pose proof (lstrip_head s) as Hh.
  destruct (lstrip s) as [| c r]; [exact I |].
  rewrite (rstrip_cons _ _ Hh). exact Hh.
Qed.

Lemma strip_fixed (s : ustr) : trimmed s -> strip s = s.
Proof.
  intros [Hh Hl]. unfold strip. rewrite (lstrip_fixed _ Hh).
  unfold rstrip. rewrite (lstrip_fixed _ Hl). apply rev_involutive.
Qed.

Lemma split_comma_nonempty (s : ustr) : split_comma s <> [].
Proof.
  induction s as [| c s IH]; simpl; [discriminate |].
  destruct (N.eqb c COMMA); [discriminate |].
  destruct (split_comma s); discriminate.
Qed.

Lemma join_split (s : ustr) : join_comma (split_comma s) = s.
Proof.
  induction s as [| c s IH]; simpl; [reflexivity |].
  destruct (N.eqb_spec c COMMA) as [-> | Hc].
  - pose proof (split_comma_nonempty s) as Hne.
    cbn [join_comma]. destruct (split_comma s) as [| p ps]; [contradiction |].
    cbn [app]. rewrite IH. reflexivity.
  - pose proof (split_comma_nonempty s) as Hne.
    destruct (split_comma s) as [| p ps]; [contradiction |].
    cbn [join_comma] in *. destruct ps; cbn [app]; rewrite <- IH; reflexivity.
Qed.

Lemma split_comma_free (p : ustr) :
  ~ In COMMA p -> split_comma p = [p].
Proof.
  induction p as [| c p IH]; simpl; [reflexivity |]. intros Hnot.
  destruct (N.eqb_spec c COMMA) as [-> | _]; [exfalso; apply Hnot; auto |].
  rewrite IH by (intros Hin; apply Hnot; auto). reflexivity.
Qed.

Lemma split_comma_app (p : ustr) (s : ustr) :
  ~ In COMMA p -> split_comma (p ++ COMMA :: s) = p :: split_comma s.
Proof.
  induction p as [| c p IH]; intros Hnot.
  - simpl. reflexivity.
  - cbn [app split_comma].
    destruct (N.eqb_spec c COMMA) as [-> | _];
      [exfalso; apply Hnot; left; reflexivity |].
    rewrite IH by (intros Hin; apply Hnot; right; exact Hin). reflexivity.
Qed.

Lemma split_join (parts : list ustr) :
  parts <> [] ->
  Forall (fun p => ~ In COMMA p) parts ->
  split_comma (join_comma parts) = parts.
Proof.
  intros Hne Hfree. induction Hfree as [| p rest Hp Hrest IH];
    [contradiction |].
  destruct rest as [| q rest].
  - cbn [join_comma]. apply split_comma_free. exact Hp.
  - change (join_comma (p :: q :: rest))
      with (p ++ COMMA :: join_comma (q :: rest)).
    rewrite (split_comma_app _ _ Hp).
    rewrite IH by discriminate. reflexivity.
Qed.

Lemma split_comma_parts (s : ustr) :
  Forall (fun p => ~ In COMMA p) (split_comma s) /\
  List.length (split_comma s)
  = S (List.length (filter (N.eqb COMMA) s)).
Proof.
  induction s as [| c s (IHf & IHl)]; cbn [split_comma filter].
  - split; [repeat constructor; auto | reflexivity].
  - rewrite (N.eqb_sym COMMA c).
    destruct (N.eqb_spec c COMMA) as [-> | Hc].
    + split; [constructor; [auto | exact IHf] |].
      cbn [List.length]. rewrite IHl. reflexivity.
    + pose proof (split_comma_nonempty s) as Hne.
      destruct (split_comma s) as [| p ps]; [contradiction |].
      inversion IHf as [| ? ? Hp Hps]; subst.
      split; [| exact IHl].
      constructor; [| exact Hps].
      intros [Heq | Hin]; [apply Hc; exact Heq | exact (Hp Hin)].
Qed.

(** X19. A comma-separated string that does not start with [[] is cut at
    every comma and each piece is stripped: the result is a list with one
    entry more than there are commas (one empty entry for the empty
    string), and no entry begins or ends with whitespace.  Cutting loses
    nothing: before stripping, the pieces joined with commas are the
    string. *)
Theorem cors_origins_from_string
    {Url Other : Type} (s : ustr) :
  startswith_bracket s = false ->
  @assemble_cors_origins Url Other (SStr s)
  = inr (SList (map (fun i => OStr (strip i)) (split_comma s))) /\
  List.length (split_comma s) = S (List.length (filter (N.eqb COMMA) s)) /\
  Forall (fun i => trimmed (strip i)) (split_comma s) /\
  Forall (fun i => ~ In COMMA i) (split_comma s) /\
  join_comma (split_comma s) = s.
Proof.
  intros Hb. split; [unfold assemble_cors_origins; rewrite Hb; reflexivity |].
  destruct (split_comma_parts s) as (Hfree & Hlen).
  split; [exact Hlen |]. split; [| split; [exact Hfree | apply join_split]].
  apply Forall_forall. intros i _. apply strip_trimmed.
Qed.

Lemma cors_origins_from_string_witness :
  @assemble_cors_origins unit unit (SStr [])
  = inr (SList [OStr []]).
Proof.
  exact (proj1 (@cors_origins_from_string unit unit [] eq_refl)).
Defined.

(** X20. Writing a list of origins as one comma-separated string and
    validating it gives the list back, provided the list is not empty, no
    origin contains a comma or has whitespace at either end, and the first
    one does not start with [[]. *)
Theorem cors_origins_round_trip
    {Url Other : Type} (origins : list ustr) :
  origins <> [] ->
  Forall (fun o => ~ In COMMA o) origins ->
  Forall trimmed origins ->
  startswith_bracket (join_comma origins) = false ->
  @assemble_cors_origins Url Other (SStr (join_comma origins))
  = inr (SList (map OStr origins)).
Proof.
  intros Hne Hfree Htrim Hb. unfold assemble_cors_origins.
  rewrite Hb. cbn [negb]. rewrite (split_join _ Hne Hfree).
  do 2 f_equal. apply map_ext_in. intros o Hin. f_equal.
  apply strip_fixed. rewrite Forall_forall in Htrim. apply Htrim. exact Hin.
Qed.

Lemma cors_origins_round_trip_witness :
  @assemble_cors_origins unit unit
    (SStr (join_comma [[104; 116; 116; 112]; [108; 111; 99; 97; 108]]%N))
  = inr (SList (map OStr [[104; 116; 116; 112]; [108; 111; 99; 97; 108]]%N)).
Proof.
  apply (@cors_origins_round_trip unit unit
           [[104; 116; 116; 112]; [108; 111; 99; 97; 108]]%N).
  - discriminate.
  - repeat constructor; simpl; intros H; decompose [or] H;
      try contradiction; discriminate.
  - repeat constructor.
  - reflexivity.
Defined.

(** * Properties of the session scopes *)

Import Database.

(** X21. Whatever the body and the session do, [get_db_context] closes
    the session exactly once, as its last call; it commits (once, first)
    exactly when the body returned; it rolls back exactly when the body
    raised an [Exception] or the commit did, and never after a commit
    that succeeded. *)
Theorem get_db_context_calls
    {A : Type} (db : Session) (body : ending A) :
  let calls := fst (get_db_context db body) in
  (exists before, calls = before ++ [Close] /\ ~ In Close before) /\
  (In Commit calls <-> exists a, body = inr a) /\
  (In Rollback calls
   <-> (exists e, body = inl (Exc e)) \/
       (exists a e, body = inr a /\ commit_raises db = Some e)) /\
  (commit_raises db = None -> In Commit calls -> ~ In Rollback calls).
Proof.
  cbv zeta. unfold get_db_context.
  destruct body as [[e | b] | a]; [| | destruct (commit_raises db) as [ec |]];
    cbn [fst].
  - split; [exists [Rollback]; split; [reflexivity |]; simpl; intuition discriminate |].
    split; [split; [simpl; intuition discriminate | intros (a & Ha); discriminate] |].
    split; [split; [intros _; left; eauto | simpl; auto] |].
    simpl. intuition discriminate.
  - split; [exists []; split; [reflexivity |]; simpl; tauto |].
    split; [split; [simpl; intuition discriminate | intros (a & Ha); discriminate] |].
    split.
    + split; [simpl; intuition discriminate |].
      intros [(e & He) | (a & e & Ha & _)]; discriminate.
    + simpl. intuition discriminate.
  - split; [exists [Commit; Rollback]; split; [reflexivity |]; simpl; intuition discriminate |].
    split; [split; [eauto | simpl; auto] |].
    split; [split; [intros _; right; eauto | simpl; auto] |].
    discriminate.
  - split; [exists [Commit]; split; [reflexivity |]; simpl; intuition discriminate |].
    split; [split; [eauto | simpl; auto] |].
    split.
    + split; [simpl; intuition discriminate |].
      intros [(e & He) | (a' & e & _ & He)]; discriminate.
    + intros _ _. simpl. intuition discriminate.
Qed.

(** X22. [get_db_context] lets the body's value through exactly when the
    body returned it and both the commit and the close succeeded.  An
    exception of the body comes out unchanged when the rollback and the
    close succeed, and so does a failed commit's; an exception of the
    close replaces any other outcome; and a [BaseException] of the body
    passes without a rollback. *)
Theorem get_db_context_outcome
    {A : Type} (db : Session) (body : ending A) :
  let out := get_db_context db body in
  (forall a, snd out = inr a <->
             body = inr a /\ commit_raises db = None /\
             close_raises db = None) /\
  (forall e, body = inl (Exc e) -> rollback_raises db = None ->
             close_raises db = None -> snd out = inl (Exc e)) /\
  (forall a e, body = inr a -> commit_raises db = Some e ->
               rollback_raises db = None -> close_raises db = None ->
               snd out = inl (Exc e)) /\
  (forall e, close_raises db = Some e -> snd out = inl (Exc e)) /\
  (forall b, body = inl (BaseExc b) ->
             fst out = [Close] /\
             (close_raises db = None -> snd out = inl (BaseExc b))).
Proof.
  cbv zeta. unfold get_db_context, finally_close, rollback_and_reraise.
  split; [| split; [| split; [| split]]].
  - intros a. split.
    + destruct body as [[e | b] | a'];
        [| | destruct (commit_raises db)];
        cbn [snd]; destruct (close_raises db), (rollback_raises db);
        intros Heq; try discriminate Heq;
        injection Heq as ->; auto.
    + intros (-> & -> & Hc). cbn [snd]. rewrite Hc. reflexivity.
  - intros e -> -> ->. reflexivity.
  - intros a e -> -> -> ->. reflexivity.
  - intros e He.
    destruct body as [[e' | b] | a]; [| | destruct (commit_raises db)];
      cbn [snd]; rewrite He; reflexivity.
  - intros b ->. split; [reflexivity |]. intros ->. reflexivity.
Qed.

Lemma get_db_context_outcome_witness :
  snd (get_db_context
         {| commit_raises := None; rollback_raises := None;
            close_raises := None |}
         (inl (Exc (PyException "ValueError" [PStr "bad"])) : ending unit))
  = inl (Exc (PyException "ValueError" [PStr "bad"])).
Proof.
  exact (proj1 (proj2 (@get_db_context_outcome unit
                         {| commit_raises := None; rollback_raises := None;
                            close_raises := None |}
                         (inl (Exc (PyException "ValueError" [PStr "bad"])))))
           (PyException "ValueError" [PStr "bad"]) eq_refl eq_refl eq_refl).
Defined.

(** * The endpoints and the responses sent for them *)

Section ResponseCodec.
Context {P : Pydantic} {L : PydanticLaws P}.


End ResponseCodec.

Lemma exact_literal {P : Pydantic} allowed : exact (v_literal allowed) PStr.
Proof. intros l x s Hacc. apply v_literal_inr in Hacc. apply Hacc. Qed.

#[local] Hint Resolve exact_literal : validators.


(** ** What an accepted request keeps of the body *)

Section Kept.
Context {P : Pydantic}.

Lemma read_int l x z : v_int l x = inr z -> read_scalar SInt x = Some (PInt z).
Proof.
  unfold v_int, read_scalar. destruct (coerce_int x); [| discriminate].
  intros Heq. injection Heq as <-. reflexivity.
Qed.

Lemma read_float l x f :
  v_float l x = inr f -> read_scalar SFloat x = Some (PFloat f).
Proof.
  unfold v_float, read_scalar. destruct (coerce_float x); [| discriminate].
  intros Heq. injection Heq as <-. reflexivity.
Qed.

Lemma read_bool l x b :
  v_bool l x = inr b -> read_scalar SBool x = Some (PBool b).
Proof.
  unfold v_bool, read_scalar. destruct (coerce_bool x); [| discriminate].
  intros Heq. injection Heq as <-. reflexivity.
Qed.

Lemma read_optional_of {A} (v : validator A) (f : A -> pyval) s :
  (forall l x a, v l x = inr a -> read_scalar s x = Some (f a)) ->
  forall l x o, v_optional v l x = inr o ->
  read_optional s x = Some (dump_opt f o).
Proof.
  intros Hv l x o Hacc. unfold v_optional in Hacc.
  destruct x; try (injection Hacc as <-; reflexivity);
    ap_inv Hacc; cbn [read_optional dump_opt]; eapply Hv; eassumption.
Qed.

Lemma read_optional_int l x o :
  v_optional v_int l x = inr o ->
  read_optional SInt x = Some (dump_opt PInt o).
Proof. apply read_optional_of. exact read_int. Qed.

Lemma read_optional_float l x o :
  v_optional v_float l x = inr o ->
  read_optional SFloat x = Some (dump_opt PFloat o).
Proof. apply read_optional_of. exact read_float. Qed.

Lemma read_optional_bool l x o :
  v_optional v_bool l x = inr o ->
  read_optional SBool x = Some (dump_opt PBool o).
Proof. apply read_optional_of. exact read_bool. Qed.

Lemma optional_kept_of {A} (v : validator A) (f : A -> pyval)
    (R : pyval -> pyval -> Prop) :
  (forall l x a, v l x = inr a -> R x (f a)) ->
  forall l x o, v_optional v l x = inr o -> optional_kept R x (dump_opt f o).
Proof.
  intros Hv l x o Hacc. unfold v_optional in Hacc.
  destruct x; try (injection Hacc as <-; reflexivity);
    ap_inv Hacc; cbn [optional_kept dump_opt]; eapply Hv; eassumption.
Qed.

Lemma items_kept {A} (v : validator A) (f : A -> pyval)
    (R : pyval -> pyval -> Prop) :
  (forall l x a, v l x = inr a -> R x (f a)) ->
  forall xs l i ys, v_items v l i xs = inr ys -> Forall2 R xs (map f ys).
Proof.
  intros Hv xs. induction xs as [| x xs IH]; intros l i ys Hacc;
    cbn [v_items] in Hacc.
  - injection Hacc as <-. constructor.
  - ap_inv Hacc. cbn [map]. constructor.
    + eapply Hv. eassumption.
    + eapply IH. eassumption.
Qed.

Lemma list_kept_of {A} (v : validator A) (f : A -> pyval)
    (R : pyval -> pyval -> Prop) :
  (forall l x a, v l x = inr a -> R x (f a)) ->
  forall l x ys, v_list v l x = inr ys -> list_kept R x (dump_list f ys).
Proof.
  intros Hv l x ys Hacc. unfold v_list in Hacc.
  destruct x; try discriminate.
  eexists _, _. split; [reflexivity |]. split; [reflexivity |].
  eapply items_kept; eassumption.
Qed.

Lemma entries_kept {A} (v : validator A) (f : A -> pyval)
    (R : pyval -> pyval -> Prop) :
  (forall l x a, v l x = inr a -> R x (f a)) ->
  forall d l ys, v_entries v l d = inr ys ->
  Forall2 (fun kx ky => fst kx = fst ky /\ R (snd kx) (snd ky)) d
          (map (fun kv => (fst kv, f (snd kv))) ys).
Proof.
  intros Hv d. induction d as [| [k x] d IH]; intros l ys Hacc;
    cbn [v_entries] in Hacc.
  - injection Hacc as <-. constructor.
  - ap_inv Hacc. cbn [map fst snd]. constructor.
    + split; [reflexivity |]. eapply Hv. eassumption.
    + eapply IH. eassumption.
Qed.

Lemma dict_kept_of {A} (v : validator A) (f : A -> pyval)
    (R : pyval -> pyval -> Prop) :
  (forall l x a, v l x = inr a -> R x (f a)) ->
  forall l x ys, v_dict v l x = inr ys -> dict_kept R x (dump_dict f ys).
Proof.
  intros Hv l x ys Hacc. unfold v_dict in Hacc.
  destruct x; try discriminate.
  eexists _, _. split; [reflexivity |]. split; [reflexivity |].
  eapply entries_kept; eassumption.
Qed.

(** Closes [item dumped k = Some x] for a field read by an exact
    validator. *)
Ltac verbatim_field d jv :=
  f_equal; symmetry;
  match goal with
  | Hg : dict_get ?key d = Some jv, H : required d ?key _ _ = inr _ |- _ =>
      eapply required_verbatim; [ | exact H | exact Hg ];
        solve [eauto 10 with validators]
  | Hg : dict_get ?key d = Some jv, H : with_default d ?key _ _ _ = inr _
    |- _ =>
      eapply with_default_verbatim; [ | exact H | exact Hg ];
        solve [eauto 10 with validators]
  end.

(** Closes [exists y, read s x = Some y /\ item dumped k = Some y] for a
    field read at a scalar type. *)
Ltac scalar_field d jv :=
  match goal with
  | Hg : dict_get ?key d = Some jv, H : with_default d ?key _ _ _ = inr _
    |- _ =>
      rewrite (with_default_hit _ _ _ _ _ _ Hg) in H;
      eexists; split;
      [ first [ eapply read_optional_int; exact H
              | eapply read_optional_float; exact H
              | eapply read_optional_bool; exact H
              | eapply read_int; exact H
              | eapply read_float; exact H
              | eapply read_bool; exact H ]
      | reflexivity ]
  end.

Lemma message_is_kept l x m :
  validate_ChatMessage l x = inr m -> message_kept x (dump_ChatMessage m).
Proof.
  intros Hacc. destruct x; try discriminate.
  eexists. split; [reflexivity |].
  unfold validate_ChatMessage in Hacc. ap_inv Hacc.
  intros k jv Hin Hget. unfold MESSAGE_KEYS in Hin. simpl in Hin.
  decompose [or] Hin; try contradiction; subst k;
    cbn [item dump_ChatMessage dict_get String.eqb Ascii.eqb Bool.eqb
         ChatMessage.role ChatMessage.content ChatMessage.name
         ChatMessage.function_call ChatMessage.tool_calls
         ChatMessage.tool_call_id];
    verbatim_field d jv.
Qed.

Lemma tool_is_kept l x t :
  validate_Tool l x = inr t -> tool_kept x (dump_Tool t).
Proof.
  intros Hacc. destruct x; try discriminate.
  eexists. split; [reflexivity |].
  unfold validate_Tool in Hacc. ap_inv Hacc.
  intros k jv Hin Hget. unfold TOOL_KEYS in Hin. simpl in Hin.
  decompose [or] Hin; try contradiction; subst k;
    cbn [item dump_Tool dict_get String.eqb Ascii.eqb Bool.eqb
         Tool.type Tool.function];
    verbatim_field d jv.
Qed.

Lemma agent_is_kept l x m :
  validate_AgentConfig l x = inr m -> agent_kept x (dump_AgentConfig m).
Proof.
  intros Hacc. destruct x; try discriminate.
  eexists. split; [reflexivity |].
  unfold validate_AgentConfig in Hacc. ap_inv Hacc. split.
  - intros k jv Hin Hget. unfold AGENT_VERBATIM in Hin. simpl in Hin.
    decompose [or] Hin; try contradiction; subst k;
      cbn [item dump_AgentConfig dict_get String.eqb Ascii.eqb Bool.eqb
           AgentConfig.agent_type AgentConfig.specialization
           AgentConfig.personality AgentConfig.guidelines
           AgentConfig.tools_enabled AgentConfig.reasoning_mode];
      verbatim_field d jv.
  - intros k s jv Hin Hget. unfold AGENT_SCALARS in Hin. simpl in Hin.
    decompose [or] Hin; try contradiction;
      match goal with Heq : (_, _) = (k, s) |- _ => injection Heq as <- <- end;
      scalar_field d jv.
Qed.

Lemma memory_is_kept l x m :
  validate_MemoryConfig l x = inr m -> memory_kept x (dump_MemoryConfig m).
Proof.
  intros Hacc. destruct x; try discriminate.
  eexists. split; [reflexivity |].
  unfold validate_MemoryConfig in Hacc. ap_inv Hacc. split.
  - intros k jv Hin Hget. unfold MEMORY_VERBATIM in Hin. simpl in Hin.
    decompose [or] Hin; try contradiction; subst k;
      cbn [item dump_MemoryConfig dict_get String.eqb Ascii.eqb Bool.eqb
           MemoryConfig.memory_type MemoryConfig.retention_policy
           MemoryConfig.retrieval_strategy];
      verbatim_field d jv.
  - intros k s jv Hin Hget. unfold MEMORY_SCALARS in Hin. simpl in Hin.
    decompose [or] Hin; try contradiction;
      match goal with Heq : (_, _) = (k, s) |- _ => injection Heq as <- <- end;
      scalar_field d jv.
Qed.

Lemma mcp_is_kept l x m :
  validate_MCPConfig l x = inr m -> mcp_kept x (dump_MCPConfig m).
Proof.
  intros Hacc. destruct x; try discriminate.
  eexists. split; [reflexivity |].
  unfold validate_MCPConfig in Hacc. ap_inv Hacc. split.
  - intros k jv Hin Hget. unfold MCP_VERBATIM in Hin. simpl in Hin.
    decompose [or] Hin; try contradiction; subst k;
      cbn [item dump_MCPConfig dict_get String.eqb Ascii.eqb Bool.eqb
           MCPConfig.context_sources];
      verbatim_field d jv.
  - intros k s jv Hin Hget. unfold MCP_SCALARS in Hin. simpl in Hin.
    decompose [or] Hin; try contradiction;
      match goal with Heq : (_, _) = (k, s) |- _ => injection Heq as <- <- end;
      scalar_field d jv.
Qed.

Lemma float_is_read l x f : v_float l x = inr f -> float_read x (PFloat f).
Proof. apply read_float. Qed.

(** The scalar fields at the top level: what is dumped is what the
    library reads. *)
Lemma top_level_scalars_read l (d : pydict) (r : ChatCompletionRequest.t) :
  validate_ChatCompletionRequest l (PDict d) = inr r ->
  scalars_read read_optional scalar_fields d (dump_ChatCompletionRequest r).
Proof.
  intros Hacc. unfold validate_ChatCompletionRequest in Hacc. ap_inv Hacc.
  intros k s jv Hin Hget. unfold scalar_fields in Hin. simpl in Hin.
  decompose [or] Hin; try contradiction;
    match goal with Heq : (_, _) = (k, s) |- _ => injection Heq as <- <- end;
    scalar_field d jv.
Qed.

(** The fields at the top level that hold nested values. *)
Lemma nested_fields_kept l (d : pydict) (r : ChatCompletionRequest.t) :
  validate_ChatCompletionRequest l (PDict d) = inr r ->
  let dumped := dump_ChatCompletionRequest r in
  field_kept (list_kept message_kept) "messages" d dumped /\
  field_kept (optional_kept (list_kept tool_kept)) "tools" d dumped /\
  field_kept (optional_kept (dict_kept float_read)) "logit_bias" d dumped /\
  field_kept (optional_kept agent_kept) "agent_config" d dumped /\
  field_kept (optional_kept memory_kept) "memory_config" d dumped /\
  field_kept (optional_kept mcp_kept) "mcp_config" d dumped.
Proof.
  intros Hacc dumped. subst dumped.
  unfold validate_ChatCompletionRequest in Hacc. ap_inv Hacc.
  repeat split; intros jv Hget; (eexists; split; [reflexivity |]);
    match goal with
    | Hg : dict_get ?key d = Some jv, H : required d ?key _ _ = inr _ |- _ =>
        rewrite (required_hit _ _ _ _ _ Hg) in H; rename H into Hread
    | Hg : dict_get ?key d = Some jv, H : with_default d ?key _ _ _ = inr _
      |- _ =>
        rewrite (with_default_hit _ _ _ _ _ _ Hg) in H; rename H into Hread
    end.
  - eapply list_kept_of; [| exact Hread]. exact message_is_kept.
  - eapply optional_kept_of; [| exact Hread].
    apply list_kept_of. exact tool_is_kept.
  - eapply optional_kept_of; [| exact Hread].
    apply dict_kept_of. exact float_is_read.
  - eapply optional_kept_of; [| exact Hread]. exact agent_is_kept.
  - eapply optional_kept_of; [| exact Hread]. exact memory_is_kept.
  - eapply optional_kept_of; [| exact Hread]. exact mcp_is_kept.
Qed.



End Kept.




(** ** The two routes side by side *)







(** ** An HTTP exception raised inside an endpoint *)

Lemma demo_str_exc_http (h : http_exception) :
  demo_str_exc (HTTPExc h) = http_exception_str h.
Proof. reflexivity. Qed.

(** C10, as the specification states it, fails: the status code of the
    original exception does reach the client, inside the message of the
    500 envelope, because the string form of an [HTTPException] begins
    with its status code. *)
Lemma original_status_reaches_the_client :
  item (json_content
          (snd (respond demo_now demo_str_exc None serialize_response
                  demo_http_request
                  (completions_chat_completions demo_dumps demo_str_exc
                     (raising_service (NotFoundException None None))
                     (demo_request (Some false)) tt))))
       "message"
  = Some (PStr (str_int 404 ++ ": " ++ "资源不存在")).
Proof.
  reflexivity.
Qed.

(** C10, amended. An [HTTPException] raised inside either endpoint, a
    [BusinessException] of any class included, is caught by the endpoint
    and replaced by [HTTPException(500, str(e))] without headers.  The
    client gets status 500 and the envelope with error
    [INTERNAL_SERVER_ERROR] and no details, so the error code, the field,
    the headers and the class of the original exception never reach it;
    its status code and its detail do, in the message, which is
    [<status>: <detail>]. *)
Theorem http_exception_is_replaced
    {Session Response UploadFile : Type}
    (json_dumps : pyval -> string) (str_exc : exn -> string)
    (ai_chat_service : AIChatService Session Response)
    (utcnow_isoformat : string) (environment : option string)
    (response_model : Response -> list ErrorEntry + pyval)
    (http_request : option Request)
    (request : ChatCompletionRequest.t) (files : list UploadFile)
    (db : Session) (h : http_exception) :
  (forall h', str_exc (HTTPExc h') = http_exception_str h') ->
  truthy_bool (ChatCompletionRequest.stream request) = false ->
  chat_completion ai_chat_service db request = inl (HTTPExc h) ->
  let a := completions_chat_completions json_dumps str_exc ai_chat_service
             request db in
  let b := colposcopy_chat_completions json_dumps str_exc ai_chat_service
             request files db in
  let text := (str_int (exc_status_code h) ++ ": " ++ exc_detail h)%string in
  let answer := respond utcnow_isoformat str_exc environment response_model
                  http_request in
  snd a = inl (HTTPExc (HTTPException 500 text None)) /\
  snd b = inl (HTTPExc (HTTPException 500 text None)) /\
  answer a
  = ( [ ErrorHTTPException 500 text ],
      JSONBody 500
        (PDict [
           ("success", PBool false);
           ("error", PStr "INTERNAL_SERVER_ERROR");
           ("message", PStr text);
           ("details", PList []);
           ("status_code", PInt 500);
           ("timestamp", PStr (utcnow_isoformat ++ "Z"));
           ("path", dump_opt PStr (option_map url_path http_request));
           ("request_id", PNone) ]) ) /\
  answer b = answer a.
Proof.
  intros Hstr Hstream Hraise a b text answer.
  destruct (reraised_response json_dumps str_exc ai_chat_service
              utcnow_isoformat environment response_model http_request
              request files db (HTTPExc h) Hstream Hraise)
    as (Ha & Hb & Hra & Hrb).
  rewrite Hstr in Ha, Hb, Hra.
  split; [exact Ha |]. split; [exact Hb |]. split; [| exact Hrb].
  etransitivity; [exact Hra |].
  unfold reraised_envelope, http_exception_str, text.
  destruct http_request; reflexivity.
Qed.

Lemma http_exception_is_replaced_witness :
  snd (completions_chat_completions demo_dumps demo_str_exc
         (raising_service (NotFoundException None None))
         (demo_request (Some false)) tt)
  = inl (HTTPExc (HTTPException 500 (str_int 404 ++ ": " ++ "资源不存在") None)).
Proof.
  exact (proj1 (@http_exception_is_replaced unit pyval unit
                  demo_dumps demo_str_exc
                  (raising_service (NotFoundException None None)) demo_now
                  None serialize_response demo_http_request
                  (demo_request (Some false)) [] tt
                  (NotFoundException None None)
                  demo_str_exc_http eq_refl eq_refl)).
Defined.

Lemma digit_string_laws : PydanticLaws digit_string_scalars.
Proof. split; reflexivity. Qed.

(** C9, as the specification states it, fails: the library's default mode
    reads a string of digits at an integer field, so a body whose
    [max_tokens] is the string ["5"] is accepted and dumped with the
    integer [5], not with the value supplied. *)
Lemma digit_string_is_converted :
  PydanticLaws digit_string_scalars /\
  exists r,
    @validate_ChatCompletionRequest digit_string_scalars [LKey "body"]
      (PDict digit_string_body) = inr r /\
    dict_get "max_tokens" digit_string_body = Some (PStr "5") /\
    item (dump_ChatCompletionRequest r) "max_tokens" = Some (PInt 5) /\
    item (dump_ChatCompletionRequest r) "max_tokens"
    <> dict_get "max_tokens" digit_string_body.
Proof.
  split; [exact digit_string_laws |].
  eexists. split; [reflexivity |]. split; [reflexivity |].
  split; [reflexivity |]. discriminate.
Qed.

(** C9, amended. For every JSON object accepted as a
    [ChatCompletionRequest], whatever the library reads at [int], [float]
    and [bool]: dumping the request and validating the dump gives the same
    request back; the supplied values of the fields typed by strings and
    free-form dicts ([model], [stop], [user], [tool_choice], [context_id],
    [session_id], [metadata]) appear in the dump as supplied; a supplied
    integer, float or boolean field appears with what the library reads
    from the value, null staying null, which is the value itself when it
    is supplied at the type of the field; each supplied message and tool
    is an object whose declared keys appear in the dumped item as
    supplied; the entries of [logit_bias] keep their keys and order, each
    value being what the library reads from it at [float]; a supplied
    [agent_config], [memory_config] or [mcp_config] is null and dumped as
    null, or an object whose string and list keys appear as supplied and
    whose scalar keys appear as read; and a field that is not supplied
    appears with its declared default (stream false, max_tokens 1000,
    temperature 0.7, top_p 1.0, n 1, both penalties 0.0,
    include_patient_context false, [None] for the others). *)
Theorem accepted_request_is_kept
    (P : Pydantic) (L : PydanticLaws P) (l l' : loc_t) (d : pydict)
    (r : ChatCompletionRequest.t) :
  validate_ChatCompletionRequest l (PDict d) = inr r ->
  let dumped := dump_ChatCompletionRequest r in
  validate_ChatCompletionRequest l' dumped = inr r /\
  keys_kept verbatim_fields d dumped /\
  scalars_read read_optional scalar_fields d dumped /\
  scalars_kept scalar_fields d dumped /\
  field_kept (list_kept message_kept) "messages" d dumped /\
  field_kept (optional_kept (list_kept tool_kept)) "tools" d dumped /\
  field_kept (optional_kept (dict_kept float_read)) "logit_bias" d dumped /\
  field_kept (optional_kept agent_kept) "agent_config" d dumped /\
  field_kept (optional_kept memory_kept) "memory_config" d dumped /\
  field_kept (optional_kept mcp_kept) "mcp_config" d dumped /\
  (forall k dflt, dict_get k d = None ->
     dict_get k documented_defaults = Some dflt ->
     item dumped k = Some dflt).
Proof.
  intros Hacc dumped. subst dumped.
  destruct (top_level_fields_kept P L l l' d r Hacc)
    as (Hagain & Hverbatim & Hscalars & Hdefaults).
  pose proof (nested_fields_kept l d r Hacc) as Hnested.
  cbv zeta in Hnested.
  destruct Hnested as (Hmsg & Htools & Hbias & Hagent & Hmemory & Hmcp).
  split; [exact Hagain |]. split; [exact Hverbatim |].
  split; [exact (top_level_scalars_read l d r Hacc) |].
  split; [exact Hscalars |].
  split; [exact Hmsg |]. split; [exact Htools |]. split; [exact Hbias |].
  split; [exact Hagent |]. split; [exact Hmemory |]. split; [exact Hmcp |].
  exact Hdefaults.
Qed.

Lemma accepted_request_is_kept_witness :
  exists r,
    validate_ChatCompletionRequest [LKey "body"] (PDict nested_body) = inr r /\
    field_kept (optional_kept (list_kept tool_kept)) "tools" nested_body
      (dump_ChatCompletionRequest r) /\
    field_kept (optional_kept mcp_kept) "mcp_config" nested_body
      (dump_ChatCompletionRequest r).
Proof.
  eexists. split; [reflexivity |].
  pose proof (accepted_request_is_kept exact_scalars exact_scalars_laws
                [LKey "body"] [] nested_body _ eq_refl) as Hkept.
  cbv zeta in Hkept.
  destruct Hkept as (_ & _ & _ & _ & _ & Htools & _ & _ & _ & Hmcp & _).
  split; [exact Htools | exact Hmcp].
Defined.
